(** * LLM-T2T evaluation scripts: a shallow embedding

    The six scripts under [src/evaluation] join a keyed prediction set to a
    keyed gold set, score every matched pair (LLM judge, entailment model,
    ROUGE/BLEU, keyword type classifier) and report percentages with the
    counts [total] and [not_found].

    Python text is modelled as a list of Unicode code points, JSON values as an
    inductive type, exceptions as an explicit result type, and the external
    capabilities (chat completion, NLI pipeline, ROUGE, BLEU) as functions
    that are arguments of the evaluators, as are [str.lower] and the [repr]
    of values that are not text.  Floats are read as rationals.  Reading
    the files, loading the models, printing and the pause between two
    calls of the judge are left out. *)

From Stdlib Require Import List Bool Arith NArith ZArith QArith Ascii String
  DecimalString Lia.
From Stdlib Require DecimalPos DecimalZ.
Import ListNotations.

Close Scope Q_scope.
Local Open Scope list_scope.

(** ** Python text *)

(** A Python [str] is a sequence of code points. *)
Definition char := N.
Definition pystr := list char.

(** An ASCII literal of the source, as code points. *)
Definition lit (s : string) : pystr :=
  map N_of_ascii (list_ascii_of_string s).

(** The double quote, which a literal above cannot hold. *)
Definition dquote : char := 34%N.

Fixpoint str_eqb (a b : pystr) : bool :=
  match a, b with
  | [], [] => true
  | x :: a', y :: b' => N.eqb x y && str_eqb a' b'
  | _, _ => false
  end.

(** [s.startswith(p)] *)
Fixpoint startswith (p s : pystr) : bool :=
  match p, s with
  | [], _ => true
  | x :: p', y :: s' => N.eqb x y && startswith p' s'
  | _ :: _, [] => false
  end.

(** [needle in hay] on two strings: some position of [hay] starts with
    [needle]. *)
Fixpoint contains (needle hay : pystr) : bool :=
  startswith needle hay ||
  match hay with
  | [] => false
  | _ :: hay' => contains needle hay'
  end.

(** The declarative reading of [needle in hay]. *)
Definition Substring (needle hay : pystr) : Prop :=
  exists pre post, hay = pre ++ needle ++ post.

(** [str.isspace] of one character, which is also the class [\s] of [re] on
    text patterns (Unicode 14, CPython 3.11). *)
Definition is_space (c : char) : bool :=
  ((9 <=? c) && (c <=? 13) || (28 <=? c) && (c <=? 32) ||
   (c =? 133) || (c =? 160) || (c =? 5760) ||
   (8192 <=? c) && (c <=? 8202) || (c =? 8232) || (c =? 8233) ||
   (c =? 8239) || (c =? 8287) || (c =? 12288))%N.

(** First code point of every run of ten decimal digits (category Nd). *)
Definition digit_zeros : list N :=
  [48; 1632; 1776; 1984; 2406; 2534; 2662; 2790; 2918; 3046; 3174; 3302;
   3430; 3558; 3664; 3792; 3872; 4160; 4240; 6112; 6160; 6470; 6608; 6784;
   6800; 6992; 7088; 7232; 7248; 42528; 43216; 43264; 43472; 43504; 43600;
   44016; 65296; 66720; 68912; 69734; 69872; 69942; 70096; 70384; 70736;
   70864; 71248; 71360; 71472; 71904; 72016; 72784; 73040; 73120; 92768;
   92864; 93008; 120782; 120792; 120802; 120812; 120822; 123200; 123632;
   125264; 130032]%N.

(** The class [\d] of [re] on text patterns: a Unicode decimal digit. *)
Definition is_digit (c : char) : bool :=
  existsb (fun z => (z <=? c) && (c <? z + 10))%N digit_zeros.

(** [sep.join(parts)] *)
Fixpoint join (sep : pystr) (parts : list pystr) : pystr :=
  match parts with
  | [] => []
  | [p] => p
  | p :: rest => p ++ sep ++ join sep rest
  end.

(** The characters of the words of a list, one more for each word: the
    length of their [join] with a separator of one character, plus one. *)
Fixpoint joined_length (ws : list pystr) : nat :=
  match ws with
  | [] => 0
  | w :: ws' => S (List.length w) + joined_length ws'
  end.

(** [s.split()]: the maximal runs of characters that are not whitespace.
    [cur] holds the run being read, last character first. *)
Fixpoint split_from (cur : pystr) (s : pystr) : list pystr :=
  match s with
  | [] => match cur with [] => [] | _ => [rev cur] end
  | c :: s' =>
      if is_space c
      then match cur with
           | [] => split_from [] s'
           | _ => rev cur :: split_from [] s'
           end
      else split_from (c :: cur) s'
  end.

Definition split (s : pystr) : list pystr := split_from [] s.

(** A word of [split]: not empty, no whitespace. *)
Definition word (w : pystr) : Prop :=
  w <> [] /\ forallb (fun c => negb (is_space c)) w = true.

Fixpoint lstrip (s : pystr) : pystr :=
  match s with
  | c :: s' => if is_space c then lstrip s' else s
  | [] => []
  end.

(** [s.strip()] *)
Definition strip (s : pystr) : pystr := rev (lstrip (rev (lstrip s))).

(** [s[:n]] *)
Definition slice_to (n : nat) (s : pystr) : pystr := firstn n s.

(** [s.lower()] on text of the ASCII range: the letters A-Z are lowered,
    every other character is kept. *)
Definition ascii_lower (s : pystr) : pystr :=
  map (fun c => if (65 <=? c)%N && (c <=? 90)%N then (c + 32)%N else c) s.

Definition is_ascii (c : char) : bool := (c <? 128)%N.

(** What the statements below need of [str.lower], which stays an
    argument of the model: on text of the ASCII range it is
    [ascii_lower]. *)
Definition lowers_ascii (lower : pystr -> pystr) : Prop :=
  forall s, forallb is_ascii s = true -> lower s = ascii_lower s.

(** ** Verdict parsing of the LLM judge *)

(** The test both judges make on the answer text:
    [if POS in answer and NEG not in answer: return 1 else: return 0]. *)
Definition verdict (pos neg answer : pystr) : Z :=
  if contains pos answer && negb (contains neg answer) then 1%Z else 0%Z.

Definition FAITHFUL : pystr := lit "FAITHFUL".
Definition NOT_FAITHFUL : pystr := lit "NOT FAITHFUL".
Definition CORRECT : pystr := lit "CORRECT".
Definition INCORRECT : pystr := lit "INCORRECT".

(** Lines 43-46 of cot_eval.py and 46-49 of cot_eval_lotnlg.py. *)
Definition parse_faithful (answer : pystr) : Z :=
  verdict FAITHFUL NOT_FAITHFUL answer.

(** Lines 51-54 of cot_eval_fetaqa.py. *)
Definition parse_correct (answer : pystr) : Z :=
  verdict CORRECT INCORRECT answer.

(** ** The regular expressions of the source

    Every pattern of the source is a sequence of literal characters and of
    greedy repetitions of one character class, with at most one group.  The
    matcher below backtracks the way [re] does: a repetition first takes
    the longest run and gives characters back one at a time. *)

Inductive item : Type :=
| Chr (c : char)                 (* a literal character *)
| Plus (cls : char -> bool)      (* [cls+] *)
| Star (cls : char -> bool)      (* [cls*] *)
| GroupOpen                      (* the opening parenthesis of group 1 *)
| GroupClose.                    (* its closing parenthesis *)

Definition regex := list item.

(** Length of the longest prefix of [s] inside the class. *)
Fixpoint span (cls : char -> bool) (s : pystr) : nat :=
  match s with
  | c :: s' => if cls c then S (span cls s') else 0
  | [] => 0
  end.

(** Tries [f] at [lo + n], [lo + n - 1], ..., [lo]: the first success. *)
Fixpoint backtrack {A : Type} (f : nat -> option A) (lo n : nat) : option A :=
  match f (lo + n) with
  | Some a => Some a
  | None => match n with
            | O => None
            | S n' => backtrack f lo n'
            end
  end.

(** A match: its length and the bounds of group 1, all counted from the
    position the match starts at. *)
Record rmatch_result : Type := MkMatch {
  m_end : nat;
  g_start : nat;
  g_end : nat
}.

(** [rmatch r s pos gs ge] matches [r] at the head of [s], which stands
    [pos] characters after the start of the match. *)
Fixpoint rmatch (r : regex) (s : pystr) (pos gs ge : nat) : option rmatch_result :=
  match r with
  | [] => Some (MkMatch pos gs ge)
  | Chr c :: r' =>
      match s with
      | x :: s' => if N.eqb x c then rmatch r' s' (S pos) gs ge else None
      | [] => None
      end
  | Plus cls :: r' =>
      match span cls s with
      | O => None
      | S n => backtrack (fun k => rmatch r' (skipn k s) (pos + k) gs ge) 1 n
      end
  | Star cls :: r' =>
      backtrack (fun k => rmatch r' (skipn k s) (pos + k) gs ge) 0 (span cls s)
  | GroupOpen :: r' => rmatch r' s pos pos ge
  | GroupClose :: r' => rmatch r' s pos gs pos
  end.

(** [pattern.match(s)] at the head of [s]. *)
Definition match_here (r : regex) (s : pystr) : option rmatch_result :=
  rmatch r s 0 0 0.

(** The text of group 1 of a match that starts at the head of [s]. *)
Definition group1 (m : rmatch_result) (s : pystr) : pystr :=
  firstn (g_end m - g_start m) (skipn (g_start m) s).

(** [re.search(r, s)]: group 1 of the leftmost match.  The patterns of the
    source start with a literal, so none matches the empty rest. *)
Fixpoint re_search (r : regex) (s : pystr) : option pystr :=
  match s with
  | [] => None
  | _ :: s' =>
      match match_here r s with
      | Some m => Some (group1 m s)
      | None => re_search r s'
      end
  end.

(** [re.sub(r, repl, s)] for a pattern that matches no empty text; [repl]
    receives group 1.  [skip] counts the characters of the last match that
    are still to be passed over. *)
Fixpoint re_sub_from (r : regex) (repl : pystr -> pystr) (s : pystr) (skip : nat) : pystr :=
  match s with
  | [] => []
  | c :: s' =>
      match skip with
      | S k => re_sub_from r repl s' k
      | O =>
          match match_here r s with
          | Some m =>
              match m_end m with
              | S n => repl (group1 m s) ++ re_sub_from r repl s' n
              | O => c :: re_sub_from r repl s' 0
              end
          | None => c :: re_sub_from r repl s' 0
          end
      end
  end.

Definition re_sub (r : regex) (repl : pystr -> pystr) (s : pystr) : pystr :=
  re_sub_from r repl s 0.

(** [re.findall(r, s)] for a pattern with one group that matches no empty
    text: group 1 of every match, left to right, without overlap. *)
Fixpoint re_findall_from (r : regex) (s : pystr) (skip : nat) : list pystr :=
  match s with
  | [] => []
  | _ :: s' =>
      match skip with
      | S k => re_findall_from r s' k
      | O =>
          match match_here r s with
          | Some m =>
              match m_end m with
              | S n => group1 m s :: re_findall_from r s' n
              | O => re_findall_from r s' 0
              end
          | None => re_findall_from r s' 0
          end
      end
  end.

Definition re_findall (r : regex) (s : pystr) : list pystr :=
  re_findall_from r s 0.

Definition chars (s : string) : regex := map Chr (lit s).
Definition is_not (c : char) : char -> bool := fun x => negb (N.eqb x c).

Definition colon : char := 58%N.
Definition dot : char := 46%N.
Definition star : char := 42%N.
Definition hash : char := 35%N.
Definition lparen : char := 40%N.
Definition rparen : char := 41%N.

(** [r'##\s+'] *)
Definition re_header : regex := [Chr hash; Chr hash; Plus is_space].

(** [r'Claim \d+[^:]*:\s*([^\.]+\.)'] *)
Definition re_claim : regex :=
  chars "Claim " ++
  [Plus is_digit; Star (is_not colon); Chr colon; Star is_space;
   GroupOpen; Plus (is_not dot); Chr dot; GroupClose].

(** [r'Reasoning[^:]*:[^\.]+\.'] *)
Definition re_reasoning : regex :=
  chars "Reasoning" ++
  [Star (is_not colon); Chr colon; Plus (is_not dot); Chr dot].

(** [r'\*\*([^\*]+)\*\*'] *)
Definition re_bold : regex :=
  [Chr star; Chr star; GroupOpen; Plus (is_not star); GroupClose;
   Chr star; Chr star].

(** [r'\(([^)]+)\):'] *)
Definition re_label : regex :=
  [Chr lparen; GroupOpen; Plus (is_not rparen); GroupClose;
   Chr rparen; Chr colon].

(** [s] starts with a label in parentheses before a colon: [(lab):] with
    [lab] not empty and without a closing parenthesis. *)
Definition labelled_here (lab s : pystr) : Prop :=
  exists post,
    s = lparen :: lab ++ rparen :: colon :: post /\
    lab <> [] /\ ~ In rparen lab.

(** ** The text normalizer (evaluate_lotnlg.py, lines 10-34) *)

Definition space : pystr := lit " ".

Definition clean_prediction_text (pred_text : pystr) : pystr :=
  (* Remove markdown headers *)
  let pred_text := re_sub re_header (fun _ => []) pred_text in
  (* Extract claims from "Claim X:" format if present *)
  let claims := re_findall re_claim pred_text in
  let pred_text :=
    match claims with
    | [] => pred_text
    | _ :: _ => join space claims
    end in
  (* Remove "Reasoning:" sections *)
  let pred_text := re_sub re_reasoning (fun _ => []) pred_text in
  (* Remove markdown bold **text** *)
  let pred_text := re_sub re_bold (fun g => g) pred_text in
  (* Clean up extra whitespace *)
  join space (split pred_text).

(** No pattern of the normalizer matches anywhere in [y]: no header
    marker, no claim segment, no reasoning span, no bold span. *)
Definition unmatched (y : pystr) : bool :=
  match re_search re_header y, re_search re_claim y,
        re_search re_reasoning y, re_search re_bold y with
  | None, None, None, None => true
  | _, _, _, _ => false
  end.

(** *** Markdown in well-formed position

    A text whose markers all stand where the patterns expect them: plain
    text without [#], [*] and [:], bold spans [**t**] around such text,
    and header markers [##] with the whole run of whitespace after them. *)

Inductive token : Type :=
| Text (s : pystr)
| Bold (t : pystr)
| Header (ws : pystr).

Definition render (tok : token) : pystr :=
  match tok with
  | Text s => s
  | Bold t => [star; star] ++ t ++ [star; star]
  | Header ws => [hash; hash] ++ ws
  end.

(** The text of a token without its markers. *)
Definition plain (tok : token) : pystr :=
  match tok with
  | Text s => s
  | Bold t => t
  | Header _ => []
  end.

Fixpoint render_all (toks : list token) : pystr :=
  match toks with
  | [] => []
  | tok :: rest => render tok ++ render_all rest
  end.

Fixpoint plain_all (toks : list token) : pystr :=
  match toks with
  | [] => []
  | tok :: rest => plain tok ++ plain_all rest
  end.

Definition plain_char (c : char) : bool :=
  negb (N.eqb c hash) && negb (N.eqb c star) && negb (N.eqb c colon).

Definition starts_with_space (s : pystr) : bool :=
  match s with
  | c :: _ => is_space c
  | [] => false
  end.

Definition nonempty (s : pystr) : bool :=
  match s with
  | [] => false
  | _ :: _ => true
  end.

Fixpoint well_formed (toks : list token) : bool :=
  match toks with
  | [] => true
  | Text s :: rest => forallb plain_char s && well_formed rest
  | Bold t :: rest => nonempty t && forallb plain_char t && well_formed rest
  | Header ws :: rest =>
      nonempty ws && forallb is_space ws
      && negb (starts_with_space (render_all rest)) && well_formed rest
  end.

Definition is_header (tok : token) : bool :=
  match tok with
  | Header _ => true
  | _ => false
  end.

(** The tokens that are left once the header markers are gone. *)
Definition remove_headers (toks : list token) : list token :=
  filter (fun tok => negb (is_header tok)) toks.

(** ** JSON values, exceptions and the Python operations on them *)

(** What [json.load] returns.  A finite float is read as a rational. *)
#[local] Unset Elimination Schemes.
Inductive json : Type :=
| JNull
| JBool (b : bool)
| JInt (z : Z)
| JFloat (q : Q)
| JStr (s : pystr)
| JList (l : list json)
| JDict (d : list (pystr * json)).
#[local] Set Elimination Schemes.

(** A parsed JSON object: its items in insertion order, one per key. *)
Definition dict := list (pystr * json).

Inductive exn : Type :=
| KeyError
| IndexError
| TypeError
| AttributeError
| StopIteration
| ExternalError.   (* raised inside an external capability *)

Inductive result (A : Type) : Type :=
| Ok (a : A)
| Raise (e : exn).
Arguments Ok {A} a.
Arguments Raise {A} e.

Definition bind {A B : Type} (r : result A) (k : A -> result B) : result B :=
  match r with
  | Ok a => k a
  | Raise e => Raise e
  end.

Declare Scope result_scope.
Delimit Scope result_scope with result.
Notation "x <- e ;; k" := (bind e (fun x => k))
  (at level 61, e at next level, right associativity) : result_scope.

(** [d.get(k)] as an option. *)
Fixpoint dict_find (d : dict) (k : pystr) : option json :=
  match d with
  | [] => None
  | (k', v) :: d' => if str_eqb k' k then Some v else dict_find d' k
  end.

(** [k in d] *)
Definition dict_mem (d : dict) (k : pystr) : bool :=
  match dict_find d k with Some _ => true | None => false end.

(** [d.get(k, default)] *)
Definition dict_get (d : dict) (k : pystr) (default : json) : json :=
  match dict_find d k with Some v => v | None => default end.

(** [d[k]] *)
Definition dict_index (d : dict) (k : pystr) : result json :=
  match dict_find d k with Some v => Ok v | None => Raise KeyError end.

(** [gold_item.get]: only a JSON object has the method. *)
Definition as_dict (v : json) : result dict :=
  match v with
  | JDict d => Ok d
  | _ => Raise AttributeError
  end.

(** Truth value of a JSON value in [if v:]. *)
Definition truthy (v : json) : bool :=
  match v with
  | JNull => false
  | JBool b => b
  | JInt z => negb (Z.eqb z 0)
  | JFloat q => negb (Qeq_bool q 0)
  | JStr s => match s with [] => false | _ => true end
  | JList l => match l with [] => false | _ => true end
  | JDict d => match d with [] => false | _ => true end
  end.

(** A list or an object cannot be a dictionary key. *)
Definition hashable (v : json) : bool :=
  match v with
  | JList _ | JDict _ => false
  | _ => true
  end.

(** [str(z)] of an integer. *)
Definition str_of_int (z : Z) : pystr :=
  lit (DecimalString.NilZero.string_of_int (Z.to_int z)).

(** [str(v)].  The text of a float, a list or an object is CPython's
    [repr], taken as [repr]. *)
Definition py_str (repr : json -> pystr) (v : json) : pystr :=
  match v with
  | JStr s => s
  | JInt z => str_of_int z
  | JBool true => lit "True"
  | JBool false => lit "False"
  | JNull => lit "None"
  | _ => repr v
  end.

(** [' '.join(l)]: every element must be text. *)
Fixpoint as_strs (l : list json) : result (list pystr) :=
  match l with
  | [] => Ok []
  | JStr s :: l' =>
      match as_strs l' with
      | Ok ss => Ok (s :: ss)
      | Raise e => Raise e
      end
  | _ :: _ => Raise TypeError
  end.

Definition join_json (l : list json) : result pystr :=
  match as_strs l with
  | Ok ss => Ok (join space ss)
  | Raise e => Raise e
  end.

(** The effective text of a prediction:
    [' '.join(pred_data) if isinstance(pred_data, list) else str(pred_data)]. *)
Definition prediction_text (repr : json -> pystr) (pred_data : json) : result pystr :=
  match pred_data with
  | JList l => join_json l
  | v => Ok (py_str repr v)
  end.

(** [v[:n]]: text and lists can be sliced. *)
Definition py_slice_to (n : nat) (v : json) : result json :=
  match v with
  | JStr s => Ok (JStr (slice_to n s))
  | JList l => Ok (JList (firstn n l))
  | _ => Raise TypeError
  end.

(** [l[0]] *)
Definition py_first (l : list json) : result json :=
  match l with
  | x :: _ => Ok x
  | [] => Raise IndexError
  end.

(** [v.split()]: only text has the method. *)
Definition py_split (v : json) : result (list pystr) :=
  match v with
  | JStr s => Ok (split s)
  | _ => Raise AttributeError
  end.

(** [v.lower()]: only text has the method; [lower] is [str.lower]. *)
Definition py_lower (lower : pystr -> pystr) (v : json) : result pystr :=
  match v with
  | JStr s => Ok (lower s)
  | _ => Raise AttributeError
  end.

(** ** The join of predictions and gold records *)

(** The dictionary from secondary key to gold record, newest entry first;
    an assignment to a key already there shadows the older entry. *)
Definition gold_index := list (json * dict).

(** [key in index], [index[key]] for a prediction key, which is text. *)
Fixpoint index_find (index : gold_index) (key : pystr) : option dict :=
  match index with
  | [] => None
  | (JStr k, g) :: index' => if str_eqb k key then Some g else index_find index' key
  | _ :: index' => index_find index' key
  end.

(** The [for] statement over the items of a dictionary: an exception of
    the body ends the loop and the function. *)
Fixpoint for_items {S : Type} (body : S -> pystr -> json -> result S)
    (items : dict) (s : S) : result S :=
  match items with
  | [] => Ok s
  | (k, v) :: items' =>
      match body s k v with
      | Ok s' => for_items body items' s'
      | Raise e => Raise e
      end
  end.

(** The index loop of cot_eval.py, cot_eval_lotnlg.py, evaluate_logicnlg.py
    and evaluate_lotnlg.py:
    [csv_id = gold_item.get(field); if csv_id: index[csv_id] = gold_item]. *)
Definition index_raw (field : pystr) (index : gold_index) (idx : pystr)
    (gold_item : json) : result gold_index :=
  (g <- as_dict gold_item ;;
   let id := dict_get g field JNull in
   if truthy id
   then if hashable id then Ok ((id, g) :: index) else Raise TypeError
   else Ok index)%result.

(** The index loop of the two FeTaQA scripts:
    [if feta_id: index[str(feta_id)] = gold_item]. *)
Definition index_str (repr : json -> pystr) (field : pystr) (index : gold_index)
    (idx : pystr) (gold_item : json) : result gold_index :=
  (g <- as_dict gold_item ;;
   let id := dict_get g field JNull in
   if truthy id
   then Ok ((JStr (py_str repr id), g) :: index)
   else Ok index)%result.

Module Lexical.

(** ** The scoring block of the lexical evaluators

    The [try] block adds to the [results] dictionary as it goes, so what it
    added before an exception stays.  A computation of the block takes the
    dictionary and returns it with a value or an exception. *)

Definition metrics := list (pystr * Q).

Definition Try (A : Type) : Type := metrics -> metrics * result A.

Definition tret {A : Type} (a : A) : Try A := fun m => (m, Ok a).

Definition tbind {A B : Type} (c : Try A) (k : A -> Try B) : Try B :=
  fun m =>
    match c m with
    | (m', Ok a) => k a m'
    | (m', Raise e) => (m', Raise e)
    end.

Definition lift {A : Type} (r : result A) : Try A := fun m => (m, r).

Declare Scope try_scope.
Delimit Scope try_scope with try.
Notation "x <- e ;; k" := (tbind e (fun x => k))
  (at level 61, e at next level, right associativity) : try_scope.
Notation "e ;; k" := (tbind e (fun _ => k))
  (at level 61, right associativity) : try_scope.

Fixpoint metrics_update (m : metrics) (key : pystr) (v : Q) : option metrics :=
  match m with
  | [] => None
  | (k, x) :: m' =>
      if str_eqb k key then Some ((k, (x + v)%Q) :: m')
      else match metrics_update m' key v with
           | Some m'' => Some ((k, x) :: m'')
           | None => None
           end
  end.

(** [results[key] += v] *)
Definition metric_add (key : pystr) (v : Q) : Try unit :=
  fun m =>
    match metrics_update m key v with
    | Some m' => (m', Ok tt)
    | None => (m, Raise KeyError)
    end.

(** The percentages:
    [if total > 0: for key in results: results[key] = (results[key] / total) * 100]. *)
Definition finalize (results : metrics) (total : nat) : metrics :=
  if 0 <? total
  then map (fun kv => (fst kv, (snd kv / inject_Z (Z.of_nat total) * 100)%Q)) results
  else results.

(** The dictionary a lexical evaluator returns. *)
Record report : Type := MkReport {
  r_metrics : metrics;
  r_total : nat;
  r_not_found : nat;
  r_has_type_em : bool
}.

(** The state of the evaluation loop. *)
Record loop_state : Type := MkLoop {
  results : metrics;
  total : nat;
  not_found : nat
}.

Definition miss (st : loop_state) : loop_state :=
  MkLoop (results st) (total st) (S (not_found st)).

(** [try: block; total += 1 / except Exception: continue].  The dictionary
    is shared, so the additions of a block that raised are kept. *)
Definition try_score (st : loop_state) (block : Try unit) : loop_state :=
  match block (results st) with
  | (m, Ok _) => MkLoop m (S (total st)) (not_found st)
  | (m, Raise _) => MkLoop m (total st) (not_found st)
  end.

(** One turn of the loop on the state: [None] when the key has no gold
    record ([not_found += 1; continue]), else the [try] block of the
    matched pair. *)
Definition settle (st : loop_state) (pair : option (Try unit)) : loop_state :=
  match pair with
  | None => miss st
  | Some block => try_score st block
  end.

(** [results['total'] = total; results['not_found'] = not_found] after the
    percentages. *)
Definition summary (st : loop_state) (has_type_em : bool) : report :=
  MkReport (finalize (results st) (total st)) (total st) (not_found st)
    has_type_em.

(** [next(iter(gold_data.values()))] *)
Definition first_value (gold_data : dict) : result json :=
  match gold_data with
  | (_, v) :: _ => Ok v
  | [] => Raise StopIteration
  end.

(** ['logical_labels' in sample_item]; every gold item is an object once
    the index loop has passed. *)
Definition has_key (key : pystr) (item : json) : bool :=
  match item with
  | JDict d => dict_mem d key
  | _ => false
  end.

(** The first gold sentence:
    [gold_sentences[0] if isinstance(gold_sentences, list) else str(gold_sentences)],
    and the same for the logical labels. *)
Definition first_or_str (repr : json -> pystr) (v : json) : result json :=
  match v with
  | JList l => py_first l
  | _ => Ok (JStr (py_str repr v))
  end.

(** The keyword loop: the first type, in the order of the dictionary,
    one of whose keywords occurs in the lowered prediction. *)
Definition infer_type (type_keywords : list (pystr * list pystr))
    (text_lower : pystr) : pystr :=
  match find (fun tk => existsb (fun kw => contains kw text_lower) (snd tk))
             type_keywords with
  | Some tk => fst tk
  | None => lit "surface-level"
  end.

Definition ENTAILMENT : pystr := lit "ENTAILMENT".

(** Two [results] dictionaries with the same keys in the same order. *)
Definition same_keys (m1 m2 : metrics) : Prop :=
  map fst m1 = map fst m2.

(** A computation of the [try] block whose outcome depends only on the
    keys of the dictionary, and which keeps them. *)
Definition uniform {A : Type} (c : Try A) : Prop :=
  forall m1 m2, same_keys m1 m2 ->
    same_keys m1 (fst (c m1)) /\ snd (c m1) = snd (c m2).

End Lexical.

Module EvaluateFetaqa.
Import Lexical.

(** The three F-measures of one [rouge.score] call. *)
Record rouge_scores : Type := MkRouge {
  rouge1 : Q;
  rouge2 : Q;
  rougeL : Q
}.

Section Eval.

Variable repr : json -> pystr.
(** [rouge.score(target, prediction)] of the scorer for rouge1, rouge2 and
    rougeL; the target is whatever the gold record holds. *)
Variable rouge_score : json -> pystr -> result rouge_scores.
(** [sentence_bleu(references, candidate, smoothing_function=smooth.method1)] *)
Variable sentence_bleu : list (list pystr) -> list pystr -> result Q.

Definition results0 : metrics :=
  [(lit "rouge1", 0%Q); (lit "rouge2", 0%Q); (lit "rougeL", 0%Q);
   (lit "bleu", 0%Q)].

(** The [try] block of one matched pair. *)
Definition score_example (gold_answer : json) (pred_text : pystr) : Try unit :=
  (rouge_scores <- lift (rouge_score gold_answer pred_text) ;;
   metric_add (lit "rouge1") (rouge1 rouge_scores) ;;
   metric_add (lit "rouge2") (rouge2 rouge_scores) ;;
   metric_add (lit "rougeL") (rougeL rouge_scores) ;;
   reference <- lift (py_split gold_answer) ;;
   let candidate := split pred_text in
   bleu <- lift (sentence_bleu [reference] candidate) ;;
   metric_add (lit "bleu") bleu)%try.

(** The loop body up to the [try]: the match by [feta_id] and the [try]
    block of a matched pair. *)
Definition matched (index : gold_index) (table_id : pystr) (pred_data : json)
    : result (option (Try unit)) :=
  match index_find index table_id with
  | None => Ok None
  | Some gold_item =>
      (pred_text <- prediction_text repr pred_data ;;
       gold_answer <- dict_index gold_item (lit "answer") ;;
       Ok (Some (score_example gold_answer pred_text)))%result
  end.

Definition step (index : gold_index) (st : loop_state) (table_id : pystr)
    (pred_data : json) : result loop_state :=
  (pair <- matched index table_id pred_data ;;
   Ok (settle st pair))%result.

(** The dictionary [evaluate_fetaqa] returns has no ['has_type_em'] entry;
    the field of the report is [false]. *)
Definition evaluate_fetaqa (predictions gold_data : dict) : result report :=
  (feta_id_to_gold <- for_items (index_str repr (lit "feta_id")) gold_data [] ;;
   st <- for_items (step feta_id_to_gold) predictions (MkLoop results0 0 0) ;;
   Ok (summary st false))%result.

End Eval.
End EvaluateFetaqa.

Module EvaluateLogicnlg.
Import Lexical.

Section Eval.

Variable repr : json -> pystr.
(** [str.lower] *)
Variable lower : pystr -> pystr.
(** The label of [nli_model(text)[0]]. *)
Variable nli_model : pystr -> result pystr.
(** The rougeL F-measure of [rouge.score(target, prediction)]. *)
Variable rouge_score : json -> pystr -> result Q.
(** [sentence_bleu(references, candidate)] *)
Variable sentence_bleu : list (list pystr) -> list pystr -> result Q.

Definition type_keywords : list (pystr * list pystr) :=
  [(lit "aggregation", [lit "total"; lit "sum"; lit "average"; lit "mean"]);
   (lit "superlative",
    [lit "most"; lit "highest"; lit "lowest"; lit "best"; lit "worst"]);
   (lit "count", [lit "number of"; lit "count"; lit "how many"]);
   (lit "comparative",
    [lit "more than"; lit "less than"; lit "greater"; lit "higher";
     lit "lower"]);
   (lit "ordinal", [lit "first"; lit "second"; lit "third"; lit "last"]);
   (lit "unique", [lit "different"; lit "unique"; lit "distinct"]);
   (lit "negation", [lit "not"; lit "no"; lit "never"; lit "did not"])].

(** Lines 115-119: the predicted type always comes from the keywords. *)
Definition predicted_type (pred_text : pystr) : pystr :=
  infer_type type_keywords (lower pred_text).

(** Line 121: [pred_type.lower() in gold_type.lower()]. *)
Definition type_match (pred_type : pystr) (gold_type : json) : result bool :=
  (gold_lower <- py_lower lower gold_type ;;
   Ok (contains (lower pred_type) gold_lower))%result.

Definition results0 (has_logical_labels : bool) : metrics :=
  [(lit "nli_acc", 0%Q); (lit "rouge_l", 0%Q); (lit "bleu", 0%Q)]
  ++ (if has_logical_labels then [(lit "type_em", 0%Q)] else []).

(** The type matching of lines 98-122. *)
Definition score_type (gold_item : dict) (pred_text : pystr) : Try unit :=
  (gold_labels <- lift (dict_index gold_item (lit "logical_labels")) ;;
   gold_type <- lift (first_or_str repr gold_labels) ;;
   let pred_type := predicted_type pred_text in
   hit <- lift (type_match pred_type gold_type) ;;
   if hit : bool then metric_add (lit "type_em") 1%Q else tret tt)%try.

(** The [try] block of one matched pair. *)
Definition score_example (has_logical_labels : bool) (gold_item : dict)
    (table_str gold_text : json) (pred_text : pystr) : Try unit :=
  (table_prefix <- lift (py_slice_to 1000 table_str) ;;
   let nli_input :=
     py_str repr table_prefix ++ lit " [SEP] " ++ slice_to 500 pred_text in
   label <- lift (nli_model nli_input) ;;
   (if str_eqb label ENTAILMENT then metric_add (lit "nli_acc") 1%Q
    else tret tt) ;;
   rouge_l <- lift (rouge_score gold_text pred_text) ;;
   metric_add (lit "rouge_l") rouge_l ;;
   reference <- lift (py_split gold_text) ;;
   let candidate := split pred_text in
   bleu <- lift (sentence_bleu [reference] candidate) ;;
   metric_add (lit "bleu") bleu ;;
   if has_logical_labels then score_type gold_item pred_text else tret tt)%try.

(** The loop body up to the [try]: the match by [csv_id] and the [try]
    block of a matched pair. *)
Definition matched (has_logical_labels : bool) (index : gold_index)
    (csv_id : pystr) (pred_data : json) : result (option (Try unit)) :=
  match index_find index csv_id with
  | None => Ok None
  | Some gold_item =>
      (pred_text <- prediction_text repr pred_data ;;
       table_str <- dict_index gold_item (lit "table_text") ;;
       gold_sentences <- dict_index gold_item (lit "sentences") ;;
       gold_text <- first_or_str repr gold_sentences ;;
       Ok (Some
             (score_example has_logical_labels gold_item table_str gold_text
                pred_text)))%result
  end.

Definition step (has_logical_labels : bool) (index : gold_index)
    (st : loop_state) (csv_id : pystr) (pred_data : json) : result loop_state :=
  (pair <- matched has_logical_labels index csv_id pred_data ;;
   Ok (settle st pair))%result.

(** [evaluate_lotnlg] of evaluate_logicnlg.py. *)
Definition evaluate_lotnlg (predictions gold_data : dict) : result report :=
  (csv_id_to_gold <- for_items (index_raw (lit "csv_id")) gold_data [] ;;
   sample_item <- first_value gold_data ;;
   let has_logical_labels := has_key (lit "logical_labels") sample_item in
   st <- for_items (step has_logical_labels csv_id_to_gold) predictions
           (MkLoop (results0 has_logical_labels) 0 0) ;;
   Ok (summary st has_logical_labels))%result.

End Eval.
End EvaluateLogicnlg.

Module EvaluateLotnlg.
Import Lexical.

Section Eval.

Variable repr : json -> pystr.
Variable lower : pystr -> pystr.
Variable nli_model : pystr -> result pystr.
Variable rouge_score : json -> pystr -> result Q.
Variable sentence_bleu : list (list pystr) -> list pystr -> result Q.

Definition type_keywords : list (pystr * list pystr) :=
  [(lit "aggregation",
    [lit "total"; lit "sum"; lit "average"; lit "mean"; lit "aggregate"]);
   (lit "superlative",
    [lit "most"; lit "highest"; lit "lowest"; lit "best"; lit "worst";
     lit "maximum"; lit "minimum"; lit "largest"; lit "smallest";
     lit "superlative"]);
   (lit "count",
    [lit "number of"; lit "count"; lit "how many"; lit "there are";
     lit "count:"]);
   (lit "comparative",
    [lit "more than"; lit "less than"; lit "greater"; lit "higher";
     lit "lower"; lit "comparative:"; lit "compared"]);
   (lit "ordinal",
    [lit "first"; lit "second"; lit "third"; lit "last"; lit "ordinal:"]);
   (lit "unique",
    [lit "different"; lit "unique"; lit "distinct"; lit "unique:"]);
   (lit "negation",
    [lit "not"; lit "no"; lit "never"; lit "did not"; lit "negation:"])].

(** Lines 147-156: an explicit label in parentheses before a colon, else
    the keywords. *)
Definition predicted_type (pred_text : pystr) : pystr :=
  match re_search re_label pred_text with
  | Some label => strip (lower label)
  | None => infer_type type_keywords (lower pred_text)
  end.

(** Line 158:
    [pred_type.lower() in gold_type.lower() or gold_type.lower() in pred_type.lower()]. *)
Definition type_match (pred_type : pystr) (gold_type : json) : result bool :=
  (gold_lower <- py_lower lower gold_type ;;
   Ok (contains (lower pred_type) gold_lower
       || contains gold_lower (lower pred_type)))%result.

Definition results0 (has_logical_labels : bool) : metrics :=
  [(lit "nli_acc", 0%Q); (lit "rouge_l", 0%Q); (lit "bleu", 0%Q)]
  ++ (if has_logical_labels then [(lit "type_em", 0%Q)] else []).

(** The type matching of lines 129-159. *)
Definition score_type (gold_item : dict) (pred_text : pystr) : Try unit :=
  (gold_labels <- lift (dict_index gold_item (lit "logical_labels")) ;;
   gold_type <- lift (first_or_str repr gold_labels) ;;
   let pred_type := predicted_type pred_text in
   hit <- lift (type_match pred_type gold_type) ;;
   if hit : bool then metric_add (lit "type_em") 1%Q else tret tt)%try.

(** The [try] block of one matched pair: the entailment model reads the
    prediction as it is, ROUGE and BLEU the cleaned one. *)
Definition score_example (has_logical_labels : bool) (gold_item : dict)
    (table_str gold_text : json) (pred_text pred_text_clean : pystr)
    : Try unit :=
  (table_prefix <- lift (py_slice_to 1000 table_str) ;;
   let nli_input :=
     py_str repr table_prefix ++ lit " [SEP] " ++ slice_to 500 pred_text in
   label <- lift (nli_model nli_input) ;;
   (if str_eqb label ENTAILMENT then metric_add (lit "nli_acc") 1%Q
    else tret tt) ;;
   rouge_l <- lift (rouge_score gold_text pred_text_clean) ;;
   metric_add (lit "rouge_l") rouge_l ;;
   reference <- lift (py_split gold_text) ;;
   let candidate := split pred_text_clean in
   bleu <- lift (sentence_bleu [reference] candidate) ;;
   metric_add (lit "bleu") bleu ;;
   if has_logical_labels then score_type gold_item pred_text else tret tt)%try.

(** The loop body up to the [try]: the match by [csv_id] and the [try]
    block of a matched pair. *)
Definition matched (has_logical_labels : bool) (index : gold_index)
    (csv_id : pystr) (pred_data : json) : result (option (Try unit)) :=
  match index_find index csv_id with
  | None => Ok None
  | Some gold_item =>
      (pred_text <- prediction_text repr pred_data ;;
       let pred_text_clean := clean_prediction_text pred_text in
       table_str <- dict_index gold_item (lit "table_text") ;;
       gold_sentences <- dict_index gold_item (lit "sentences") ;;
       gold_text <- first_or_str repr gold_sentences ;;
       Ok (Some
             (score_example has_logical_labels gold_item table_str gold_text
                pred_text pred_text_clean)))%result
  end.

Definition step (has_logical_labels : bool) (index : gold_index)
    (st : loop_state) (csv_id : pystr) (pred_data : json) : result loop_state :=
  (pair <- matched has_logical_labels index csv_id pred_data ;;
   Ok (settle st pair))%result.

(** [evaluate_lotnlg] of evaluate_lotnlg.py. *)
Definition evaluate_lotnlg (predictions gold_data : dict) : result report :=
  (csv_id_to_gold <- for_items (index_raw (lit "csv_id")) gold_data [] ;;
   sample_item <- first_value gold_data ;;
   let has_logical_labels := has_key (lit "logical_labels") sample_item in
   st <- for_items (step has_logical_labels csv_id_to_gold) predictions
           (MkLoop (results0 has_logical_labels) 0 0) ;;
   Ok (summary st has_logical_labels))%result.

(** No scorer invocation of the run raises: the [try] block of every
    matched pair ends without an exception.  The block is run here on the
    fresh [results] dictionary; whether it raises does not depend on the
    numbers the dictionary holds. *)
Definition scorers_return (predictions gold_data : dict) : Prop :=
  forall index sample_item csv_id pred_data block,
    for_items (index_raw (lit "csv_id")) gold_data [] = Ok index ->
    first_value gold_data = Ok sample_item ->
    In (csv_id, pred_data) predictions ->
    matched (has_key (lit "logical_labels") sample_item) index csv_id
      pred_data = Ok (Some block) ->
    snd (block (results0 (has_key (lit "logical_labels") sample_item)))
    = Ok tt.

End Eval.
End EvaluateLotnlg.

(** ** The LLM judges *)

Definition nl : pystr := [10%N].
Definition quoted (s : string) : pystr := dquote :: lit s ++ [dquote].

Module Judge.

(** The counters of the three [evaluate_all] loops. *)
Record state : Type := MkState {
  total_score : Z;
  total_count : nat;
  not_found : nat
}.

Definition init : state := MkState 0 0 0.

(** [(total_score / total_count * 100) if total_count > 0 else 0]

    The quotient is a float in the source and a rational here.  What is
    proved of it holds of both: its bounds, where it is 0 and where it
    is 100. *)
Definition accuracy (st : state) : Q :=
  if 0 <? total_count st
  then (inject_Z (total_score st) / inject_Z (Z.of_nat (total_count st)) * 100)%Q
  else 0%Q.

Definition miss (st : state) : state :=
  MkState (total_score st) (total_count st) (S (not_found st)).

(** [total_score += score; total_count += 1] *)
Definition count (st : state) (score : Z) : state :=
  MkState (total_score st + score) (S (total_count st)) (not_found st).

(** [try: ... except Exception: continue] around the scoring of one pair. *)
Definition try_count (st : state) (scored : result Z) : state :=
  match scored with
  | Ok score => count st score
  | Raise _ => st
  end.

(** One turn of the loop on the counters: [None] when the key has no gold
    record ([not_found += 1; continue]), else the outcome of the [try]
    block of the matched pair. *)
Definition settle (st : state) (pair : option (result Z)) : state :=
  match pair with
  | None => miss st
  | Some scored => try_count st scored
  end.

(** What [evaluate_all] prints and returns. *)
Record report : Type := MkReport {
  r_accuracy : Q;
  r_evaluated : nat;
  r_not_found : nat;
  r_positive : Z
}.

Definition summary (st : state) : report :=
  MkReport (accuracy st) (total_count st) (not_found st) (total_score st).

End Judge.

Module CotEval.
Import Judge.

Section Eval.

Variable repr : json -> pystr.
(** [openai.ChatCompletion.create] followed by the extraction of
    [response['choices'][0]['message']['content']], for a model name and a
    prompt: the answer text, or the exception of a failed call or of a
    response that holds no such text. *)
Variable chat_completion : pystr -> pystr -> result pystr.

Definition COT_EVAL_PROMPT (table statement : pystr) : pystr :=
  lit "Given a table and a generated statement, determine if the statement is factually correct and faithful to the table."
  ++ nl ++ nl ++ lit "Table:" ++ nl ++ table ++ nl ++ nl
  ++ lit "Generated Statement:" ++ nl ++ statement ++ nl ++ nl
  ++ lit "Please reason step-by-step:" ++ nl
  ++ lit "1. Extract the key facts from the table" ++ nl
  ++ lit "2. Identify claims made in the statement" ++ nl
  ++ lit "3. Verify each claim against the table" ++ nl
  ++ lit "4. Determine if the statement is faithful (all facts are correct)"
  ++ nl ++ nl
  ++ lit "Answer with " ++ quoted "FAITHFUL" ++ lit " or "
  ++ quoted "NOT FAITHFUL" ++ lit " at the end.".

Definition evaluate_single (table_text generated_text : json) (model : pystr)
    : result Z :=
  let prompt :=
    COT_EVAL_PROMPT (py_str repr table_text) (py_str repr generated_text) in
  (answer <- chat_completion model prompt ;;
   Ok (parse_faithful answer))%result.

(** The loop body up to the [try]: the match by [csv_id] and the [try]
    block of a matched pair. *)
Definition matched (index : gold_index) (model : pystr) (csv_id : pystr)
    (pred_text : json) : result (option (result Z)) :=
  match index_find index csv_id with
  | None => Ok None
  | Some gold_item =>
      (table_text <- dict_index gold_item (lit "table_text") ;;
       Ok (Some (evaluate_single table_text pred_text model)))%result
  end.

(** The body of the loop over [predictions.items()]. *)
Definition step (index : gold_index) (model : pystr) (st : state)
    (csv_id : pystr) (pred_text : json) : result state :=
  (pair <- matched index model csv_id pred_text ;;
   Ok (settle st pair))%result.

Definition evaluate_all (predictions gold_data : dict) (model : pystr)
    : result report :=
  (csv_id_to_gold <- for_items (index_raw (lit "csv_id")) gold_data [] ;;
   st <- for_items (step csv_id_to_gold model) predictions init ;;
   Ok (summary st))%result.

(** No scorer invocation of the run raises: on every prediction matched
    to a gold record, [evaluate_single] returns a score. *)
Definition scorers_return (predictions gold_data : dict) (model : pystr)
    : Prop :=
  forall index csv_id pred_text scored,
    for_items (index_raw (lit "csv_id")) gold_data [] = Ok index ->
    In (csv_id, pred_text) predictions ->
    matched index model csv_id pred_text = Ok (Some scored) ->
    exists score, scored = Ok score.

End Eval.
End CotEval.

Module CotEvalFetaqa.
Import Judge.

Section Eval.

Variable repr : json -> pystr.
Variable chat_completion : pystr -> pystr -> result pystr.

Definition COT_EVAL_PROMPT_FETAQA (table question reference prediction : pystr)
    : pystr :=
  lit "Given a table, a question about the table, a reference answer, and a predicted answer, determine if the predicted answer correctly answers the question based on the table."
  ++ nl ++ nl ++ lit "Table:" ++ nl ++ table ++ nl ++ nl
  ++ lit "Question: " ++ question ++ nl ++ nl
  ++ lit "Reference Answer: " ++ reference ++ nl ++ nl
  ++ lit "Predicted Answer: " ++ prediction ++ nl ++ nl
  ++ lit "Please reason step-by-step:" ++ nl
  ++ lit "1. Identify what information the question asks for" ++ nl
  ++ lit "2. Extract the relevant data from the table" ++ nl
  ++ lit "3. Compare the predicted answer with the reference answer" ++ nl
  ++ lit "4. Check if the predicted answer contains the correct information from the table"
  ++ nl
  ++ lit "5. Determine if the prediction is correct (semantically equivalent, even if worded differently)"
  ++ nl ++ nl
  ++ lit "Answer with " ++ quoted "CORRECT" ++ lit " or "
  ++ quoted "INCORRECT" ++ lit " at the end.".

(** The call and the parse stand in a [try] of their own, whose handler
    returns 0. *)
Definition evaluate_single_fetaqa (table_text question reference : json)
    (prediction : pystr) (model : pystr) : Z :=
  let prompt :=
    COT_EVAL_PROMPT_FETAQA (py_str repr table_text) (py_str repr question)
      (py_str repr reference) prediction in
  match chat_completion model prompt with
  | Ok answer => parse_correct answer
  | Raise _ => 0%Z
  end.

Definition matched (index : gold_index) (model : pystr) (table_id : pystr)
    (pred_data : json) : result (option (result Z)) :=
  match index_find index table_id with
  | None => Ok None
  | Some gold_item =>
      (pred_text <- prediction_text repr pred_data ;;
       let table_text := dict_get gold_item (lit "table_text") (JStr []) in
       let question := dict_get gold_item (lit "question") (JStr []) in
       let reference := dict_get gold_item (lit "answer") (JStr []) in
       Ok (Some
             (table_text_trunc <- py_slice_to 1500 table_text ;;
              let pred_text_trunc := slice_to 500 pred_text in
              reference_trunc <- py_slice_to 500 reference ;;
              Ok (evaluate_single_fetaqa table_text_trunc question
                    reference_trunc pred_text_trunc model))))%result
  end.

Definition step (index : gold_index) (model : pystr) (st : state)
    (table_id : pystr) (pred_data : json) : result state :=
  (pair <- matched index model table_id pred_data ;;
   Ok (settle st pair))%result.

Definition evaluate_all_fetaqa (predictions gold_data : dict) (model : pystr)
    : result report :=
  (feta_id_to_gold <- for_items (index_str repr (lit "feta_id")) gold_data [] ;;
   st <- for_items (step feta_id_to_gold model) predictions init ;;
   Ok (summary st))%result.

End Eval.
End CotEvalFetaqa.

Module CotEvalLotnlg.
Import Judge.

Section Eval.

Variable repr : json -> pystr.
Variable chat_completion : pystr -> pystr -> result pystr.

Definition COT_EVAL_PROMPT_LOTNLG (table statement : pystr) : pystr :=
  lit "Given a table and a generated statement about the table, determine if the statement is factually correct and faithful to the table data."
  ++ nl ++ nl ++ lit "Table:" ++ nl ++ table ++ nl ++ nl
  ++ lit "Generated Statement:" ++ nl ++ statement ++ nl ++ nl
  ++ lit "Please reason step-by-step:" ++ nl
  ++ lit "1. Extract the key facts mentioned in the statement" ++ nl
  ++ lit "2. Locate the relevant data in the table" ++ nl
  ++ lit "3. Verify each fact against the table data" ++ nl
  ++ lit "4. Check for any numerical errors, logical inconsistencies, or false claims"
  ++ nl
  ++ lit "5. Determine if the statement is completely faithful to the table"
  ++ nl ++ nl
  ++ lit "Answer with " ++ quoted "FAITHFUL" ++ lit " or "
  ++ quoted "NOT FAITHFUL" ++ lit " at the end.".

(** As in the FeTaQA judge, a failed call or parse is answered with 0. *)
Definition evaluate_single_lotnlg (table_text : json) (generated_text : pystr)
    (model : pystr) : Z :=
  let prompt := COT_EVAL_PROMPT_LOTNLG (py_str repr table_text) generated_text in
  match chat_completion model prompt with
  | Ok answer => parse_faithful answer
  | Raise _ => 0%Z
  end.

Definition matched (index : gold_index) (model : pystr) (csv_id : pystr)
    (pred_data : json) : result (option (result Z)) :=
  match index_find index csv_id with
  | None => Ok None
  | Some gold_item =>
      (pred_text <- prediction_text repr pred_data ;;
       let table_text := dict_get gold_item (lit "table_text") (JStr []) in
       Ok (Some
             (table_text_trunc <- py_slice_to 1500 table_text ;;
              let pred_text_trunc := slice_to 800 pred_text in
              Ok (evaluate_single_lotnlg table_text_trunc pred_text_trunc
                    model))))%result
  end.

Definition step (index : gold_index) (model : pystr) (st : state)
    (csv_id : pystr) (pred_data : json) : result state :=
  (pair <- matched index model csv_id pred_data ;;
   Ok (settle st pair))%result.

Definition evaluate_all_lotnlg (predictions gold_data : dict) (model : pystr)
    : result report :=
  (csv_id_to_gold <- for_items (index_raw (lit "csv_id")) gold_data [] ;;
   st <- for_items (step csv_id_to_gold model) predictions init ;;
   Ok (summary st))%result.

End Eval.
End CotEvalLotnlg.

(** ** Sample inputs

    Concrete predictions, gold records and stand-ins for the external
    capabilities, on which the statements below are evaluated. *)

Module Sample.

(** The sample data hold text and integers only, so [repr] is never
    reached. *)
Definition repr : json -> pystr := fun _ => lit "?".

(** [str.lower] on text of the ASCII range, which all sample text is. *)
Definition lower : pystr -> pystr := ascii_lower.

Definition model : pystr := lit "sonar".

(** A judge whose call fails, and judges that answer a fixed text. *)
Definition chat_fails : pystr -> pystr -> result pystr :=
  fun _ _ => Raise ExternalError.
Definition chat_says (answer : pystr) : pystr -> pystr -> result pystr :=
  fun _ _ => Ok answer.

Definition nli_entails : pystr -> result pystr := fun _ => Ok Lexical.ENTAILMENT.
Definition rouge_half : json -> pystr -> result Q := fun _ _ => Ok (1 # 2)%Q.
Definition bleu_quarter : list (list pystr) -> list pystr -> result Q :=
  fun _ _ => Ok (1 # 4)%Q.

Definition text (s : string) : json := JStr (lit s).

(** Scenario A of the specification. *)
Definition predictions_a : dict := [(lit "t1", text "The total sales were 500.")].
Definition gold_a : dict :=
  [(lit "0",
    JDict [(lit "csv_id", text "t1");
           (lit "table_text", JStr (lit "Year|Sales" ++ nl ++ lit "2020|500"));
           (lit "sentences", JList [text "Total sales were 500 in 2020."])])].

(** Scenario A with a second prediction, which has no gold record
    (scenario B). *)
Definition predictions_ab : dict :=
  [(lit "t1", text "The total sales were 500."); (lit "t2", text "X")].

(** The record of scenario A without its table. *)
Definition gold_no_table : dict :=
  [(lit "0",
    JDict [(lit "csv_id", text "t1");
           (lit "sentences", JList [text "Total sales were 500 in 2020."])])].

(** The record of scenario A with an empty list of sentences. *)
Definition gold_no_sentence : dict :=
  [(lit "0",
    JDict [(lit "csv_id", text "t1");
           (lit "table_text", JStr (lit "Year|Sales" ++ nl ++ lit "2020|500"));
           (lit "sentences", JList [])])].

(** The record of scenario A with an empty list of logical labels. *)
Definition gold_no_label : dict :=
  [(lit "0",
    JDict [(lit "csv_id", text "t1");
           (lit "table_text", JStr (lit "Year|Sales" ++ nl ++ lit "2020|500"));
           (lit "sentences", JList [text "Total sales were 500 in 2020."]);
           (lit "logical_labels", JList [])])].

(** Scenario D of the specification. *)
Definition predictions_d : dict :=
  [(lit "t1",
    JList [text "Claim 1 (count): There are 5 rows."; text "Claim 2: irrelevant."])].
Definition gold_d : dict :=
  [(lit "0",
    JDict [(lit "csv_id", text "t1");
           (lit "table_text", JStr (lit "Year|Sales" ++ nl ++ lit "2020|500"));
           (lit "sentences", JList [text "There are 5 rows."]);
           (lit "logical_labels", text "Count")])].

(** A FeTaQA pair. *)
Definition predictions_q : dict := [(lit "7", text "In 2020.")].
Definition gold_q : dict :=
  [(lit "0",
    JDict [(lit "feta_id", JInt 7);
           (lit "table_text", JStr (lit "Year|Sales" ++ nl ++ lit "2020|500"));
           (lit "question", text "When were sales 500?");
           (lit "answer", text "Sales were 500 in 2020.")])].

(** A pair whose prediction holds no keyword of the taxonomy, with the
    gold label [surface]. *)
Definition chess : pystr := lit "Alice plays chess.".
Definition gold_surface : dict :=
  [(lit "csv_id", text "t1");
   (lit "table_text", text "Player|Game");
   (lit "sentences", JList [text "Alice plays chess."]);
   (lit "logical_labels", text "surface")].

(** A prediction with an explicit label and a keyword of another type. *)
Definition labelled : pystr := lit "Claim 1 (ordinal): The total is 5.".

(** The FeTaQA record without its answer. *)
Definition gold_no_answer : dict :=
  [(lit "0",
    JDict [(lit "feta_id", JInt 7);
           (lit "table_text", JStr (lit "Year|Sales" ++ nl ++ lit "2020|500"));
           (lit "question", text "When were sales 500?")])].

End Sample.

(** ** The key of a gold record

    The text under which a gold record can be found by a prediction key. *)

(** [csv_id = gold_item.get(field); if csv_id: index[csv_id] = gold_item]:
    a prediction key, which is text, finds the record when [csv_id] is a
    text that is not empty. *)
Definition raw_key (field : pystr) (g : dict) : option pystr :=
  match dict_get g field JNull with
  | JStr (c :: s) => Some (c :: s)
  | _ => None
  end.

(** [if feta_id: index[str(feta_id)] = gold_item] *)
Definition str_key (repr : json -> pystr) (field : pystr) (g : dict)
    : option pystr :=
  let id := dict_get g field JNull in
  if truthy id then Some (py_str repr id) else None.

(** [g] is the last record of the gold file whose key is [key]. *)
Definition last_with (key_of : dict -> option pystr) (gold_data : dict)
    (key : pystr) (g : dict) : Prop :=
  exists pre idx post,
    gold_data = pre ++ (idx, JDict g) :: post /\
    key_of g = Some key /\
    forall idx' g', In (idx', JDict g') post -> key_of g' <> Some key.

(** Some record of the gold file has the key [key]. *)
Definition carried (key_of : dict -> option pystr) (gold_data : dict)
    (key : pystr) : bool :=
  existsb (fun item =>
             match snd item with
             | JDict g =>
                 match key_of g with
                 | Some k => str_eqb k key
                 | None => false
                 end
             | _ => false
             end) gold_data.

(** The predictions whose key no gold record has. *)
Definition orphans (key_of : dict -> option pystr) (predictions gold_data : dict)
    : dict :=
  filter (fun kv => negb (carried key_of gold_data (fst kv))) predictions.

(** The prediction has no entry in the index. *)
Definition is_miss (index : gold_index) (kv : pystr * json) : bool :=
  match index_find index (fst kv) with
  | None => true
  | Some _ => false
  end.

(** ** Ranges of the sums *)

(** Every sum of the [results] dictionary lies between 0 and [n]. *)
Definition bounded (n : nat) (m : Lexical.metrics) : Prop :=
  Forall (fun kv => (0 <= snd kv)%Q /\ (snd kv <= inject_Z (Z.of_nat n))%Q) m.

(** A value between 0 and 1. *)
Definition unit_score (q : Q) : Prop := (0 <= q)%Q /\ (q <= 1)%Q.

(** ** Fields of a gold record *)

(** [v[:n]] is defined: [v] is text or a list. *)
Definition sliceable (v : json) : bool :=
  match v with
  | JStr _ | JList _ => true
  | _ => false
  end.

(** ** Inputs on which a run returns *)

(** The index loop keyed by [field] passes the gold item: an object whose
    [field] is false in a test or can be the key of a dictionary. *)
Definition indexable (field : pystr) (v : json) : bool :=
  match v with
  | JDict g =>
      let id := dict_get g field JNull in negb (truthy id) || hashable id
  | _ => false
  end.

Definition is_object (v : json) : bool :=
  match v with
  | JDict _ => true
  | _ => false
  end.

(** The record has what the loops of evaluate_lotnlg.py and
    evaluate_logicnlg.py read before the [try]: a table text, and
    sentences that are not the empty list. *)
Definition scorable (g : dict) : bool :=
  match dict_find g (lit "table_text"), dict_find g (lit "sentences") with
  | Some _, Some (JList []) => false
  | Some _, Some _ => true
  | _, _ => false
  end.

(** The prediction has a text: it is no list, or a list of text. *)
Definition textual (v : json) : bool :=
  match v with
  | JList l => forallb (fun x => match x with JStr _ => true | _ => false end) l
  | _ => true
  end.

(** The gold files the index loops pass, and the prediction files whose
    entries have a text. *)
Definition csv_gold (gold_data : dict) : Prop :=
  forall idx v, In (idx, v) gold_data -> indexable (lit "csv_id") v = true.
Definition feta_gold (gold_data : dict) : Prop :=
  forall idx v, In (idx, v) gold_data -> is_object v = true.
Definition text_predictions (predictions : dict) : Prop :=
  forall k v, In (k, v) predictions -> textual v = true.

(** ** The pairs that are scored *)

(** The outcome of the loop body up to the [try] is a [try] block that
    ends without an exception on the dictionary [m0]. *)
Definition block_returns (m0 : Lexical.metrics)
    (pair : result (option (Lexical.Try unit))) : bool :=
  match pair with
  | Ok (Some block) =>
      match snd (block m0) with
      | Ok _ => true
      | Raise _ => false
      end
  | _ => false
  end.

(** The same for a judge: the [try] block gives a score. *)
Definition score_returns (pair : result (option (result Z))) : bool :=
  match pair with
  | Ok (Some (Ok _)) => true
  | _ => false
  end.

(** ** Inputs of bounded length *)

(** A capability that is only defined on inputs of [n] characters at
    most. *)
Definition up_to {A : Type} (n : nat) (f : pystr -> result A)
    : pystr -> result A :=
  fun input =>
    if List.length input <=? n then f input else Raise ExternalError.

Definition is_list (v : json) : bool :=
  match v with
  | JList _ => true
  | _ => false
  end.

(** No gold record has a list as its table text. *)
Definition text_tables (gold_data : dict) : Prop :=
  forall idx g,
    In (idx, JDict g) gold_data ->
    is_list (dict_get g (lit "table_text") (JStr [])) = false.

(** ** Texts made of claims

    A claim as the claim pattern reads it: [Claim ], a head that starts
    with a digit and has no colon (the number and what follows it, a
    label for instance), a colon, whitespace, and a sentence that ends at
    its first full stop. *)
Record claim : Type := MkClaim {
  c_head : pystr;
  c_gap : pystr;
  c_body : pystr
}.

Definition claim_text (c : claim) : pystr :=
  lit "Claim " ++ c_head c ++ colon :: c_gap c ++ c_body c ++ [dot].

(** The sentence of the claim, which is what the pattern keeps. *)
Definition sentence (c : claim) : pystr := c_body c ++ [dot].

Definition starts_with_digit (s : pystr) : bool :=
  match s with
  | c :: _ => is_digit c
  | [] => false
  end.

(** The sentence is not empty, does not start with whitespace and holds
    no full stop, colon or star. *)
Definition claim_ok (c : claim) : bool :=
  starts_with_digit (c_head c) && forallb (is_not colon) (c_head c)
  && forallb is_space (c_gap c)
  && nonempty (c_body c) && negb (starts_with_space (c_body c))
  && forallb (fun x => is_not dot x && is_not colon x && is_not star x)
       (c_body c).

(** Claims, each after a text that does not hold [Claim ], and the text
    after the last claim. *)
Fixpoint claims_text (segs : list (pystr * claim)) (tail : pystr) : pystr :=
  match segs with
  | [] => tail
  | (before, c) :: rest => before ++ claim_text c ++ claims_text rest tail
  end.

Fixpoint claims_ok (segs : list (pystr * claim)) : bool :=
  match segs with
  | [] => true
  | (before, c) :: rest =>
      negb (contains (lit "Claim ") before) && claim_ok c && claims_ok rest
  end.

(** The text after: nothing, or a claim. *)
Definition claim_or_end (rest : pystr) : Prop :=
  rest = [] \/ exists r, rest = 67%N :: r.

(** ** A reasoning section

    [Reasoning], a label without colon, a colon, and text up to its first
    full stop. *)
Definition reasoning_text (label body : pystr) : pystr :=
  lit "Reasoning" ++ label ++ colon :: body ++ [dot].

(** ** The index loops and the reports of the judges *)

(** The entry of the index a gold record is filed under is the text
    [key]. *)
Definition filed_under (entry : dict -> result (option json)) (g : dict)
    (key : pystr) : Prop :=
  entry g = Ok (Some (JStr key)).

(** A report of a judge whose numbers fit together. *)
Definition consistent_report (rep : Judge.report) : Prop :=
  (0 <= Judge.r_positive rep <= Z.of_nat (Judge.r_evaluated rep))%Z /\
  (0 <= Judge.r_accuracy rep)%Q /\ (Judge.r_accuracy rep <= 100)%Q /\
  ((Judge.r_accuracy rep == 0)%Q <-> Judge.r_positive rep = 0%Z) /\
  (0 < Judge.r_evaluated rep ->
   Judge.r_positive rep = Z.of_nat (Judge.r_evaluated rep) ->
   (Judge.r_accuracy rep == 100)%Q).

(** ** Markers in well-formed position, in a text that may hold colons

    As [well_formed], but the text outside the markers and inside the
    bold markers is only kept free of [#] and [*]. *)

Definition marker_free (c : char) : bool :=
  negb (N.eqb c hash) && negb (N.eqb c star).

Fixpoint well_placed (toks : list token) : bool :=
  match toks with
  | [] => true
  | Text s :: rest => forallb marker_free s && well_placed rest
  | Bold t :: rest => nonempty t && forallb marker_free t && well_placed rest
  | Header ws :: rest =>
      nonempty ws && forallb is_space ws
      && negb (starts_with_space (render_all rest)) && well_placed rest
  end.

(** ** The pairs of a run, read off the two files

    What the join and the counts are to give, stated on the prediction
    file and the gold file and not on the index. *)

(** The gold record of a prediction key: the last record of the gold
    file that has the key. *)
Fixpoint gold_record (key_of : dict -> option pystr) (gold_data : dict)
    (key : pystr) : option dict :=
  match gold_data with
  | [] => None
  | (_, item) :: rest =>
      match gold_record key_of rest key with
      | Some g => Some g
      | None =>
          match item with
          | JDict g =>
              match key_of g with
              | Some k => if str_eqb k key then Some g else None
              | None => None
              end
          | _ => None
          end
      end
  end.

(** The predictions whose key some gold record has. *)
Definition paired (key_of : dict -> option pystr) (predictions gold_data : dict)
    : dict :=
  filter (fun kv => carried key_of gold_data (fst kv)) predictions.

(** The computation ends without an exception. *)
Definition returns {A : Type} (r : result A) : bool :=
  match r with
  | Ok _ => true
  | Raise _ => false
  end.

(** evaluate_lotnlg.py: the prediction has a gold record, and the [try]
    block of lines 111-161 on this record and the prediction ends without
    an exception. *)
Definition lotnlg_scored (repr : json -> pystr) (lower : pystr -> pystr)
    (nli_model : pystr -> result pystr)
    (rouge_score : json -> pystr -> result Q)
    (sentence_bleu : list (list pystr) -> list pystr -> result Q)
    (gold_data : dict) (kv : pystr * json) : bool :=
  match gold_record (raw_key (lit "csv_id")) gold_data (fst kv),
        Lexical.first_value gold_data with
  | Some g, Ok sample =>
      let has := Lexical.has_key (lit "logical_labels") sample in
      match prediction_text repr (snd kv),
            dict_find g (lit "table_text"), dict_find g (lit "sentences") with
      | Ok pred_text, Some table_str, Some gold_sentences =>
          match Lexical.first_or_str repr gold_sentences with
          | Ok gold_text =>
              returns
                (snd (EvaluateLotnlg.score_example repr lower nli_model
                        rouge_score sentence_bleu has g table_str gold_text
                        pred_text (clean_prediction_text pred_text)
                        (EvaluateLotnlg.results0 has)))
          | Raise _ => false
          end
      | _, _, _ => false
      end
  | _, _ => false
  end.

(** cot_eval.py: the prediction has a gold record with a table text, and
    [evaluate_single] on the two returns a score. *)
Definition cot_judged (repr : json -> pystr)
    (chat_completion : pystr -> pystr -> result pystr) (model : pystr)
    (gold_data : dict) (kv : pystr * json) : bool :=
  match gold_record (raw_key (lit "csv_id")) gold_data (fst kv) with
  | Some g =>
      match dict_find g (lit "table_text") with
      | Some table_text =>
          returns (CotEval.evaluate_single repr chat_completion table_text
                     (snd kv) model)
      | None => false
      end
  | None => false
  end.

(** The same for evaluate_logicnlg.py, which scores the text as it
    stands. *)
Definition logicnlg_scored (repr : json -> pystr) (lower : pystr -> pystr)
    (nli_model : pystr -> result pystr)
    (rouge_score : json -> pystr -> result Q)
    (sentence_bleu : list (list pystr) -> list pystr -> result Q)
    (gold_data : dict) (kv : pystr * json) : bool :=
  match gold_record (raw_key (lit "csv_id")) gold_data (fst kv),
        Lexical.first_value gold_data with
  | Some g, Ok sample =>
      let has := Lexical.has_key (lit "logical_labels") sample in
      match prediction_text repr (snd kv),
            dict_find g (lit "table_text"),
            dict_find g (lit "sentences") with
      | Ok pred_text, Some table_str, Some gold_sentences =>
          match Lexical.first_or_str repr gold_sentences with
          | Ok gold_text =>
              returns
                (snd (EvaluateLogicnlg.score_example repr lower nli_model
                        rouge_score sentence_bleu has g table_str gold_text
                        pred_text (EvaluateLogicnlg.results0 has)))
          | Raise _ => false
          end
      | _, _, _ => false
      end
  | _, _ => false
  end.

(** The same for evaluate_fetaqa.py: the record is found under the text
    of its [feta_id], and the block scores the prediction against the
    [answer] of the record. *)
Definition fetaqa_scored (repr : json -> pystr)
    (rouge_scores : json -> pystr -> result EvaluateFetaqa.rouge_scores)
    (sentence_bleu : list (list pystr) -> list pystr -> result Q)
    (gold_data : dict) (kv : pystr * json) : bool :=
  match gold_record (str_key repr (lit "feta_id")) gold_data (fst kv) with
  | Some g =>
      match prediction_text repr (snd kv), dict_find g (lit "answer") with
      | Ok pred_text, Some gold_answer =>
          returns
            (snd (EvaluateFetaqa.score_example rouge_scores sentence_bleu
                    gold_answer pred_text EvaluateFetaqa.results0))
      | _, _ => false
      end
  | None => false
  end.

(** The judges of cot_eval_fetaqa.py and cot_eval_lotnlg.py answer a
    failed call with 0, so their [try] block raises only where a field
    of the gold record cannot be cut to length. *)
Definition fetaqa_judged (repr : json -> pystr) (gold_data : dict)
    (kv : pystr * json) : bool :=
  match gold_record (str_key repr (lit "feta_id")) gold_data (fst kv) with
  | Some g =>
      sliceable (dict_get g (lit "table_text") (JStr []))
      && sliceable (dict_get g (lit "answer") (JStr []))
  | None => false
  end.

Definition lotnlg_judged (gold_data : dict) (kv : pystr * json) : bool :=
  match gold_record (raw_key (lit "csv_id")) gold_data (fst kv) with
  | Some g => sliceable (dict_get g (lit "table_text") (JStr []))
  | None => false
  end.

(** ** Bold spans that the claim and reasoning passes leave whole

    The passes for claims and reasoning sections run before the bold
    pass.  They cut at a colon and at a full stop, and a reasoning
    section starts at the word [Reasoning]: a bold span that holds none
    of these is kept or dropped as a whole. *)






(** ** Facts on text *)

Lemma startswith_spec (p s : pystr) :
  startswith p s = true <-> exists post, s = p ++ post.
Proof.
  revert s; induction p as [|x p IH]; intros s; simpl.
  - split; [intros _; now exists s | reflexivity].
  - destruct s as [|y s].
    + split; [discriminate | intros [post H]; discriminate].
    + rewrite andb_true_iff, N.eqb_eq, IH. split.
      * intros [-> [post ->]]. now exists post.
      * intros [post H]. injection H as -> ->. split; [reflexivity | now exists post].
Qed.

Lemma contains_spec (needle hay : pystr) :
  contains needle hay = true <-> Substring needle hay.
Proof.
  unfold Substring. induction hay as [|c hay IH].
  - simpl. rewrite orb_false_r, startswith_spec. split.
    + intros [post H]. now exists [], post.
    + intros [pre [post H]]. destruct pre; simpl in H.
      * now exists post.
      * discriminate.
  - cbn [contains]. rewrite orb_true_iff, startswith_spec, IH. split.
    + intros [[post H] | [pre [post H]]].
      * now exists [], post.
      * exists (c :: pre), post. now rewrite H.
    + intros [pre [post H]]. destruct pre as [|d pre]; simpl in H.
      * left. now exists post.
      * right. injection H as _ ->. now exists pre, post.
Qed.

Lemma contains_false_spec (needle hay : pystr) :
  contains needle hay = false <-> ~ Substring needle hay.
Proof.
  rewrite <- contains_spec. destruct (contains needle hay); split; intros H;
    try reflexivity; try discriminate; try (intros K; discriminate K).
  exfalso; now apply H.
Qed.

Lemma verdict_values (pos neg answer : pystr) :
  verdict pos neg answer = 1%Z \/ verdict pos neg answer = 0%Z.
Proof.
  unfold verdict. destruct (contains pos answer && negb (contains neg answer)); auto.
Qed.

Lemma verdict_one (pos neg answer : pystr) :
  verdict pos neg answer = 1%Z <->
  Substring pos answer /\ ~ Substring neg answer.
Proof.
  unfold verdict. rewrite <- contains_spec, <- contains_false_spec.
  destruct (contains pos answer), (contains neg answer); simpl;
    split; try tauto; try discriminate; intros [H1 H2]; discriminate.
Qed.

Lemma verdict_zero (pos neg answer : pystr) :
  verdict pos neg answer = 0%Z <->
  ~ (Substring pos answer /\ ~ Substring neg answer).
Proof.
  rewrite <- verdict_one.
  destruct (verdict_values pos neg answer) as [H | H]; rewrite H.
  - split; [discriminate | intros K; now elim K].
  - split; [intros _ K; discriminate K | reflexivity].
Qed.

Lemma verdict_both_or_neither (pos neg answer : pystr) :
  Substring pos answer /\ Substring neg answer \/
  ~ Substring pos answer /\ ~ Substring neg answer ->
  verdict pos neg answer = 0%Z.
Proof.
  intros H. apply verdict_zero. tauto.
Qed.

(** C1. With a judge that answers [answer], the score of each of the three
    scorers is 1 exactly when the positive verdict token occurs in the
    answer and the negative one does not, and it is 0 for every answer
    that holds both tokens or neither: FAITHFUL / NOT FAITHFUL in
    [evaluate_single] and [evaluate_single_lotnlg], CORRECT / INCORRECT in
    [evaluate_single_fetaqa]. *)
Theorem verdict_parsing (repr : json -> pystr) (answer : pystr)
    (table_text generated_text question reference : json)
    (prediction model : pystr) :
  (CotEval.evaluate_single repr (Sample.chat_says answer) table_text
     generated_text model = Ok 1%Z <->
   Substring FAITHFUL answer /\ ~ Substring NOT_FAITHFUL answer) /\
  (CotEvalLotnlg.evaluate_single_lotnlg repr (Sample.chat_says answer)
     table_text prediction model = 1%Z <->
   Substring FAITHFUL answer /\ ~ Substring NOT_FAITHFUL answer) /\
  (CotEvalFetaqa.evaluate_single_fetaqa repr (Sample.chat_says answer)
     table_text question reference prediction model = 1%Z <->
   Substring CORRECT answer /\ ~ Substring INCORRECT answer) /\
  (Substring FAITHFUL answer /\ Substring NOT_FAITHFUL answer \/
   ~ Substring FAITHFUL answer /\ ~ Substring NOT_FAITHFUL answer ->
   CotEval.evaluate_single repr (Sample.chat_says answer) table_text
     generated_text model = Ok 0%Z /\
   CotEvalLotnlg.evaluate_single_lotnlg repr (Sample.chat_says answer)
     table_text prediction model = 0%Z) /\
  (Substring CORRECT answer /\ Substring INCORRECT answer \/
   ~ Substring CORRECT answer /\ ~ Substring INCORRECT answer ->
   CotEvalFetaqa.evaluate_single_fetaqa repr (Sample.chat_says answer)
     table_text question reference prediction model = 0%Z).
Proof.
  unfold CotEval.evaluate_single, CotEvalLotnlg.evaluate_single_lotnlg,
    CotEvalFetaqa.evaluate_single_fetaqa, Sample.chat_says. cbn [bind].
  unfold parse_faithful, parse_correct.
  split; [|split; [apply verdict_one|split; [apply verdict_one|split]]].
  - rewrite <- verdict_one. split; [now intros [= ->]|now intros ->].
  - intros H. rewrite (verdict_both_or_neither _ _ _ H). now split.
  - apply verdict_both_or_neither.
Qed.

(** ** Exceptions that leave an evaluator *)

Lemma for_items_raise {S : Type} (body : S -> pystr -> json -> result S)
    (P : exn -> Prop) :
  (forall s k v e, body s k v = Raise e -> P e) ->
  forall items s e, for_items body items s = Raise e -> P e.
Proof.
  intros Hbody items. induction items as [|[k v] items IH]; intros s e H.
  - discriminate.
  - simpl in H. destruct (body s k v) as [s'|e'] eqn:E.
    + eapply IH; eassumption.
    + injection H as <-. eapply Hbody; eassumption.
Qed.

Lemma index_raw_raise (field : pystr) (index : gold_index) (idx : pystr)
    (gold_item : json) (e : exn) :
  index_raw field index idx gold_item = Raise e ->
  e = AttributeError \/ e = TypeError.
Proof.
  unfold index_raw. destruct gold_item; simpl; try (intros [= <-]; now left).
  destruct (truthy _); [|discriminate].
  destruct (hashable _); [discriminate|]. intros [= <-]; now right.
Qed.

Lemma as_strs_raise (l : list json) (e : exn) :
  as_strs l = Raise e -> e = TypeError.
Proof.
  induction l as [|x l IH]; simpl; [discriminate|].
  destruct x; try (intros [= <-]; reflexivity).
  destruct (as_strs l); [discriminate|]. intros [= <-]. now apply IH.
Qed.

Lemma prediction_text_raise (repr : json -> pystr) (v : json) (e : exn) :
  prediction_text repr v = Raise e -> e = TypeError.
Proof.
  destruct v; simpl; try discriminate. unfold join_json.
  destruct (as_strs l) eqn:E; [discriminate|]. intros [= <-].
  now apply as_strs_raise in E.
Qed.

Lemma dict_index_raise (d : dict) (k : pystr) (e : exn) :
  dict_index d k = Raise e -> e = KeyError.
Proof.
  unfold dict_index. destruct (dict_find d k); [discriminate|].
  now intros [= <-].
Qed.

Lemma first_or_str_raise (repr : json -> pystr) (v : json) (e : exn) :
  Lexical.first_or_str repr v = Raise e -> e = IndexError.
Proof.
  destruct v; simpl; try discriminate. destruct l; simpl; [|discriminate].
  now intros [= <-].
Qed.

Section LexicalExceptions.

Variable repr : json -> pystr.
Variable lower : pystr -> pystr.
Variable nli_model : pystr -> result pystr.
Variable rouge_score : json -> pystr -> result Q.
Variable sentence_bleu : list (list pystr) -> list pystr -> result Q.

Lemma lotnlg_step_raise (has : bool) (index : gold_index) (st : Lexical.loop_state)
    (k : pystr) (v : json) (e : exn) :
  EvaluateLotnlg.step repr lower nli_model rouge_score sentence_bleu has index st k v
    = Raise e ->
  e = TypeError \/ e = KeyError \/ e = IndexError.
Proof.
  unfold EvaluateLotnlg.step, EvaluateLotnlg.matched.
  destruct (index_find index k) as [g|]; simpl; [|discriminate].
  destruct (prediction_text repr v) eqn:E1; simpl;
    [|intros [= <-]; left; eapply prediction_text_raise; eassumption].
  destruct (dict_index g (lit "table_text")) eqn:E2; simpl;
    [|intros [= <-]; right; left; eapply dict_index_raise; eassumption].
  destruct (dict_index g (lit "sentences")) eqn:E3; simpl;
    [|intros [= <-]; right; left; eapply dict_index_raise; eassumption].
  destruct (Lexical.first_or_str repr a1) eqn:E4; simpl; [discriminate|].
  intros [= <-]; right; right; eapply first_or_str_raise; eassumption.
Qed.

Lemma logicnlg_step_raise (has : bool) (index : gold_index) (st : Lexical.loop_state)
    (k : pystr) (v : json) (e : exn) :
  EvaluateLogicnlg.step repr lower nli_model rouge_score sentence_bleu has index st k v
    = Raise e ->
  e = TypeError \/ e = KeyError \/ e = IndexError.
Proof.
  unfold EvaluateLogicnlg.step, EvaluateLogicnlg.matched.
  destruct (index_find index k) as [g|]; simpl; [|discriminate].
  destruct (prediction_text repr v) eqn:E1; simpl;
    [|intros [= <-]; left; eapply prediction_text_raise; eassumption].
  destruct (dict_index g (lit "table_text")) eqn:E2; simpl;
    [|intros [= <-]; right; left; eapply dict_index_raise; eassumption].
  destruct (dict_index g (lit "sentences")) eqn:E3; simpl;
    [|intros [= <-]; right; left; eapply dict_index_raise; eassumption].
  destruct (Lexical.first_or_str repr a1) eqn:E4; simpl; [discriminate|].
  intros [= <-]; right; right; eapply first_or_str_raise; eassumption.
Qed.

(** C10. With an empty gold mapping both lexical LogicNLG/LoTNLG
    evaluators raise (StopIteration, from taking the first gold value to
    look for logical labels) whatever the predictions are, so no report
    with total = 0 and not_found = |predictions| is returned; and this is
    the only way they raise that exception. *)
Theorem empty_gold_raises (predictions : dict) :
  EvaluateLotnlg.evaluate_lotnlg repr lower nli_model rouge_score sentence_bleu
    predictions [] = Raise StopIteration /\
  EvaluateLogicnlg.evaluate_lotnlg repr lower nli_model rouge_score sentence_bleu
    predictions [] = Raise StopIteration /\
  (forall gold_data : dict,
     EvaluateLotnlg.evaluate_lotnlg repr lower nli_model rouge_score
       sentence_bleu predictions gold_data = Raise StopIteration ->
     gold_data = []) /\
  (forall gold_data : dict,
     EvaluateLogicnlg.evaluate_lotnlg repr lower nli_model rouge_score
       sentence_bleu predictions gold_data = Raise StopIteration ->
     gold_data = []).
Proof.
  split; [reflexivity|]. split; [reflexivity|]. split; intros gold_data.
  - unfold EvaluateLotnlg.evaluate_lotnlg.
    destruct (for_items (index_raw (lit "csv_id")) gold_data []) as [index|e] eqn:E.
    + destruct gold_data as [|[k0 v0] gold_data]; [reflexivity|]. simpl.
      destruct (for_items _ predictions _) as [st|e] eqn:E'; simpl; [discriminate|].
      intros [= ->].
      apply (for_items_raise _ (fun e => e = TypeError \/ e = KeyError \/ e = IndexError))
        in E'; [|intros; eapply lotnlg_step_raise; eassumption].
      destruct E' as [E'|[E'|E']]; discriminate.
    + simpl. intros [= ->].
      apply (for_items_raise _ (fun e => e = AttributeError \/ e = TypeError)) in E;
        [|intros; eapply index_raw_raise; eassumption].
      destruct E as [E|E]; discriminate.
  - unfold EvaluateLogicnlg.evaluate_lotnlg.
    destruct (for_items (index_raw (lit "csv_id")) gold_data []) as [index|e] eqn:E.
    + destruct gold_data as [|[k0 v0] gold_data]; [reflexivity|]. simpl.
      destruct (for_items _ predictions _) as [st|e] eqn:E'; simpl; [discriminate|].
      intros [= ->].
      apply (for_items_raise _ (fun e => e = TypeError \/ e = KeyError \/ e = IndexError))
        in E'; [|intros; eapply logicnlg_step_raise; eassumption].
      destruct E' as [E'|[E'|E']]; discriminate.
    + simpl. intros [= ->].
      apply (for_items_raise _ (fun e => e = AttributeError \/ e = TypeError)) in E;
        [|intros; eapply index_raw_raise; eassumption].
      destruct E as [E|E]; discriminate.
Qed.

(** C4 (the code at the failing inputs).  A matched gold record without
    its 'table_text', with an empty 'sentences' list or without its
    'answer' ends the whole run with the exception of the access, which
    stands before the [try]: no report is produced, whatever the scorers
    do. *)
Theorem malformed_gold_aborts :
  EvaluateLotnlg.evaluate_lotnlg repr lower nli_model rouge_score sentence_bleu
    Sample.predictions_a Sample.gold_no_table = Raise KeyError /\
  EvaluateLogicnlg.evaluate_lotnlg repr lower nli_model rouge_score sentence_bleu
    Sample.predictions_a Sample.gold_no_table = Raise KeyError /\
  EvaluateLotnlg.evaluate_lotnlg repr lower nli_model rouge_score sentence_bleu
    Sample.predictions_a Sample.gold_no_sentence = Raise IndexError /\
  EvaluateLogicnlg.evaluate_lotnlg repr lower nli_model rouge_score sentence_bleu
    Sample.predictions_a Sample.gold_no_sentence = Raise IndexError /\
  (forall rouge123 bleu_smooth,
     EvaluateFetaqa.evaluate_fetaqa repr rouge123 bleu_smooth
       Sample.predictions_q Sample.gold_no_answer = Raise KeyError).
Proof.
  repeat split; reflexivity.
Qed.

End LexicalExceptions.

(** ** The judges on a call that fails *)

Section JudgeFailure.

Variable repr : json -> pystr.
Variable chat_completion : pystr -> pystr -> result pystr.
Variable model : pystr.

Lemma count_zero (st : Judge.state) :
  Judge.total_count (Judge.count st 0) = S (Judge.total_count st) /\
  Judge.total_score (Judge.count st 0) = Judge.total_score st /\
  Judge.not_found (Judge.count st 0) = Judge.not_found st.
Proof.
  destruct st; simpl. repeat split. lia.
Qed.

Lemma fetaqa_failed_call (index : gold_index) (st : Judge.state) (k : pystr)
    (v : json) (g : dict) (p : pystr) (t r : json) (e : exn) :
  index_find index k = Some g ->
  prediction_text repr v = Ok p ->
  py_slice_to 1500 (dict_get g (lit "table_text") (JStr [])) = Ok t ->
  py_slice_to 500 (dict_get g (lit "answer") (JStr [])) = Ok r ->
  chat_completion model
    (CotEvalFetaqa.COT_EVAL_PROMPT_FETAQA (py_str repr t)
       (py_str repr (dict_get g (lit "question") (JStr []))) (py_str repr r)
       (slice_to 500 p)) = Raise e ->
  CotEvalFetaqa.step repr chat_completion index model st k v
    = Ok (Judge.count st 0).
Proof.
  intros Hk Hp Ht Hr Hc.
  unfold CotEvalFetaqa.step, CotEvalFetaqa.matched. rewrite Hk. cbn [bind].
  rewrite Hp. cbn [bind]. rewrite Ht. cbn [bind]. rewrite Hr. cbn [bind].
  unfold CotEvalFetaqa.evaluate_single_fetaqa. rewrite Hc. reflexivity.
Qed.

Lemma lotnlg_failed_call (index : gold_index) (st : Judge.state) (k : pystr)
    (v : json) (g : dict) (p : pystr) (t : json) (e : exn) :
  index_find index k = Some g ->
  prediction_text repr v = Ok p ->
  py_slice_to 1500 (dict_get g (lit "table_text") (JStr [])) = Ok t ->
  chat_completion model
    (CotEvalLotnlg.COT_EVAL_PROMPT_LOTNLG (py_str repr t) (slice_to 800 p))
    = Raise e ->
  CotEvalLotnlg.step repr chat_completion index model st k v
    = Ok (Judge.count st 0).
Proof.
  intros Hk Hp Ht Hc.
  unfold CotEvalLotnlg.step, CotEvalLotnlg.matched. rewrite Hk. cbn [bind].
  rewrite Hp. cbn [bind]. rewrite Ht. cbn [bind].
  unfold CotEvalLotnlg.evaluate_single_lotnlg. rewrite Hc. reflexivity.
Qed.

Lemma cot_failed_call (index : gold_index) (st : Judge.state) (k : pystr)
    (v : json) (g : dict) (t : json) (e : exn) :
  index_find index k = Some g ->
  dict_index g (lit "table_text") = Ok t ->
  chat_completion model
    (CotEval.COT_EVAL_PROMPT (py_str repr t) (py_str repr v)) = Raise e ->
  CotEval.step repr chat_completion index model st k v = Ok st.
Proof.
  intros Hk Ht Hc.
  unfold CotEval.step, CotEval.matched. rewrite Hk. cbn [bind]. rewrite Ht. cbn [bind].
  unfold CotEval.evaluate_single. rewrite Hc. reflexivity.
Qed.

(** C3.  The code of cot_eval_fetaqa.py and cot_eval_lotnlg.py departs
    from the claim.  When the judge's call or parse raises on a matched
    pair, the scorer's own handler answers 0 and the loop records it: the
    count of evaluated pairs grows by one and the score sum stays, so the
    pair is counted as a verdict of 0 and not skipped.  The handler of
    the loop, which would skip the pair, is never reached.  In
    cot_eval.py, whose scorer has no handler, the pair is skipped as the
    claim has it: the state of the loop is unchanged. *)
Theorem failed_call_outcome (index : gold_index) (st : Judge.state)
    (k : pystr) (v : json) (g : dict) (e : exn) :
  index_find index k = Some g ->
  (forall p t r,
     prediction_text repr v = Ok p ->
     py_slice_to 1500 (dict_get g (lit "table_text") (JStr [])) = Ok t ->
     py_slice_to 500 (dict_get g (lit "answer") (JStr [])) = Ok r ->
     chat_completion model
       (CotEvalFetaqa.COT_EVAL_PROMPT_FETAQA (py_str repr t)
          (py_str repr (dict_get g (lit "question") (JStr [])))
          (py_str repr r) (slice_to 500 p)) = Raise e ->
     exists st',
       CotEvalFetaqa.step repr chat_completion index model st k v = Ok st' /\
       Judge.total_count st' = S (Judge.total_count st) /\
       Judge.total_score st' = Judge.total_score st /\
       Judge.not_found st' = Judge.not_found st) /\
  (forall p t,
     prediction_text repr v = Ok p ->
     py_slice_to 1500 (dict_get g (lit "table_text") (JStr [])) = Ok t ->
     chat_completion model
       (CotEvalLotnlg.COT_EVAL_PROMPT_LOTNLG (py_str repr t) (slice_to 800 p))
       = Raise e ->
     exists st',
       CotEvalLotnlg.step repr chat_completion index model st k v = Ok st' /\
       Judge.total_count st' = S (Judge.total_count st) /\
       Judge.total_score st' = Judge.total_score st /\
       Judge.not_found st' = Judge.not_found st) /\
  (forall t,
     dict_index g (lit "table_text") = Ok t ->
     chat_completion model
       (CotEval.COT_EVAL_PROMPT (py_str repr t) (py_str repr v)) = Raise e ->
     CotEval.step repr chat_completion index model st k v = Ok st).
Proof.
  intros Hk. split; [|split].
  - intros p t r Hp Ht Hr Hc. exists (Judge.count st 0). split.
    + eapply fetaqa_failed_call; eassumption.
    + apply count_zero.
  - intros p t Hp Ht Hc. exists (Judge.count st 0). split.
    + eapply lotnlg_failed_call; eassumption.
    + apply count_zero.
  - intros t Ht Hc. eapply cot_failed_call; eassumption.
Qed.

End JudgeFailure.

(** C3 on a run: the judge's call raises on the one matched pair of each
    run, and the FeTaQA and LoTNLG judges report one evaluated pair with
    accuracy 0 where the claim has no evaluated pair. *)
Lemma failed_call_is_counted :
  CotEvalFetaqa.evaluate_all_fetaqa Sample.repr Sample.chat_fails
    Sample.predictions_q Sample.gold_q Sample.model
    = Ok (Judge.MkReport 0 1 0 0) /\
  CotEvalLotnlg.evaluate_all_lotnlg Sample.repr Sample.chat_fails
    Sample.predictions_a Sample.gold_a Sample.model
    = Ok (Judge.MkReport 0 1 0 0).
Proof.
  split; vm_compute; reflexivity.
Qed.

Lemma failed_call_outcome_witness :
  (exists st',
     CotEvalFetaqa.step Sample.repr Sample.chat_fails
       [(JStr (lit "7"), [(lit "table_text", Sample.text "T")])] Sample.model
       Judge.init (lit "7") (Sample.text "x") = Ok st' /\
     Judge.total_count st' = 1 /\ Judge.total_score st' = 0%Z) /\
  CotEval.step Sample.repr Sample.chat_fails
    [(JStr (lit "7"), [(lit "table_text", Sample.text "T")])] Sample.model
    Judge.init (lit "7") (Sample.text "x") = Ok Judge.init.
Proof.
  pose proof (failed_call_outcome Sample.repr Sample.chat_fails Sample.model
    [(JStr (lit "7"), [(lit "table_text", Sample.text "T")])] Judge.init
    (lit "7") (Sample.text "x") [(lit "table_text", Sample.text "T")]
    ExternalError eq_refl) as [Hf [_ Hc]].
  split.
  - destruct (Hf (lit "x") (Sample.text "T") (JStr []) eq_refl eq_refl eq_refl eq_refl)
      as [st' [H1 [H2 [H3 _]]]].
    exists st'. repeat split; assumption.
  - exact (Hc (Sample.text "T") eq_refl eq_refl).
Defined.

(** ** The keyword type classifier *)

Section TypeClassifier.

Variable lower : pystr -> pystr.

(** evaluate_lotnlg.py compares in both directions. *)
Lemma lotnlg_type_match_spec (pred_type gold_type : pystr) :
  EvaluateLotnlg.type_match lower pred_type (JStr gold_type) = Ok true <->
  Substring (lower pred_type) (lower gold_type) \/
  Substring (lower gold_type) (lower pred_type).
Proof.
  unfold EvaluateLotnlg.type_match. simpl.
  rewrite <- !contains_spec.
  destruct (contains (lower pred_type) (lower gold_type)),
    (contains (lower gold_type) (lower pred_type)); simpl;
    split; auto; try discriminate; intros [H|H]; discriminate.
Qed.

(** evaluate_logicnlg.py only asks whether the predicted type occurs in
    the gold label. *)
Lemma logicnlg_type_match_spec (pred_type gold_type : pystr) :
  EvaluateLogicnlg.type_match lower pred_type (JStr gold_type) = Ok true <->
  Substring (lower pred_type) (lower gold_type).
Proof.
  unfold EvaluateLogicnlg.type_match. simpl.
  rewrite <- contains_spec.
  destruct (contains (lower pred_type) (lower gold_type));
    split; auto; discriminate.
Qed.

(** In evaluate_lotnlg.py a label found by the pattern is the predicted
    type, and the keywords decide only when the pattern finds none. *)
Lemma lotnlg_label_overrides (pred_text : pystr) :
  (forall label, re_search re_label pred_text = Some label ->
     EvaluateLotnlg.predicted_type lower pred_text = strip (lower label)) /\
  (re_search re_label pred_text = None ->
     EvaluateLotnlg.predicted_type lower pred_text
     = Lexical.infer_type EvaluateLotnlg.type_keywords (lower pred_text)).
Proof.
  unfold EvaluateLotnlg.predicted_type. split.
  - intros label ->. reflexivity.
  - intros ->. reflexivity.
Qed.

End TypeClassifier.

Section FailingTypes.

Variable lower : pystr -> pystr.
Hypothesis lower_ascii : lowers_ascii lower.

Ltac lower_ascii_text :=
  repeat match goal with
         | |- context [lower ?s] => rewrite (lower_ascii s eq_refl)
         end.

(** C7 (the code at the failing input).  For the prediction
    "Alice plays chess." the inferred type is [surface-level]; with the
    gold label [surface], which occurs in it, evaluate_logicnlg.py counts
    no match and evaluate_lotnlg.py counts one. *)
Theorem reverse_containment_missed :
  EvaluateLogicnlg.predicted_type lower Sample.chess = lit "surface-level" /\
  EvaluateLotnlg.predicted_type lower Sample.chess = lit "surface-level" /\
  Substring (lower (lit "surface")) (lower (lit "surface-level")) /\
  EvaluateLogicnlg.type_match lower (lit "surface-level")
    (Sample.text "surface") = Ok false /\
  EvaluateLotnlg.type_match lower (lit "surface-level")
    (Sample.text "surface") = Ok true /\
  EvaluateLogicnlg.score_type Sample.repr lower Sample.gold_surface
    Sample.chess (EvaluateLogicnlg.results0 true)
    = (EvaluateLogicnlg.results0 true, Ok tt) /\
  EvaluateLotnlg.score_type Sample.repr lower Sample.gold_surface
    Sample.chess (EvaluateLotnlg.results0 true)
    = ([(lit "nli_acc", 0%Q); (lit "rouge_l", 0%Q); (lit "bleu", 0%Q);
        (lit "type_em", (0 + 1)%Q)], Ok tt).
Proof.
  assert (E1 : EvaluateLogicnlg.predicted_type lower Sample.chess
               = lit "surface-level").
  { unfold EvaluateLogicnlg.predicted_type. lower_ascii_text.
    vm_compute. reflexivity. }
  assert (E2 : EvaluateLotnlg.predicted_type lower Sample.chess
               = lit "surface-level").
  { unfold EvaluateLotnlg.predicted_type.
    change (re_search re_label Sample.chess) with (@None pystr).
    lower_ascii_text. vm_compute. reflexivity. }
  split; [exact E1|]. split; [exact E2|]. split.
  { apply contains_spec. lower_ascii_text. vm_compute. reflexivity. }
  split.
  { unfold EvaluateLogicnlg.type_match, Sample.text, py_lower. cbn [bind].
    lower_ascii_text. vm_compute. reflexivity. }
  split.
  { unfold EvaluateLotnlg.type_match, Sample.text, py_lower. cbn [bind].
    lower_ascii_text. vm_compute. reflexivity. }
  split.
  - unfold EvaluateLogicnlg.score_type. rewrite E1.
    unfold EvaluateLogicnlg.type_match, py_lower.
    change (dict_index Sample.gold_surface (lit "logical_labels"))
      with (Ok (Sample.text "surface")).
    unfold Lexical.tbind, Lexical.lift, Lexical.first_or_str, Sample.text,
      py_str. cbn [bind].
    lower_ascii_text. vm_compute. reflexivity.
  - unfold EvaluateLotnlg.score_type. rewrite E2.
    unfold EvaluateLotnlg.type_match, py_lower.
    change (dict_index Sample.gold_surface (lit "logical_labels"))
      with (Ok (Sample.text "surface")).
    unfold Lexical.tbind, Lexical.lift, Lexical.first_or_str, Sample.text,
      py_str. cbn [bind].
    lower_ascii_text. vm_compute. reflexivity.
Qed.

(** C8 (the code at the failing input).  For the prediction
    "Claim 1 (ordinal): The total is 5." evaluate_lotnlg.py takes the
    explicit label [ordinal]; evaluate_logicnlg.py has no search for a
    label and infers [aggregation] from the keyword [total]. *)
Theorem explicit_label_ignored :
  re_search re_label Sample.labelled = Some (lit "ordinal") /\
  EvaluateLotnlg.predicted_type lower Sample.labelled = lit "ordinal" /\
  EvaluateLogicnlg.predicted_type lower Sample.labelled = lit "aggregation".
Proof.
  split; [vm_compute; reflexivity|]. split.
  - unfold EvaluateLotnlg.predicted_type.
    change (re_search re_label Sample.labelled) with (Some (lit "ordinal")).
    lower_ascii_text. vm_compute. reflexivity.
  - unfold EvaluateLogicnlg.predicted_type. lower_ascii_text.
    vm_compute. reflexivity.
Qed.

End FailingTypes.

Lemma ascii_lower_lowers_ascii : lowers_ascii ascii_lower.
Proof. intros s _. reflexivity. Qed.

Lemma reverse_containment_missed_witness :
  EvaluateLogicnlg.type_match ascii_lower (lit "surface-level")
    (Sample.text "surface") = Ok false /\
  EvaluateLotnlg.type_match ascii_lower (lit "surface-level")
    (Sample.text "surface") = Ok true.
Proof.
  destruct (reverse_containment_missed ascii_lower ascii_lower_lowers_ascii)
    as [_ [_ [_ [H1 [H2 _]]]]].
  split; assumption.
Defined.

Lemma explicit_label_ignored_witness :
  EvaluateLotnlg.predicted_type ascii_lower Sample.labelled = lit "ordinal" /\
  EvaluateLogicnlg.predicted_type ascii_lower Sample.labelled = lit "aggregation".
Proof.
  destruct (explicit_label_ignored ascii_lower ascii_lower_lowers_ascii)
    as [_ [H1 H2]].
  split; assumption.
Defined.

(** ** The percentages *)

Lemma finalize_zero (results : Lexical.metrics) :
  Lexical.finalize results 0 = results.
Proof. reflexivity. Qed.

Lemma finalize_positive (results : Lexical.metrics) (total : nat) :
  0 < total ->
  Lexical.finalize results total
  = map (fun kv => (fst kv, (snd kv / inject_Z (Z.of_nat total) * 100)%Q)) results.
Proof.
  intros H. unfold Lexical.finalize.
  destruct (Nat.ltb_spec 0 total); [reflexivity | lia].
Qed.

(** C9 (the code at the failing input).  The one matched pair is judged
    entailed and scored by ROUGE and BLEU, then the empty list of logical
    labels raises inside the [try]: the pair is skipped, [total] stays 0,
    and the report keeps the sums already added instead of 0. *)
Theorem zero_total_nonzero_metrics (repr : json -> pystr)
    (lower : pystr -> pystr) :
  exists rep : Lexical.report,
    EvaluateLotnlg.evaluate_lotnlg repr lower Sample.nli_entails
      Sample.rouge_half Sample.bleu_quarter Sample.predictions_a
      Sample.gold_no_label = Ok rep /\
    Lexical.r_total rep = 0 /\
    Lexical.r_metrics rep
    = [(lit "nli_acc", (0 + 1)%Q); (lit "rouge_l", (0 + (1 # 2))%Q);
       (lit "bleu", (0 + (1 # 4))%Q); (lit "type_em", 0%Q)] /\
    ~ Forall (fun kv => (snd kv == 0)%Q) (Lexical.r_metrics rep).
Proof.
  eexists. split; [vm_compute; reflexivity|]. split; [reflexivity|].
  split; [reflexivity|]. simpl. intros H. inversion H as [|kv l H1 H2]; subst.
  simpl in H1. discriminate H1.
Qed.

(** ** The counts of a run *)

Import Lexical.

Lemma uniform_lift {A : Type} (r : result A) : uniform (Lexical.lift r).
Proof. intros m1 m2 H. split; reflexivity. Qed.

Lemma uniform_tret {A : Type} (a : A) : uniform (Lexical.tret a).
Proof. intros m1 m2 H. split; reflexivity. Qed.

Lemma metrics_update_keys (m m' : Lexical.metrics) (key : pystr) (v : Q) :
  Lexical.metrics_update m key v = Some m' -> same_keys m m'.
Proof.
  unfold same_keys. revert m'. induction m as [|[k x] m IH]; intros m'; simpl.
  - discriminate.
  - destruct (str_eqb k key).
    + intros [= <-]. reflexivity.
    + destruct (Lexical.metrics_update m key v) as [m''|]; [|discriminate].
      intros [= <-]. simpl. f_equal. now apply IH.
Qed.

Lemma metrics_update_defined (m1 m2 : Lexical.metrics) (key : pystr) (v : Q) :
  same_keys m1 m2 ->
  Lexical.metrics_update m1 key v = None ->
  Lexical.metrics_update m2 key v = None.
Proof.
  unfold same_keys. revert m2. induction m1 as [|[k x] m1 IH]; intros [|[k' x'] m2];
    simpl; try discriminate; try reflexivity.
  intros [= -> Hk]. destruct (str_eqb k' key); [discriminate|].
  destruct (Lexical.metrics_update m1 key v) eqn:E; [discriminate|].
  intros _. now rewrite (IH m2 Hk).
Qed.

Lemma same_keys_sym (m1 m2 : Lexical.metrics) :
  same_keys m1 m2 -> same_keys m2 m1.
Proof. unfold same_keys. intros H. now symmetry. Qed.

Lemma same_keys_trans (m1 m2 m3 : Lexical.metrics) :
  same_keys m1 m2 -> same_keys m2 m3 -> same_keys m1 m3.
Proof. unfold same_keys. intros H1 H2. now rewrite H1. Qed.

Lemma uniform_metric_add (key : pystr) (v : Q) :
  uniform (Lexical.metric_add key v).
Proof.
  intros m1 m2 H. unfold Lexical.metric_add.
  destruct (Lexical.metrics_update m1 key v) as [m1'|] eqn:E1.
  - simpl. split; [eapply metrics_update_keys; eassumption|].
    destruct (Lexical.metrics_update m2 key v) as [m2'|] eqn:E2; [reflexivity|].
    apply (metrics_update_defined m2 m1) in E2; [congruence|].
    now apply same_keys_sym.
  - simpl. split; [reflexivity|].
    now rewrite (metrics_update_defined m1 m2 key v H E1).
Qed.

Lemma uniform_tbind {A B : Type} (c : Lexical.Try A) (k : A -> Lexical.Try B) :
  uniform c -> (forall a, uniform (k a)) -> uniform (Lexical.tbind c k).
Proof.
  intros Hc Hk m1 m2 H. unfold Lexical.tbind.
  destruct (Hc m1 m2 H) as [K1 E]. destruct (Hc m2 m1 (same_keys_sym _ _ H)) as [K2 _].
  destruct (c m1) as [m1' r1], (c m2) as [m2' r2]. simpl in *. subst r2.
  destruct r1 as [a|e]; simpl; [|now split].
  assert (K : same_keys m1' m2').
  { apply (same_keys_trans _ m1); [now apply same_keys_sym|].
    exact (same_keys_trans _ _ _ H K2). }
  destruct (Hk a m1' m2' K) as [K3 E3]. split; [|assumption].
  exact (same_keys_trans _ _ _ K1 K3).
Qed.

Create HintDb uniform.
#[local] Hint Resolve uniform_lift uniform_tret uniform_metric_add : uniform.

Ltac uniform_block :=
  repeat first
    [ apply uniform_tbind; [|intro]
    | match goal with
      | |- uniform (if ?b then _ else _) => destruct b
      | |- uniform (match ?b with true => _ | false => _ end) => destruct b
      end
    | solve [auto with uniform] ].

Section LexicalLoop.

Variable matched : pystr -> json -> result (option (Try unit)).
Variable m0 : metrics.
Hypothesis matched_uniform :
  forall k v block, matched k v = Ok (Some block) -> uniform block.

Lemma try_score_counts (st : loop_state) (block : Try unit) :
  uniform block ->
  same_keys m0 (results st) ->
  same_keys m0 (results (try_score st block)) /\
  (snd (block m0) = Ok tt ->
   total (try_score st block) = S (total st) /\
   not_found (try_score st block) = not_found st).
Proof.
  intros Hu Hk. unfold try_score.
  destruct (Hu m0 (results st) Hk) as [_ E].
  destruct (Hu (results st) m0 (same_keys_sym _ _ Hk)) as [K _].
  destruct (block (results st)) as [m r]. simpl in *.
  split.
  - destruct r; simpl; exact (same_keys_trans _ _ _ Hk K).
  - intros Hok. rewrite Hok in E. subst r. simpl. split; reflexivity.
Qed.

Lemma lexical_loop_counts (items : dict) :
  forall st st',
    same_keys m0 (results st) ->
    for_items (fun st k v => bind (matched k v) (fun pair => Ok (settle st pair)))
      items st = Ok st' ->
    (forall k v block,
       In (k, v) items -> matched k v = Ok (Some block) ->
       snd (block m0) = Ok tt) ->
    total st' + not_found st' = total st + not_found st + List.length items.
Proof.
  induction items as [|[k v] items IH]; intros st st' Hk Hrun Hok.
  - simpl in Hrun. injection Hrun as <-. simpl. lia.
  - simpl in Hrun. destruct (matched k v) as [pair|e] eqn:E; [|discriminate].
    simpl in Hrun. destruct pair as [block|]; simpl in Hrun.
    + destruct (try_score_counts st block (matched_uniform _ _ _ E) Hk)
        as [Hk' Hc].
      destruct (Hc (Hok k v block (or_introl eq_refl) E)) as [Ht Hn].
      rewrite (IH _ _ Hk' Hrun (fun k' v' b HI => Hok k' v' b (or_intror HI))).
      rewrite Ht, Hn. simpl. lia.
    + rewrite (IH (miss st) st' Hk Hrun
                 (fun k' v' b HI => Hok k' v' b (or_intror HI))).
      simpl. lia.
Qed.

End LexicalLoop.

Section JudgeLoop.

Variable matched : pystr -> json -> result (option (result Z)).

Lemma judge_loop_counts (items : dict) :
  forall st st',
    for_items (fun st k v => bind (matched k v) (fun pair => Ok (Judge.settle st pair)))
      items st = Ok st' ->
    (forall k v scored,
       In (k, v) items -> matched k v = Ok (Some scored) ->
       exists score, scored = Ok score) ->
    Judge.total_count st' + Judge.not_found st'
    = Judge.total_count st + Judge.not_found st + List.length items.
Proof.
  induction items as [|[k v] items IH]; intros st st' Hrun Hok.
  - simpl in Hrun. injection Hrun as <-. simpl. lia.
  - simpl in Hrun. destruct (matched k v) as [pair|e] eqn:E; [|discriminate].
    simpl in Hrun.
    rewrite (IH _ _ Hrun (fun k' v' b HI => Hok k' v' b (or_intror HI))).
    destruct pair as [scored|]; simpl.
    + destruct (Hok k v scored (or_introl eq_refl) E) as [score ->].
      simpl. lia.
    + lia.
Qed.

End JudgeLoop.

Section Counts.

Variable repr : json -> pystr.
Variable lower : pystr -> pystr.
Variable nli_model : pystr -> result pystr.
Variable rouge_score : json -> pystr -> result Q.
Variable sentence_bleu : list (list pystr) -> list pystr -> result Q.
Variable chat_completion : pystr -> pystr -> result pystr.

Lemma lotnlg_score_example_uniform (has : bool) (g : dict) (t x : json)
    (p c : pystr) :
  uniform (EvaluateLotnlg.score_example repr lower nli_model rouge_score
             sentence_bleu has g t x p c).
Proof.
  unfold EvaluateLotnlg.score_example, EvaluateLotnlg.score_type.
  uniform_block.
Qed.

Lemma lotnlg_matched_uniform (has : bool) (index : gold_index) (k : pystr)
    (v : json) (block : Try unit) :
  EvaluateLotnlg.matched repr lower nli_model rouge_score sentence_bleu has
    index k v = Ok (Some block) ->
  uniform block.
Proof.
  unfold EvaluateLotnlg.matched.
  destruct (index_find index k) as [g|]; [|discriminate].
  destruct (prediction_text repr v); [|discriminate]. cbn [bind].
  destruct (dict_index g (lit "table_text")); [|discriminate]. cbn [bind].
  destruct (dict_index g (lit "sentences")); [|discriminate]. cbn [bind].
  destruct (first_or_str repr a1); [|discriminate]. cbn [bind].
  intros [= <-]. apply lotnlg_score_example_uniform.
Qed.

End Counts.

(** ** The text normalizer *)

Lemma split_from_app (w cur rest : pystr) :
  forallb (fun c => negb (is_space c)) w = true ->
  split_from cur (w ++ rest) = split_from (rev w ++ cur) rest.
Proof.
  revert cur. induction w as [|c w IH]; intros cur H; simpl in *.
  - reflexivity.
  - apply andb_true_iff in H as [Hc Hw]. apply negb_true_iff in Hc.
    rewrite Hc, (IH _ Hw), <- app_assoc. reflexivity.
Qed.

Lemma split_from_words (s cur : pystr) :
  forallb (fun c => negb (is_space c)) cur = true ->
  Forall word (split_from cur s).
Proof.
  revert cur. induction s as [|c s IH]; intros cur Hcur; simpl.
  - destruct cur as [|x cur]; constructor; [|constructor].
    split.
    + intros H. apply (f_equal (@rev char)) in H. rewrite rev_involutive in H.
      discriminate H.
    + rewrite forallb_forall in *. intros y Hy. apply Hcur.
      now apply in_rev.
  - destruct (is_space c) eqn:Ec.
    + destruct cur as [|x cur]; [now apply IH|].
      constructor; [|now apply IH]. split.
      * intros H. apply (f_equal (@rev char)) in H. rewrite rev_involutive in H.
        discriminate H.
      * rewrite forallb_forall in *. intros y Hy. apply Hcur. now apply in_rev.
    + apply IH. simpl. now rewrite Ec.
Qed.

Lemma split_words (s : pystr) : Forall word (split s).
Proof. now apply split_from_words. Qed.

Lemma split_one_word (w : pystr) : word w -> split w = [w].
Proof.
  intros [Hne Hw]. unfold split.
  rewrite <- (app_nil_r w) at 1. rewrite (split_from_app _ _ _ Hw). simpl.
  rewrite app_nil_r. destruct (rev w) eqn:E.
  - apply (f_equal (@rev char)) in E. rewrite rev_involutive in E. contradiction.
  - rewrite <- E, rev_involutive. reflexivity.
Qed.

Lemma split_join (ws : list pystr) :
  Forall word ws -> split (join space ws) = ws.
Proof.
  induction 1 as [|w ws Hw Hws IH]; [reflexivity|].
  destruct ws as [|w' ws]; [now apply split_one_word|].
  change (join space (w :: w' :: ws)) with (w ++ space ++ join space (w' :: ws)).
  destruct Hw as [Hne Hw]. unfold split in *.
  rewrite (split_from_app _ _ _ Hw). rewrite app_nil_r.
  change (space ++ join space (w' :: ws)) with (32%N :: join space (w' :: ws)).
  cbn [split_from]. change (is_space 32%N) with true. cbv iota.
  destruct (rev w) eqn:E.
  - apply (f_equal (@rev char)) in E. rewrite rev_involutive in E. contradiction.
  - rewrite <- E, rev_involutive. f_equal. exact IH.
Qed.

(** The last step of the normalizer is idempotent. *)
Lemma collapse_idempotent (s : pystr) :
  join space (split (join space (split s))) = join space (split s).
Proof.
  rewrite split_join; [reflexivity | apply split_words].
Qed.

Lemma re_search_none (r : regex) (c : char) (s : pystr) :
  re_search r (c :: s) = None ->
  match_here r (c :: s) = None /\ re_search r s = None.
Proof.
  cbn [re_search]. destruct (match_here r (c :: s)); [discriminate|]. now split.
Qed.

Lemma re_sub_unmatched (r : regex) (repl : pystr -> pystr) (s : pystr) :
  re_search r s = None -> re_sub r repl s = s.
Proof.
  unfold re_sub. induction s as [|c s IH]; intros H; [reflexivity|].
  apply re_search_none in H as [Hm Hs]. cbn [re_sub_from]. rewrite Hm.
  f_equal. now apply IH.
Qed.

Lemma re_findall_unmatched (r : regex) (s : pystr) :
  re_search r s = None -> re_findall r s = [].
Proof.
  unfold re_findall. induction s as [|c s IH]; intros H; [reflexivity|].
  apply re_search_none in H as [Hm Hs]. cbn [re_findall_from]. rewrite Hm.
  now apply IH.
Qed.

(** A text that no pattern matches is only collapsed. *)
Lemma clean_unmatched (y : pystr) :
  unmatched y = true -> clean_prediction_text y = join space (split y).
Proof.
  unfold unmatched.
  destruct (re_search re_header y) eqn:E1; [discriminate|].
  destruct (re_search re_claim y) eqn:E2; [discriminate|].
  destruct (re_search re_reasoning y) eqn:E3; [discriminate|].
  destruct (re_search re_bold y) eqn:E4; [discriminate|]. intros _.
  unfold clean_prediction_text.
  rewrite (re_sub_unmatched _ _ _ E1), (re_findall_unmatched _ _ E2).
  rewrite (re_sub_unmatched _ _ _ E3), (re_sub_unmatched _ _ _ E4).
  reflexivity.
Qed.

Lemma clean_is_collapsed (x : pystr) :
  exists z, clean_prediction_text x = join space (split z).
Proof. unfold clean_prediction_text. eexists. reflexivity. Qed.

(** Cleaning a cleaned text again changes nothing when no pattern
    matches the cleaned text any more. *)
Lemma clean_fixed_when_unmatched (x : pystr) :
  unmatched (clean_prediction_text x) = true ->
  clean_prediction_text (clean_prediction_text x) = clean_prediction_text x.
Proof.
  intros H. rewrite (clean_unmatched _ H).
  destruct (clean_is_collapsed x) as [z ->]. apply collapse_idempotent.
Qed.

(** C5, as stated, fails: the bold pattern is applied once from left to
    right, so the stars around a bold span survive the first cleaning and
    go in the second ("****a****" gives "**a**", then "a"); a header
    marker can be left behind in the same way ("### # x" gives "## x",
    then "x"). *)
Lemma clean_not_idempotent :
  clean_prediction_text (lit "****a****") = lit "**a**" /\
  clean_prediction_text (clean_prediction_text (lit "****a****")) = lit "a" /\
  clean_prediction_text (clean_prediction_text (lit "****a****"))
    <> clean_prediction_text (lit "****a****") /\
  clean_prediction_text (clean_prediction_text (lit "### # x"))
    <> clean_prediction_text (lit "### # x").
Proof.
  repeat split; try (vm_compute; reflexivity); vm_compute; discriminate.
Qed.

(** *** The matcher on text of a known shape *)

Lemma rmatch_head (c x : char) (r : regex) (s : pystr) (pos gs ge : nat) :
  x <> c -> rmatch (Chr c :: r) (x :: s) pos gs ge = None.
Proof.
  intros H. cbn [rmatch]. destruct (N.eqb_spec x c); [contradiction|reflexivity].
Qed.

Lemma re_sub_from_pass (c : char) (r : regex) (repl : pystr -> pystr)
    (pre rest : pystr) :
  ~ In c pre ->
  re_sub_from (Chr c :: r) repl (pre ++ rest) 0
  = pre ++ re_sub_from (Chr c :: r) repl rest 0.
Proof.
  induction pre as [|x pre IH]; intros H; [reflexivity|].
  cbn [app re_sub_from]. unfold match_here.
  rewrite rmatch_head by (intros ->; apply H; now left).
  f_equal. apply IH. intros K. apply H. now right.
Qed.

Lemma re_sub_from_skip (r : regex) (repl : pystr -> pystr) (a rest : pystr) :
  re_sub_from r repl (a ++ rest) (List.length a) = re_sub_from r repl rest 0.
Proof.
  induction a as [|x a IH]; [reflexivity|]. cbn [app List.length re_sub_from].
  exact IH.
Qed.

Lemma re_sub_from_match (r : regex) (repl : pystr -> pystr) (x : char)
    (body rest : pystr) (m : rmatch_result) :
  match_here r (x :: body ++ rest) = Some m ->
  m_end m = S (List.length body) ->
  re_sub_from r repl (x :: body ++ rest) 0
  = repl (group1 m (x :: body ++ rest)) ++ re_sub_from r repl rest 0.
Proof.
  intros Hm He. cbn [re_sub_from]. rewrite Hm, He.
  now rewrite re_sub_from_skip.
Qed.

Lemma span_app (cls : char -> bool) (a b : pystr) :
  forallb cls a = true -> span cls (a ++ b) = List.length a + span cls b.
Proof.
  induction a as [|x a IH]; intros H; [reflexivity|].
  simpl in H. apply andb_true_iff in H as [Hx Ha].
  cbn [app span List.length]. rewrite Hx, (IH Ha). reflexivity.
Qed.

Lemma skipn_length_app (a b : pystr) : skipn (List.length a) (a ++ b) = b.
Proof. induction a as [|x a IH]; [reflexivity|exact IH]. Qed.

Lemma firstn_length_app (a b : pystr) : firstn (List.length a) (a ++ b) = a.
Proof.
  induction a as [|x a IH]; [reflexivity|]. cbn [app List.length firstn].
  now rewrite IH.
Qed.

Lemma in_skipn (c : char) (k : nat) (s : pystr) : In c (skipn k s) -> In c s.
Proof.
  revert s. induction k as [|k IH]; intros s H; [exact H|].
  destruct s as [|x s]; [exact H|]. right. now apply IH.
Qed.

Lemma backtrack_first {A : Type} (f : nat -> option A) (lo n : nat) (a : A) :
  f (lo + n) = Some a -> backtrack f lo n = Some a.
Proof. intros H. destruct n; cbn [backtrack]; now rewrite H. Qed.

Lemma backtrack_none {A : Type} (f : nat -> option A) (lo n : nat) :
  (forall k, f k = None) -> backtrack f lo n = None.
Proof.
  intros H. induction n as [|n IH]; cbn [backtrack]; rewrite H; [reflexivity|exact IH].
Qed.

(** A pattern that holds a literal character matches no text without it. *)
Lemma rmatch_needs_char (c : char) (r : regex) :
  In (Chr c) r ->
  forall s pos gs ge, ~ In c s -> rmatch r s pos gs ge = None.
Proof.
  induction r as [|a r IH]; intros Hin s pos gs ge Hs; [contradiction|].
  destruct a as [c0|cls|cls| |].
  - destruct s as [|x s]; [reflexivity|]. cbn [rmatch].
    destruct (N.eqb_spec x c0) as [->|Hne]; [|reflexivity].
    destruct Hin as [[= ->]|Hin]; [exfalso; apply Hs; now left|].
    apply IH; [exact Hin|]. intros K. apply Hs. now right.
  - destruct Hin as [Hin|Hin]; [discriminate|]. cbn [rmatch].
    destruct (span cls s); [reflexivity|]. apply backtrack_none. intros k.
    apply IH; [exact Hin|]. intros K. apply Hs. eapply in_skipn; eassumption.
  - destruct Hin as [Hin|Hin]; [discriminate|]. cbn [rmatch].
    apply backtrack_none. intros k.
    apply IH; [exact Hin|]. intros K. apply Hs. eapply in_skipn; eassumption.
  - destruct Hin as [Hin|Hin]; [discriminate|]. cbn [rmatch]. now apply IH.
  - destruct Hin as [Hin|Hin]; [discriminate|]. cbn [rmatch]. now apply IH.
Qed.

Lemma re_search_needs_char (c : char) (r : regex) (s : pystr) :
  In (Chr c) r -> ~ In c s -> re_search r s = None.
Proof.
  intros Hin. induction s as [|x s IH]; intros Hs; [reflexivity|].
  cbn [re_search]. unfold match_here. rewrite (rmatch_needs_char c r Hin) by exact Hs.
  apply IH. intros K. apply Hs. now right.
Qed.

Lemma nonempty_length (s : pystr) :
  nonempty s = true -> exists n, List.length s = S n.
Proof. destruct s; [discriminate|]. intros _. now eexists. Qed.

(** The header pattern on a marker followed by its whole run of
    whitespace. *)
Lemma header_match (ws rest : pystr) :
  nonempty ws = true ->
  forallb is_space ws = true ->
  starts_with_space rest = false ->
  match_here re_header (hash :: hash :: ws ++ rest)
  = Some (MkMatch (2 + List.length ws) 0 0).
Proof.
  intros Hne Hws Hrest. unfold match_here, re_header. cbn [rmatch].
  rewrite N.eqb_refl. rewrite (span_app _ _ _ Hws).
  assert (Hz : span is_space rest = 0).
  { destruct rest as [|x rest]; [reflexivity|]. simpl in Hrest. cbn [span].
    now rewrite Hrest. }
  rewrite Hz, Nat.add_0_r. destruct (nonempty_length _ Hne) as [n Hn].
  rewrite Hn. apply backtrack_first. reflexivity.
Qed.

(** The bold pattern on a span around text without stars. *)
Lemma bold_match (t rest : pystr) :
  nonempty t = true ->
  forallb (is_not star) t = true ->
  match_here re_bold (star :: star :: t ++ star :: star :: rest)
  = Some (MkMatch (4 + List.length t) 2 (2 + List.length t)).
Proof.
  intros Hne Ht. unfold match_here, re_bold. cbn [rmatch].
  rewrite N.eqb_refl. rewrite (span_app _ _ _ Ht).
  change (span (is_not star) (star :: star :: rest)) with 0.
  rewrite Nat.add_0_r. destruct (nonempty_length _ Hne) as [n Hn].
  rewrite Hn. apply backtrack_first.
  change (1 + n) with (S n). rewrite <- Hn, skipn_length_app.
  cbn [rmatch]. rewrite N.eqb_refl. reflexivity.
Qed.

(** *** Text with its markers in well-formed position *)

Lemma plain_char_spec (c : char) :
  plain_char c = true -> c <> hash /\ c <> star /\ c <> colon.
Proof.
  unfold plain_char. rewrite !andb_true_iff, !negb_true_iff, !N.eqb_neq. tauto.
Qed.

Lemma plain_not_in (s : pystr) (c : char) :
  forallb plain_char s = true -> c = hash \/ c = star \/ c = colon -> ~ In c s.
Proof.
  rewrite forallb_forall. intros H Hc K.
  destruct (plain_char_spec _ (H _ K)) as [H1 [H2 H3]].
  destruct Hc as [ -> | [ -> | -> ] ]; contradiction.
Qed.

Lemma plain_is_not_star (s : pystr) :
  forallb plain_char s = true -> forallb (is_not star) s = true.
Proof.
  rewrite !forallb_forall. intros H x Hx. unfold is_not.
  apply negb_true_iff, N.eqb_neq. now destruct (plain_char_spec _ (H _ Hx)) as [_ [? _]].
Qed.

Lemma space_not_marker (s : pystr) (c : char) :
  forallb is_space s = true -> c = hash \/ c = star \/ c = colon -> ~ In c s.
Proof.
  rewrite forallb_forall. intros H Hc K. specialize (H _ K).
  destruct Hc as [ -> | [ -> | -> ] ]; discriminate H.
Qed.

Lemma well_formed_tail (tok : token) (toks : list token) :
  well_formed (tok :: toks) = true -> well_formed toks = true.
Proof.
  destruct tok; cbn [well_formed]; rewrite ?andb_true_iff; tauto.
Qed.

Lemma remove_headers_well_formed (toks : list token) :
  well_formed toks = true -> well_formed (remove_headers toks) = true.
Proof.
  induction toks as [|tok toks IH]; intros H; [reflexivity|].
  pose proof (IH (well_formed_tail _ _ H)) as IH'.
  destruct tok; cbn [remove_headers filter is_header negb well_formed] in *;
    [| |exact IH'];
    rewrite ?andb_true_iff in *; fold (remove_headers toks); tauto.
Qed.

Lemma remove_headers_plain (toks : list token) :
  plain_all (remove_headers toks) = plain_all toks.
Proof.
  induction toks as [|tok toks IH]; [reflexivity|].
  destruct tok; cbn [remove_headers filter is_header negb plain_all plain app];
    fold (remove_headers toks); now rewrite IH.
Qed.

Lemma remove_headers_none (toks : list token) :
  forallb (fun tok => negb (is_header tok)) (remove_headers toks) = true.
Proof.
  apply forallb_forall. intros tok H. now apply filter_In in H as [_ H].
Qed.

Lemma in_bold_render (c : char) (t : pystr) :
  In c (render (Bold t)) -> c = star \/ In c t.
Proof.
  cbn [render app In]. intros [H|[H|H]]; auto.
  apply in_app_or in H as [H|[H|[H|[]]]]; auto.
Qed.

Lemma in_header_render (c : char) (ws : pystr) :
  In c (render (Header ws)) -> c = hash \/ In c ws.
Proof. cbn [render app In]. intros [H|[H|H]]; auto. Qed.

(** No colon stands in a well-formed text. *)
Lemma well_formed_no_colon (toks : list token) :
  well_formed toks = true -> ~ In colon (render_all toks).
Proof.
  induction toks as [|tok toks IH]; intros H K; [exact K|].
  pose proof (IH (well_formed_tail _ _ H)) as IH'.
  cbn [render_all] in K. apply in_app_or in K as [K|K]; [|contradiction].
  destruct tok as [s|t|ws]; cbn [well_formed] in H;
    rewrite ?andb_true_iff in H.
  - destruct H as [H _]. revert K. apply plain_not_in; auto.
  - destruct H as [[_ H] _].
    apply in_bold_render in K as [K|K]; [discriminate K|].
    revert K. apply plain_not_in; auto.
  - destruct H as [[[_ H] _] _].
    apply in_header_render in K as [K|K]; [discriminate K|].
    revert K. apply space_not_marker; auto.
Qed.

(** The first pass removes exactly the header markers. *)
Lemma sub_header_render (toks : list token) :
  well_formed toks = true ->
  re_sub re_header (fun _ => []) (render_all toks)
  = render_all (remove_headers toks).
Proof.
  unfold re_sub, re_header.
  induction toks as [|tok toks IH]; intros H; [reflexivity|].
  pose proof (IH (well_formed_tail _ _ H)) as IH'.
  destruct tok as [s|t|ws];
    cbn [well_formed render_all render remove_headers filter is_header negb] in *;
    fold (remove_headers toks); rewrite ?andb_true_iff in H.
  - destruct H as [H _]. rewrite re_sub_from_pass, IH'; [reflexivity|].
    apply plain_not_in; auto.
  - destruct H as [[_ H] _]. rewrite re_sub_from_pass, IH'; [reflexivity|].
    intros K. apply (in_bold_render hash t) in K as [K|K]; [discriminate K|].
    revert K. apply plain_not_in; auto.
  - destruct H as [[[Hne Hws] Hrest] _]. apply negb_true_iff in Hrest.
    change (([hash; hash] ++ ws) ++ render_all toks)
      with (hash :: (hash :: ws) ++ render_all toks).
    rewrite (re_sub_from_match [Chr hash; Chr hash; Plus is_space]
               (fun _ => []) hash (hash :: ws) (render_all toks) _
               (header_match _ _ Hne Hws Hrest));
      [exact IH'|reflexivity].
Qed.

(** The bold pass keeps the text of every span and drops its markers. *)
Lemma sub_bold_render (toks : list token) :
  well_formed toks = true ->
  forallb (fun tok => negb (is_header tok)) toks = true ->
  re_sub re_bold (fun g => g) (render_all toks) = plain_all toks.
Proof.
  unfold re_sub, re_bold.
  induction toks as [|tok toks IH]; intros H Hh; [reflexivity|].
  cbn [forallb] in Hh. apply andb_true_iff in Hh as [Hh Hh'].
  pose proof (IH (well_formed_tail _ _ H) Hh') as IH'.
  destruct tok as [s|t|ws]; [| |discriminate Hh];
    cbn [well_formed render_all render plain_all plain] in *;
    rewrite ?andb_true_iff in H.
  - destruct H as [H _]. rewrite re_sub_from_pass, IH'; [reflexivity|].
    apply plain_not_in; auto.
  - destruct H as [[Hne H] _].
    replace (([star; star] ++ t ++ [star; star]) ++ render_all toks)
      with (star :: (star :: t ++ [star; star]) ++ render_all toks)
      by (cbn [app]; now rewrite <- !app_assoc).
    pose proof (bold_match t (render_all toks) Hne (plain_is_not_star _ H)) as Hm.
    replace (star :: star :: t ++ star :: star :: render_all toks)
      with (star :: (star :: t ++ [star; star]) ++ render_all toks) in Hm
      by (cbn [app]; now rewrite <- !app_assoc).
    rewrite (re_sub_from_match
               [Chr star; Chr star; GroupOpen; Plus (is_not star); GroupClose;
                Chr star; Chr star]
               (fun g => g) star (star :: t ++ [star; star])
               (render_all toks) _ Hm).
    + rewrite IH'. f_equal. unfold group1. cbn [g_end g_start skipn app].
      replace (2 + List.length t - 2) with (List.length t) by lia.
      rewrite <- app_assoc. apply firstn_length_app.
    + cbn [m_end List.length]. rewrite length_app. cbn [List.length]. lia.
Qed.

(** What [split] and [join] can put into a text. *)
Lemma split_from_in (c : char) (s cur w : pystr) :
  In w (split_from cur s) -> In c w -> In c cur \/ In c s.
Proof.
  revert cur. induction s as [|x s IH]; intros cur Hw Hc; cbn [split_from] in Hw.
  - destruct cur as [|y cur]; [contradiction|].
    destruct Hw as [<-|[]]. left. now apply in_rev.
  - destruct (is_space x).
    + destruct cur as [|y cur].
      * destruct (IH _ Hw Hc) as [K|K]; [contradiction|right; now right].
      * destruct Hw as [<-|Hw]; [left; now apply in_rev|].
        destruct (IH _ Hw Hc) as [K|K]; [contradiction|right; now right].
    + destruct (IH _ Hw Hc) as [[<-|K]|K]; [right; now left|now left|right; now right].
Qed.

Lemma join_in (c : char) (sep : pystr) (ws : list pystr) :
  In c (join sep ws) -> In c sep \/ exists w, In w ws /\ In c w.
Proof.
  induction ws as [|w ws IH]; [contradiction|]. cbn [join].
  destruct ws as [|w' ws].
  - intros H. right. exists w. split; [now left|exact H].
  - intros H. apply in_app_or in H as [H|H].
    + right. exists w. split; [now left|exact H].
    + apply in_app_or in H as [H|H]; [now left|].
      destruct (IH H) as [K|[w0 [K1 K2]]]; [now left|].
      right. exists w0. split; [now right|exact K2].
Qed.

Lemma collapse_in (c : char) (s : pystr) :
  In c (join space (split s)) -> In c s \/ c = 32%N.
Proof.
  intros H. apply join_in in H as [[H|[]]|[w [Hw Hc]]].
  - right. now symmetry.
  - destruct (split_from_in c s [] w Hw Hc) as [[]|K]. now left.
Qed.

Lemma plain_all_chars (toks : list token) :
  well_formed toks = true -> forallb plain_char (plain_all toks) = true.
Proof.
  induction toks as [|tok toks IH]; intros H; [reflexivity|].
  pose proof (IH (well_formed_tail _ _ H)) as IH'.
  destruct tok as [s|t|ws]; cbn [well_formed plain_all plain] in *;
    rewrite ?andb_true_iff in H; rewrite ?forallb_app, ?andb_true_iff;
    try tauto.
Qed.

(** The normalizer on well-formed text: the text of the tokens, with
    whitespace collapsed. *)
Lemma clean_render_all (toks : list token) :
  well_formed toks = true ->
  clean_prediction_text (render_all toks) = join space (split (plain_all toks)).
Proof.
  intros H. unfold clean_prediction_text. rewrite (sub_header_render _ H).
  pose proof (remove_headers_well_formed _ H) as H'.
  pose proof (well_formed_no_colon _ H') as Hc.
  rewrite (re_findall_unmatched re_claim).
  2:{ apply (re_search_needs_char colon); [|exact Hc]. unfold re_claim.
      apply in_or_app. right. simpl. tauto. }
  rewrite (re_sub_unmatched re_reasoning).
  2:{ apply (re_search_needs_char colon); [|exact Hc]. unfold re_reasoning.
      apply in_or_app. right. simpl. tauto. }
  rewrite (sub_bold_render _ H' (remove_headers_none toks)).
  now rewrite remove_headers_plain.
Qed.

Lemma clean_render_all_plain (toks : list token) (c : char) :
  well_formed toks = true ->
  c = hash \/ c = star \/ c = colon ->
  ~ In c (clean_prediction_text (render_all toks)).
Proof.
  intros H Hc K. rewrite (clean_render_all _ H) in K.
  apply collapse_in in K as [K|K].
  - revert K. apply plain_not_in; [now apply plain_all_chars|exact Hc].
  - destruct Hc as [ -> | [ -> | -> ] ]; discriminate K.
Qed.


(** On well-formed text the normalizer is idempotent. *)
Lemma clean_well_formed_idempotent (toks : list token) :
  well_formed toks = true ->
  clean_prediction_text (clean_prediction_text (render_all toks))
  = clean_prediction_text (render_all toks).
Proof.
  intros H. apply clean_fixed_when_unmatched. unfold unmatched.
  rewrite (re_search_needs_char hash re_header)
    by (try (simpl; tauto); apply clean_render_all_plain; auto).
  rewrite (re_search_needs_char colon re_claim)
    by (try (unfold re_claim; apply in_or_app; right; simpl; tauto);
        apply clean_render_all_plain; auto).
  rewrite (re_search_needs_char colon re_reasoning)
    by (try (unfold re_reasoning; apply in_or_app; right; simpl; tauto);
        apply clean_render_all_plain; auto).
  rewrite (re_search_needs_char star re_bold)
    by (try (simpl; tauto); apply clean_render_all_plain; auto).
  reflexivity.
Qed.

(** *** The explicit label of evaluate_lotnlg.py *)

Lemma backtrack_some {A : Type} (f : nat -> option A) (lo n : nat) (a : A) :
  backtrack f lo n = Some a -> exists k, k <= n /\ f (lo + k) = Some a.
Proof.
  induction n as [|n IH]; cbn [backtrack].
  - destruct (f (lo + 0)) eqn:E; [|discriminate]. intros [= <-]. now exists 0.
  - destruct (f (lo + S n)) eqn:E.
    + intros [= <-]. now exists (S n).
    + intros H. destruct (IH H) as [k [Hk Hf]]. exists k. split; [lia|exact Hf].
Qed.

Lemma span_inside (cls : char -> bool) (s : pystr) (k : nat) :
  k < span cls s -> exists c rest, skipn k s = c :: rest /\ cls c = true.
Proof.
  revert s. induction k as [|k IH]; intros s H.
  - destruct s as [|c s]; [inversion H|]. cbn [span] in H.
    destruct (cls c) eqn:E; [|inversion H]. now exists c, s.
  - destruct s as [|c s]; [inversion H|]. cbn [span] in H.
    destruct (cls c) eqn:E; [|inversion H]. apply IH. lia.
Qed.

Lemma span_firstn (cls : char -> bool) (s : pystr) (k : nat) :
  k <= span cls s -> forallb cls (firstn k s) = true /\ List.length (firstn k s) = k.
Proof.
  revert s. induction k as [|k IH]; intros s H; [now split|].
  destruct s as [|c s]; [inversion H|]. cbn [span] in H.
  destruct (cls c) eqn:E; [|inversion H].
  destruct (IH s) as [H1 H2]; [lia|]. cbn [firstn forallb List.length].
  now rewrite E, H1, H2.
Qed.

Lemma is_not_in (c : char) (s : pystr) :
  forallb (is_not c) s = true <-> ~ In c s.
Proof.
  rewrite forallb_forall. unfold is_not. split.
  - intros H K. specialize (H _ K). now rewrite N.eqb_refl in H.
  - intros H x Hx. apply negb_true_iff, N.eqb_neq. intros ->. contradiction.
Qed.

(** The label pattern matches at the head of [s] exactly when [s] starts
    with a label, and group 1 is that label. *)
Lemma label_match_spec (s lab : pystr) :
  (exists m, match_here re_label s = Some m /\ group1 m s = lab) <->
  labelled_here lab s.
Proof.
  split.
  - intros [m [Hm Hg]]. unfold match_here, re_label in Hm.
    destruct s as [|x s1]; [discriminate Hm|]. cbn [rmatch] in Hm.
    destruct (N.eqb_spec x lparen) as [->|]; [|discriminate Hm].
    destruct (span (is_not rparen) s1) as [|n] eqn:Es; [discriminate Hm|].
    apply backtrack_some in Hm as [k [Hk Hf]].
    destruct (skipn (1 + k) s1) as [|y rest] eqn:Ek; [discriminate Hf|].
    cbn [rmatch] in Hf.
    destruct (N.eqb_spec y rparen) as [->|]; [|discriminate Hf].
    destruct rest as [|z post]; [discriminate Hf|].
    destruct (N.eqb_spec z colon) as [->|]; [|discriminate Hf].
    injection Hf as <-. change (firstn (S k) s1 = lab) in Hg.
    change (1 + k) with (S k) in Ek.
    assert (Hkn : k = n).
    { destruct (Nat.eq_dec k n) as [|Hne]; [assumption|]. exfalso.
      destruct (span_inside (is_not rparen) s1 (S k)) as [c [r [E1 E2]]];
        [lia|].
      rewrite Ek in E1. injection E1 as <- <-. unfold is_not in E2.
      now rewrite N.eqb_refl in E2. }
    subst k. destruct (span_firstn (is_not rparen) s1 (S n)) as [H1 H2]; [lia|].
    rewrite Hg in H1, H2. exists post. split; [|split].
    + f_equal. rewrite <- (firstn_skipn (S n) s1), Hg, Ek. reflexivity.
    + intros ->. discriminate H2.
    + now apply is_not_in.
  - intros [post [-> [Hne Hin]]].
    apply is_not_in in Hin.
    exists (MkMatch (3 + List.length lab) 1 (1 + List.length lab)). split.
    + unfold match_here, re_label. cbn [rmatch]. rewrite N.eqb_refl.
      rewrite (span_app _ _ _ Hin).
      change (span (is_not rparen) (rparen :: colon :: post)) with 0.
      rewrite Nat.add_0_r. destruct lab as [|c lab]; [contradiction|].
      cbn [List.length]. apply backtrack_first.
      change (1 + List.length lab) with (List.length (c :: lab)).
      rewrite skipn_length_app. cbn [rmatch]. rewrite !N.eqb_refl.
      reflexivity.
    + unfold group1. cbn [g_end g_start skipn].
      replace (1 + List.length lab - 1) with (List.length lab) by lia.
      apply firstn_length_app.
Qed.

Lemma label_end_unique (a b x y : pystr) :
  ~ In rparen a -> ~ In rparen b ->
  a ++ rparen :: x = b ++ rparen :: y -> a = b.
Proof.
  revert b. induction a as [|c a IH]; intros [|d b] Ha Hb E.
  - reflexivity.
  - injection E as <- _. exfalso. apply Hb. now left.
  - injection E as -> _. exfalso. apply Ha. now left.
  - injection E as -> E. f_equal. apply IH; [| |exact E].
    + intros K. apply Ha. now right.
    + intros K. apply Hb. now right.
Qed.

Lemma labelled_here_unique (lab lab' s : pystr) :
  labelled_here lab s -> labelled_here lab' s -> lab = lab'.
Proof.
  intros [post [-> [_ H]]] [post' [E [_ H']]]. injection E as E.
  eapply label_end_unique; eassumption.
Qed.

(** [re.search] finds the label of the leftmost position that starts
    with one, and finds none when no position does. *)
Lemma label_search_spec (s : pystr) :
  (forall lab, re_search re_label s = Some lab ->
     exists pre rest,
       s = pre ++ rest /\ labelled_here lab rest /\
       forall pre1 pre2 lab', pre = pre1 ++ pre2 -> pre2 <> [] ->
         ~ labelled_here lab' (pre2 ++ rest)) /\
  (re_search re_label s = None ->
     forall pre rest lab, s = pre ++ rest -> ~ labelled_here lab rest).
Proof.
  induction s as [|c s [IH1 IH2]]; split.
  - discriminate.
  - intros _ pre rest lab E [post [-> _]].
    now destruct pre.
  - intros lab. cbn [re_search].
    destruct (match_here re_label (c :: s)) as [m|] eqn:Em.
    + intros [= <-]. exists [], (c :: s). split; [reflexivity|]. split.
      * apply label_match_spec. now exists m.
      * intros pre1 pre2 lab' E Hne. destruct pre1; destruct pre2; try discriminate E.
        contradiction.
    + intros H. destruct (IH1 lab H) as [pre [rest [-> [Hl Hmin]]]].
      exists (c :: pre), rest. split; [reflexivity|]. split; [exact Hl|].
      intros pre1 pre2 lab' E Hne. destruct pre1 as [|d pre1].
      * cbn [app] in E. subst pre2. cbn [app]. intros K.
        apply label_match_spec in K as [m [K _]]. congruence.
      * injection E as <- ->. exact (Hmin pre1 pre2 lab' eq_refl Hne).
  - cbn [re_search].
    destruct (match_here re_label (c :: s)) as [m|] eqn:Em; [discriminate|].
    intros H pre rest lab E K. destruct pre as [|d pre].
    + cbn [app] in E. subst rest.
      apply label_match_spec in K as [m [K _]]. congruence.
    + injection E as <- ->. exact (IH2 H pre rest lab eq_refl K).
Qed.

Section ExplicitLabel.

Variable lower : pystr -> pystr.

(** In evaluate_lotnlg.py the leftmost label in parentheses before a
    colon, lowered and stripped, is the predicted type; the keywords
    decide only for a text that holds no such label. *)
Lemma lotnlg_explicit_label (pred_text : pystr) :
  (forall pre lab rest,
     pred_text = pre ++ rest -> labelled_here lab rest ->
     (forall pre1 pre2 lab', pre = pre1 ++ pre2 -> pre2 <> [] ->
        ~ labelled_here lab' (pre2 ++ rest)) ->
     EvaluateLotnlg.predicted_type lower pred_text = strip (lower lab)) /\
  ((forall pre rest lab, pred_text = pre ++ rest -> ~ labelled_here lab rest) ->
   EvaluateLotnlg.predicted_type lower pred_text
   = Lexical.infer_type EvaluateLotnlg.type_keywords (lower pred_text)).
Proof.
  unfold EvaluateLotnlg.predicted_type.
  destruct (label_search_spec pred_text) as [H1 H2]. split.
  - intros pre lab rest E Hl Hmin.
    destruct (re_search re_label pred_text) as [lab0|] eqn:Es.
    + destruct (H1 lab0 eq_refl) as [pre0 [rest0 [E0 [Hl0 Hmin0]]]].
      (* both decompositions are leftmost, so they are the same *)
      assert (Hpre : pre0 = pre).
      { subst pred_text. clear Es H1 H2.
        revert pre0 E0 Hmin0 Hmin. induction pre as [|x pre IH]; intros pre0 E0 Hmin0 Hmin.
        - destruct pre0 as [|y pre0]; [reflexivity|]. exfalso.
          cbn [app] in E0. subst rest.
          exact (Hmin0 [] (y :: pre0) lab eq_refl ltac:(discriminate) Hl).
        - destruct pre0 as [|y pre0].
          + exfalso. cbn [app] in E0. subst rest0.
            exact (Hmin [] (x :: pre) lab0 eq_refl ltac:(discriminate) Hl0).
          + injection E0 as -> E0. f_equal. apply IH; [exact E0| |].
            * intros p1 p2 l E Hne. exact (Hmin0 (y :: p1) p2 l (f_equal (cons y) E) Hne).
            * intros p1 p2 l E Hne. exact (Hmin (y :: p1) p2 l (f_equal (cons y) E) Hne). }
      subst pre0. rewrite E in E0. apply app_inv_head in E0. subst rest0.
      now rewrite (labelled_here_unique _ _ _ Hl Hl0).
    + exfalso. exact (H2 eq_refl pre rest lab E Hl).
  - intros Hnone. destruct (re_search re_label pred_text) as [lab0|] eqn:Es;
      [|reflexivity].
    exfalso. destruct (H1 lab0 eq_refl) as [pre0 [rest0 [E0 [Hl0 _]]]].
    exact (Hnone pre0 rest0 lab0 E0 Hl0).
Qed.

End ExplicitLabel.

(** ** The counts of every evaluator *)

Lemma lexical_loop_bound (matched : pystr -> json -> result (option (Try unit)))
    (items : dict) :
  forall st st',
    for_items (fun st k v => bind (matched k v) (fun pair => Ok (settle st pair)))
      items st = Ok st' ->
    total st' + not_found st' <= total st + not_found st + List.length items.
Proof.
  induction items as [|[k v] items IH]; intros st st' Hrun.
  - simpl in Hrun. injection Hrun as <-. simpl. lia.
  - simpl in Hrun. destruct (matched k v) as [pair|e]; [|discriminate].
    simpl in Hrun. apply IH in Hrun. cbn [List.length].
    destruct pair as [block|]; cbn [settle] in Hrun.
    + unfold try_score in Hrun. destruct (block (results st)) as [m [u|e]];
        simpl in Hrun; lia.
    + simpl in Hrun. lia.
Qed.

Lemma judge_loop_bound (matched : pystr -> json -> result (option (result Z)))
    (items : dict) :
  forall st st',
    for_items (fun st k v => bind (matched k v) (fun pair => Ok (Judge.settle st pair)))
      items st = Ok st' ->
    Judge.total_count st' + Judge.not_found st'
    <= Judge.total_count st + Judge.not_found st + List.length items.
Proof.
  induction items as [|[k v] items IH]; intros st st' Hrun.
  - simpl in Hrun. injection Hrun as <-. simpl. lia.
  - simpl in Hrun. destruct (matched k v) as [pair|e]; [|discriminate].
    simpl in Hrun. apply IH in Hrun. cbn [List.length].
    destruct pair as [[score|e]|]; simpl in Hrun; lia.
Qed.

Section Bounds.

Variable repr : json -> pystr.
Variable lower : pystr -> pystr.
Variable nli_model : pystr -> result pystr.
Variable rouge_score : json -> pystr -> result Q.
Variable rouge_scores : json -> pystr -> result EvaluateFetaqa.rouge_scores.
Variable sentence_bleu : list (list pystr) -> list pystr -> result Q.
Variable chat_completion : pystr -> pystr -> result pystr.

Ltac run_to_loop Hrun :=
  repeat match type of Hrun with
         | bind ?r _ = Ok _ =>
             let x := fresh "x" in
             let E := fresh "E" in
             destruct r as [x|] eqn:E; [cbn [bind] in Hrun|discriminate Hrun]
         end.

(** Whatever the scorers do, a run that returns reports counts whose sum
    does not exceed the number of predictions; this holds for the six
    evaluators. *)
Lemma counts_bound (predictions gold_data : dict) (model : pystr) :
  (forall rep,
     EvaluateLotnlg.evaluate_lotnlg repr lower nli_model rouge_score
       sentence_bleu predictions gold_data = Ok rep ->
     r_total rep + r_not_found rep <= List.length predictions) /\
  (forall rep,
     EvaluateLogicnlg.evaluate_lotnlg repr lower nli_model rouge_score
       sentence_bleu predictions gold_data = Ok rep ->
     r_total rep + r_not_found rep <= List.length predictions) /\
  (forall rep,
     EvaluateFetaqa.evaluate_fetaqa repr rouge_scores sentence_bleu
       predictions gold_data = Ok rep ->
     r_total rep + r_not_found rep <= List.length predictions) /\
  (forall rep,
     CotEval.evaluate_all repr chat_completion predictions gold_data model
       = Ok rep ->
     Judge.r_evaluated rep + Judge.r_not_found rep <= List.length predictions) /\
  (forall rep,
     CotEvalFetaqa.evaluate_all_fetaqa repr chat_completion predictions
       gold_data model = Ok rep ->
     Judge.r_evaluated rep + Judge.r_not_found rep <= List.length predictions) /\
  (forall rep,
     CotEvalLotnlg.evaluate_all_lotnlg repr chat_completion predictions
       gold_data model = Ok rep ->
     Judge.r_evaluated rep + Judge.r_not_found rep <= List.length predictions).
Proof.
  repeat split; intros rep Hrun.
  - unfold EvaluateLotnlg.evaluate_lotnlg in Hrun. run_to_loop Hrun.
    injection Hrun as <-. apply lexical_loop_bound in E1. exact E1.
  - unfold EvaluateLogicnlg.evaluate_lotnlg in Hrun. run_to_loop Hrun.
    injection Hrun as <-. apply lexical_loop_bound in E1. exact E1.
  - unfold EvaluateFetaqa.evaluate_fetaqa in Hrun. run_to_loop Hrun.
    injection Hrun as <-. apply lexical_loop_bound in E0. exact E0.
  - unfold CotEval.evaluate_all in Hrun. run_to_loop Hrun.
    injection Hrun as <-. apply judge_loop_bound in E0. exact E0.
  - unfold CotEvalFetaqa.evaluate_all_fetaqa in Hrun. run_to_loop Hrun.
    injection Hrun as <-. apply judge_loop_bound in E0. exact E0.
  - unfold CotEvalLotnlg.evaluate_all_lotnlg in Hrun. run_to_loop Hrun.
    injection Hrun as <-. apply judge_loop_bound in E0. exact E0.
Qed.

End Bounds.

(** ** The scenarios of the specification *)

(** Scenario A: one matched pair, none missing. *)
Example scenario_a :
  exists rep,
    EvaluateLotnlg.evaluate_lotnlg Sample.repr Sample.lower Sample.nli_entails
      Sample.rouge_half Sample.bleu_quarter Sample.predictions_a Sample.gold_a
    = Ok rep /\ r_total rep = 1 /\ r_not_found rep = 0.
Proof. eexists. split; [vm_compute; reflexivity|]. split; reflexivity. Qed.

(** Scenario B: the prediction has no gold record; every metric is 0. *)
Example scenario_b :
  exists rep,
    EvaluateLotnlg.evaluate_lotnlg Sample.repr Sample.lower Sample.nli_entails
      Sample.rouge_half Sample.bleu_quarter [(lit "t2", Sample.text "X")]
      Sample.gold_a
    = Ok rep /\ r_total rep = 0 /\ r_not_found rep = 1 /\
    Forall (fun kv => snd kv = 0%Q) (r_metrics rep).
Proof.
  eexists. split; [vm_compute; reflexivity|]. split; [reflexivity|].
  split; [reflexivity|]. repeat constructor.
Qed.

(** Scenario C: the two judge answers. *)
Example scenario_c :
  parse_faithful (lit "...Answer: FAITHFUL") = 1%Z /\
  parse_faithful
    (lit "...partially FAITHFUL but also NOT FAITHFUL in one detail") = 0%Z.
Proof. split; vm_compute; reflexivity. Qed.

(** Scenario D: the explicit label [count] against the gold label
    [Count]. *)
Example scenario_d :
  prediction_text Sample.repr (JList [Sample.text "Claim 1 (count): There are 5 rows.";
                                     Sample.text "Claim 2: irrelevant."])
    = Ok (lit "Claim 1 (count): There are 5 rows. Claim 2: irrelevant.") /\
  EvaluateLotnlg.predicted_type Sample.lower
    (lit "Claim 1 (count): There are 5 rows. Claim 2: irrelevant.") = lit "count" /\
  EvaluateLotnlg.type_match Sample.lower (lit "count") (Sample.text "Count")
    = Ok true.
Proof. repeat split; vm_compute; reflexivity. Qed.

(** ** The patterns match no empty text *)

Lemma rmatch_end (r : regex) :
  forall s pos gs ge m, rmatch r s pos gs ge = Some m -> pos <= m_end m.
Proof.
  induction r as [|a r IH]; intros s pos gs ge m H.
  - injection H as <-. apply Nat.le_refl.
  - destruct a as [c|cls|cls| |]; cbn [rmatch] in H.
    + destruct s as [|x s]; [discriminate|].
      destruct (N.eqb x c); [|discriminate]. apply IH in H. lia.
    + destruct (span cls s); [discriminate|].
      apply backtrack_some in H as [k [_ H]]. apply IH in H. lia.
    + apply backtrack_some in H as [k [_ H]]. apply IH in H. lia.
    + now apply IH in H.
    + now apply IH in H.
Qed.

(** Every pattern of the source starts with a literal, so its matches
    hold at least one character: the branch of [re_sub_from] and
    [re_findall_from] for an empty match is never taken. *)
Lemma patterns_match_nonempty (r : regex) (s : pystr) (m : rmatch_result) :
  In r [re_header; re_claim; re_reasoning; re_bold; re_label] ->
  match_here r s = Some m -> 0 < m_end m.
Proof.
  intros Hr H.
  assert (Hc : exists c r', r = Chr c :: r').
  { destruct Hr as [<-|[<-|[<-|[<-|[<-|[]]]]]]; eexists; eexists; reflexivity. }
  destruct Hc as [c [r' ->]]. unfold match_here in H. cbn [rmatch] in H.
  destruct s as [|x s]; [discriminate|].
  destruct (N.eqb x c); [|discriminate]. apply rmatch_end in H. lia.
Qed.

(** ** Every match shortens the text *)

Lemma span_length (cls : char -> bool) (s : pystr) : span cls s <= List.length s.
Proof.
  induction s as [|c s IH]; [apply Nat.le_refl|]. cbn [span List.length].
  destruct (cls c); lia.
Qed.

(** Where a match ends and where its group lies. *)
Lemma rmatch_bounds (r : regex) :
  forall s pos gs ge m,
    rmatch r s pos gs ge = Some m ->
    m_end m <= pos + List.length s /\
    (g_start m = gs \/ pos <= g_start m) /\
    (g_end m = ge \/ g_end m <= m_end m).
Proof.
  induction r as [|a r IH]; intros s pos gs ge m H.
  - injection H as <-. cbn. repeat split; auto. lia.
  - destruct a as [c|cls|cls| |]; cbn [rmatch] in H.
    + destruct s as [|x s]; [discriminate|].
      destruct (N.eqb x c); [|discriminate].
      destruct (IH _ _ _ _ _ H) as [H1 [H2 H3]]. cbn [List.length].
      repeat split; [lia| |exact H3]. destruct H2; [now left|right; lia].
    + destruct (span cls s) as [|n] eqn:Es; [discriminate|].
      apply backtrack_some in H as [k [Hk H]].
      destruct (IH _ _ _ _ _ H) as [H1 [H2 H3]].
      pose proof (span_length cls s) as Hs. rewrite length_skipn in H1.
      repeat split; [lia| |exact H3]. destruct H2; [now left|right; lia].
    + apply backtrack_some in H as [k [Hk H]].
      destruct (IH _ _ _ _ _ H) as [H1 [H2 H3]].
      pose proof (span_length cls s) as Hs. rewrite length_skipn in H1.
      repeat split; [lia| |exact H3]. destruct H2; [now left|right; lia].
    + destruct (IH _ _ _ _ _ H) as [H1 [H2 H3]].
      repeat split; [exact H1| |exact H3]. right. destruct H2; lia.
    + destruct (IH _ _ _ _ _ H) as [H1 [H2 H3]].
      pose proof (rmatch_end _ _ _ _ _ _ H) as He.
      repeat split; [exact H1|exact H2|]. right. destruct H3; lia.
Qed.

Lemma rmatch_group_start (r : regex) :
  In GroupOpen r ->
  forall s pos gs ge m, rmatch r s pos gs ge = Some m -> pos <= g_start m.
Proof.
  induction r as [|a r IH]; intros Hin s pos gs ge m H; [contradiction|].
  destruct a as [c|cls|cls| |]; cbn [rmatch] in H.
  - destruct Hin as [Hin|Hin]; [discriminate|].
    destruct s as [|x s]; [discriminate|].
    destruct (N.eqb x c); [|discriminate]. apply (IH Hin) in H. lia.
  - destruct Hin as [Hin|Hin]; [discriminate|].
    destruct (span cls s); [discriminate|].
    apply backtrack_some in H as [k [_ H]]. apply (IH Hin) in H. lia.
  - destruct Hin as [Hin|Hin]; [discriminate|].
    apply backtrack_some in H as [k [_ H]]. apply (IH Hin) in H. lia.
  - destruct (rmatch_bounds _ _ _ _ _ _ H) as [_ [[E|E] _]]; lia.
  - destruct Hin as [Hin|Hin]; [discriminate|]. now apply (IH Hin) in H.
Qed.

Lemma match_here_length (c : char) (r : regex) (s : pystr) (m : rmatch_result) :
  match_here (Chr c :: r) s = Some m ->
  0 < m_end m /\ m_end m <= List.length s.
Proof.
  intros H. unfold match_here in H. split.
  - cbn [rmatch] in H. destruct s as [|x s]; [discriminate|].
    destruct (N.eqb x c); [|discriminate]. apply rmatch_end in H. lia.
  - now destruct (rmatch_bounds _ _ _ _ _ _ H) as [H1 _].
Qed.

(** The group of a match is shorter than the match. *)
Lemma group1_length (c : char) (r : regex) (s : pystr) (m : rmatch_result) :
  In GroupOpen r ->
  match_here (Chr c :: r) s = Some m ->
  List.length (group1 m s) < m_end m.
Proof.
  intros Hin H. destruct (match_here_length _ _ _ _ H) as [H0 _].
  unfold match_here in H. cbn [rmatch] in H.
  destruct s as [|x s]; [discriminate|].
  destruct (N.eqb x c); [|discriminate].
  pose proof (rmatch_group_start _ Hin _ _ _ _ _ H) as Hs.
  destruct (rmatch_bounds _ _ _ _ _ _ H) as [_ [_ He]].
  unfold group1. rewrite length_firstn. destruct He; lia.
Qed.

Section SubLength.

Variable r : regex.
Variable repl : pystr -> pystr.
Hypothesis shrink :
  forall s m, match_here r s = Some m ->
    List.length (repl (group1 m s)) < m_end m /\ m_end m <= List.length s.

Lemma re_sub_from_length (s : pystr) :
  forall skip, skip <= List.length s ->
    List.length (re_sub_from r repl s skip) + skip <= List.length s.
Proof.
  induction s as [|c s IH]; intros skip Hs.
  - cbn in *. lia.
  - cbn [re_sub_from List.length] in *. destruct skip as [|k].
    + destruct (match_here r (c :: s)) as [m|] eqn:Em.
      * destruct (shrink _ _ Em) as [H1 H2]. cbn [List.length] in H2.
        destruct (m_end m) as [|n]; [lia|].
        rewrite length_app. specialize (IH n). lia.
      * cbn [List.length]. specialize (IH 0). lia.
    + specialize (IH k). lia.
Qed.

Lemma re_sub_length (s : pystr) :
  List.length (re_sub r repl s) <= List.length s.
Proof.
  unfold re_sub. pose proof (re_sub_from_length s 0). lia.
Qed.

Lemma re_sub_shrinks (s : pystr) :
  re_search r s <> None -> List.length (re_sub r repl s) < List.length s.
Proof.
  unfold re_sub. induction s as [|c s IH]; intros H; [now elim H|].
  cbn [re_search] in H. cbn [re_sub_from List.length].
  destruct (match_here r (c :: s)) as [m|] eqn:Em.
  - destruct (shrink _ _ Em) as [H1 H2]. cbn [List.length] in H2.
    destruct (m_end m) as [|n]; [lia|]. rewrite length_app.
    pose proof (re_sub_from_length s n). lia.
  - cbn [List.length]. specialize (IH H). lia.
Qed.

End SubLength.

Lemma join_length (ws : list pystr) :
  ws <> [] -> List.length (join space ws) + 1 = joined_length ws.
Proof.
  induction ws as [|w ws IH]; intros H; [now elim H|].
  destruct ws as [|w' ws].
  - cbn. lia.
  - change (join space (w :: w' :: ws)) with (w ++ space ++ join space (w' :: ws)).
    rewrite !length_app. cbn [joined_length] in *.
    change (List.length space) with 1.
    specialize (IH ltac:(discriminate)). lia.
Qed.

Lemma join_length_le (ws : list pystr) :
  List.length (join space ws) <= joined_length ws.
Proof.
  destruct ws as [|w ws]; [apply Nat.le_refl|].
  pose proof (join_length (w :: ws) ltac:(discriminate)). lia.
Qed.

Section FindallLength.

Variable r : regex.
Hypothesis shrink :
  forall s m, match_here r s = Some m ->
    List.length (group1 m s) < m_end m /\ m_end m <= List.length s.

Lemma re_findall_from_length (s : pystr) :
  forall skip, skip <= List.length s ->
    joined_length (re_findall_from r s skip) + skip <= List.length s.
Proof.
  induction s as [|c s IH]; intros skip Hs.
  - cbn in *. lia.
  - cbn [re_findall_from List.length] in *. destruct skip as [|k].
    + destruct (match_here r (c :: s)) as [m|] eqn:Em.
      * destruct (shrink _ _ Em) as [H1 H2]. cbn [List.length] in H2.
        destruct (m_end m) as [|n]; [lia|].
        cbn [joined_length]. specialize (IH n). lia.
      * specialize (IH 0). lia.
    + specialize (IH k). lia.
Qed.

Lemma re_findall_found (s : pystr) :
  re_search r s <> None -> re_findall r s <> [].
Proof.
  unfold re_findall. induction s as [|c s IH]; intros H; [now elim H|].
  cbn [re_search] in H. cbn [re_findall_from].
  destruct (match_here r (c :: s)) as [m|] eqn:Em.
  - destruct (shrink _ _ Em) as [H1 _].
    destruct (m_end m); [lia|discriminate].
  - now apply IH.
Qed.

Lemma re_findall_join_shrinks (s : pystr) :
  re_findall r s <> [] ->
  List.length (join space (re_findall r s)) < List.length s.
Proof.
  intros H. pose proof (join_length _ H) as E.
  pose proof (re_findall_from_length s 0 ltac:(lia)) as L.
  fold (re_findall r s) in L. lia.
Qed.

End FindallLength.

Lemma split_from_length (s cur : pystr) :
  joined_length (split_from cur s) <= List.length cur + List.length s + 1.
Proof.
  revert cur. induction s as [|c s IH]; intros cur; cbn [split_from List.length].
  - destruct cur; cbn [joined_length]; [lia|]. rewrite length_rev. lia.
  - destruct (is_space c).
    + destruct cur as [|x cur].
      * specialize (IH []). cbn [List.length] in IH. lia.
      * cbn [joined_length]. rewrite length_rev. specialize (IH []).
        cbn [List.length] in *. lia.
    + specialize (IH (c :: cur)). cbn [List.length] in IH. lia.
Qed.

Lemma collapse_length (s : pystr) :
  List.length (join space (split s)) <= List.length s.
Proof.
  unfold split. pose proof (split_from_length s []) as H.
  destruct (split_from [] s) as [|w ws] eqn:E; [cbn; lia|].
  pose proof (join_length (w :: ws) ltac:(discriminate)).
  cbn [List.length] in H. lia.
Qed.

Lemma header_shrink (s : pystr) (m : rmatch_result) :
  match_here re_header s = Some m ->
  List.length (@nil char) < m_end m /\ m_end m <= List.length s.
Proof. intros H. exact (match_here_length hash (tl re_header) _ _ H). Qed.

Lemma reasoning_shrink (s : pystr) (m : rmatch_result) :
  match_here re_reasoning s = Some m ->
  List.length (@nil char) < m_end m /\ m_end m <= List.length s.
Proof. intros H. exact (match_here_length 82%N (tl re_reasoning) _ _ H). Qed.

Lemma bold_shrink (s : pystr) (m : rmatch_result) :
  match_here re_bold s = Some m ->
  List.length (group1 m s) < m_end m /\ m_end m <= List.length s.
Proof.
  intros H. split.
  - apply (group1_length star (tl re_bold) s m); [|exact H]. simpl. tauto.
  - exact (proj2 (match_here_length star (tl re_bold) _ _ H)).
Qed.

Lemma claim_shrink (s : pystr) (m : rmatch_result) :
  match_here re_claim s = Some m ->
  List.length (group1 m s) < m_end m /\ m_end m <= List.length s.
Proof.
  intros H. split.
  - apply (group1_length 67%N (tl re_claim) s m); [|exact H]. simpl. tauto.
  - exact (proj2 (match_here_length 67%N (tl re_claim) _ _ H)).
Qed.

(** A text that some pattern matches comes out shorter. *)
Lemma clean_shrinks (y : pystr) :
  unmatched y = false ->
  List.length (clean_prediction_text y) < List.length y.
Proof.
  intros Hu. unfold clean_prediction_text.
  set (p1 := re_sub re_header (fun _ => []) y).
  set (p2 := match re_findall re_claim p1 with
             | [] => p1
             | _ :: _ => join space (re_findall re_claim p1)
             end).
  set (p3 := re_sub re_reasoning (fun _ => []) p2).
  set (p4 := re_sub re_bold (fun g => g) p3).
  pose proof (collapse_length p4) as L5.
  assert (L4 : List.length p4 <= List.length p3)
    by exact (re_sub_length re_bold (fun g => g) bold_shrink p3).
  assert (L3 : List.length p3 <= List.length p2)
    by exact (re_sub_length re_reasoning (fun _ => []) reasoning_shrink p2).
  assert (L1 : List.length p1 <= List.length y)
    by exact (re_sub_length re_header (fun _ => []) header_shrink y).
  assert (L2 : List.length p2 <= List.length p1).
  { unfold p2. destruct (re_findall re_claim p1) as [|w ws] eqn:E; [lia|].
    pose proof (re_findall_join_shrinks re_claim claim_shrink p1) as K.
    rewrite E in K. specialize (K ltac:(discriminate)). lia. }
  destruct (re_search re_header y) eqn:E1.
  { assert (K : List.length p1 < List.length y).
    { apply (re_sub_shrinks re_header (fun _ => []) header_shrink y).
      rewrite E1. discriminate. }
    lia. }
  assert (Ep1 : p1 = y) by (apply re_sub_unmatched; exact E1).
  destruct (re_search re_claim y) eqn:E2.
  { assert (K : List.length p2 < List.length p1).
    { unfold p2. rewrite Ep1.
      pose proof (re_findall_found re_claim claim_shrink y) as F.
      rewrite E2 in F. specialize (F ltac:(discriminate)).
      pose proof (re_findall_join_shrinks re_claim claim_shrink y F) as K.
      destruct (re_findall re_claim y); [now elim F|exact K]. }
    lia. }
  assert (Ep2 : p2 = y).
  { unfold p2. rewrite Ep1, (re_findall_unmatched _ _ E2). reflexivity. }
  destruct (re_search re_reasoning y) eqn:E3.
  { assert (K : List.length p3 < List.length y).
    { unfold p3. rewrite Ep2.
      apply (re_sub_shrinks re_reasoning (fun _ => []) reasoning_shrink y).
      rewrite E3. discriminate. }
    lia. }
  assert (Ep3 : p3 = y).
  { unfold p3. rewrite Ep2. apply re_sub_unmatched; exact E3. }
  destruct (re_search re_bold y) eqn:E4.
  { assert (K : List.length p4 < List.length y).
    { unfold p4. rewrite Ep3.
      apply (re_sub_shrinks re_bold (fun g => g) bold_shrink y).
      rewrite E4. discriminate. }
    lia. }
  unfold unmatched in Hu. rewrite E1, E2, E3, E4 in Hu. discriminate Hu.
Qed.

(** C5, as amended.  Cleaning a cleaned text again changes nothing
    exactly when the cleaned text holds no further match of the header,
    claim, reasoning or bold pattern. *)
Theorem clean_idempotent_iff_unmatched (x : pystr) :
  clean_prediction_text (clean_prediction_text x) = clean_prediction_text x <->
  unmatched (clean_prediction_text x) = true.
Proof.
  split; [|apply clean_fixed_when_unmatched].
  intros E. destruct (unmatched (clean_prediction_text x)) eqn:Hu; [reflexivity|].
  apply clean_shrinks in Hu. rewrite E in Hu. lia.
Qed.

Lemma clean_idempotent_witness :
  unmatched (clean_prediction_text (lit "## **Total** sales   were 500.")) = true /\
  clean_prediction_text (clean_prediction_text (lit "## **Total** sales   were 500."))
  = clean_prediction_text (lit "## **Total** sales   were 500.").
Proof.
  split; [vm_compute; reflexivity|].
  apply (proj2 (clean_idempotent_iff_unmatched
                  (lit "## **Total** sales   were 500."))).
  vm_compute. reflexivity.
Defined.

Lemma patterns_match_nonempty_witness :
  match_here re_header (lit "## x") = Some (MkMatch 3 0 0) /\ 0 < 3.
Proof.
  split; [reflexivity|].
  exact (patterns_match_nonempty re_header (lit "## x") (MkMatch 3 0 0)
           (or_introl eq_refl) eq_refl).
Defined.

Lemma clean_well_formed_idempotent_witness :
  clean_prediction_text
    (clean_prediction_text (lit "## **Total** sales   were 500."))
  = clean_prediction_text (lit "## **Total** sales   were 500.").
Proof.
  exact (clean_well_formed_idempotent
           [Header (lit " "); Bold (lit "Total"); Text (lit " sales   were 500.")]
           eq_refl).
Defined.

(** ** The index of the gold records *)

Lemma str_eqb_eq (a b : pystr) : str_eqb a b = true <-> a = b.
Proof.
  revert b; induction a as [|x a IH]; intros [|y b]; simpl;
    try (split; [discriminate|discriminate]); [tauto|].
  rewrite andb_true_iff, N.eqb_eq, IH. split.
  - intros [-> ->]. reflexivity.
  - intros [= -> ->]. tauto.
Qed.

Lemma str_eqb_refl (a : pystr) : str_eqb a a = true.
Proof. now apply str_eqb_eq. Qed.

Lemma str_eqb_neq (a b : pystr) : str_eqb a b = false <-> a <> b.
Proof.
  rewrite <- str_eqb_eq. destruct (str_eqb a b); split; congruence.
Qed.

Section IndexLoop.

(** The key an entry of the index is filed under, for the two index
    loops. *)
Variable entry : dict -> result (option json).
Variable body : gold_index -> pystr -> json -> result gold_index.
Hypothesis body_eq :
  forall index idx v,
    body index idx v
    = (g <- as_dict v ;;
       o <- entry g ;;
       Ok (match o with Some id => (id, g) :: index | None => index end))%result.

Lemma index_loop_lookup (key : pystr) (gold_data : dict) :
  forall acc index,
    for_items body gold_data acc = Ok index ->
    match index_find index key with
    | Some g =>
        (exists pre idx post,
            gold_data = pre ++ (idx, JDict g) :: post /\ filed_under entry g key /\
            forall idx' g', In (idx', JDict g') post -> ~ filed_under entry g' key) \/
        (index_find acc key = Some g /\
         forall idx' g', In (idx', JDict g') gold_data -> ~ filed_under entry g' key)
    | None =>
        index_find acc key = None /\
        forall idx' g', In (idx', JDict g') gold_data -> ~ filed_under entry g' key
    end.
Proof.
  induction gold_data as [|[i v] gold IH]; intros acc index Hrun.
  - simpl in Hrun. injection Hrun as <-.
    destruct (index_find acc key); [right|]; split; auto; intros ? ? [].
  - cbn [for_items] in Hrun. rewrite body_eq in Hrun.
    destruct v as [| | | | |l|g0]; try discriminate Hrun. cbn [as_dict bind] in Hrun.
    destruct (entry g0) as [o|e] eqn:Eo; [|discriminate Hrun].
    cbn [bind] in Hrun. specialize (IH _ _ Hrun).
    assert (Hhead : forall g, index_find
              (match o with Some id => (id, g0) :: acc | None => acc end) key
              = Some g ->
              (g = g0 /\ filed_under entry g0 key) \/
              (index_find acc key = Some g /\ ~ filed_under entry g0 key)).
    { intros g. unfold filed_under. rewrite Eo. destruct o as [id|].
      - cbn [index_find].
        destruct id as [| | | |k| |]; try (intros H; right; split; [exact H|congruence]).
        destruct (str_eqb k key) eqn:Ek.
        + apply str_eqb_eq in Ek. subst k. intros [= <-]. left. split; reflexivity.
        + apply str_eqb_neq in Ek. intros H. right. split; [exact H|congruence].
      - intros H. right. split; [exact H|congruence]. }
    assert (Hnone : index_find
              (match o with Some id => (id, g0) :: acc | None => acc end) key
              = None -> index_find acc key = None /\ ~ filed_under entry g0 key).
    { unfold filed_under. rewrite Eo. destruct o as [id|].
      - cbn [index_find].
        destruct id as [| | | |k| |]; try (intros H; split; [exact H|congruence]).
        destruct (str_eqb k key) eqn:Ek; [discriminate|].
        apply str_eqb_neq in Ek. intros H. split; [exact H|congruence].
      - intros H. split; [exact H|congruence]. }
    assert (Hcons : forall (P : dict -> Prop),
              P g0 -> (forall idx' g', In (idx', JDict g') gold -> P g') ->
              forall idx' g', In (idx', JDict g') ((i, JDict g0) :: gold) -> P g').
    { intros P H0 Hr idx' g' [[= _ <-]|HI]; [exact H0|exact (Hr _ _ HI)]. }
    destruct (index_find index key) as [g|].
    + destruct IH as [(pre & idx & post & -> & Hf & Hl)|[Ha Hn]].
      * left. exists ((i, JDict g0) :: pre), idx, post. now split.
      * destruct (Hhead g Ha) as [[-> Hf]|[Ha' Hf]].
        -- left. exists [], i, gold. now split.
        -- right. split; [exact Ha'|]. now apply Hcons.
    + destruct IH as [Ha Hn]. destruct (Hnone Ha) as [Ha' Hf].
      split; [exact Ha'|]. now apply Hcons.
Qed.

End IndexLoop.

Section KeyedIndex.

Variable entry : dict -> result (option json).
Variable body : gold_index -> pystr -> json -> result gold_index.
Variable key_of : dict -> option pystr.
Hypothesis body_eq :
  forall index idx v,
    body index idx v
    = (g <- as_dict v ;;
       o <- entry g ;;
       Ok (match o with Some id => (id, g) :: index | None => index end))%result.
Hypothesis entry_key :
  forall g key, entry g = Ok (Some (JStr key)) <-> key_of g = Some key.

Lemma keyed_index_lookup (gold_data : dict) (index : gold_index) (key : pystr) :
  for_items body gold_data [] = Ok index ->
  match index_find index key with
  | Some g => last_with key_of gold_data key g
  | None => forall idx g, In (idx, JDict g) gold_data -> key_of g <> Some key
  end.
Proof.
  intros Hrun.
  pose proof (index_loop_lookup entry body body_eq key gold_data [] index Hrun) as H.
  destruct (index_find index key) as [g|].
  - destruct H as [(pre & idx & post & E & Hf & Hl)|[Ha _]]; [|discriminate Ha].
    exists pre, idx, post. split; [exact E|]. split; [now apply entry_key|].
    intros idx' g' HI K. apply (Hl idx' g' HI). now apply entry_key.
  - destruct H as [_ Hn]. intros idx g HI K. apply (Hn idx g HI).
    now apply entry_key.
Qed.

Lemma carried_false (gold_data : dict) (key : pystr) :
  carried key_of gold_data key = false <->
  forall idx g, In (idx, JDict g) gold_data -> key_of g <> Some key.
Proof.
  unfold carried. induction gold_data as [|[i v] gold IH]; cbn [existsb snd].
  - split; [intros _ ? ? []|reflexivity].
  - rewrite orb_false_iff, IH. split.
    + intros [H0 Hr] idx g [[= _ ->]|HI]; [|exact (Hr _ _ HI)].
      destruct (key_of g) as [k|]; [|discriminate].
      apply str_eqb_neq in H0. congruence.
    + intros H. split; [|intros idx g HI; exact (H idx g (or_intror HI))].
      destruct v as [| | | | | |g]; try reflexivity.
      specialize (H i g (or_introl eq_refl)).
      destruct (key_of g) as [k|]; [|reflexivity].
      apply str_eqb_neq. congruence.
Qed.

Lemma keyed_index_miss (gold_data : dict) (index : gold_index) (key : pystr) :
  for_items body gold_data [] = Ok index ->
  (index_find index key = None <-> carried key_of gold_data key = false).
Proof.
  intros Hrun. pose proof (keyed_index_lookup gold_data index key Hrun) as H.
  rewrite carried_false. destruct (index_find index key) as [g|].
  - split; [discriminate|]. intros Hn.
    destruct H as (pre & idx & post & -> & Hk & _).
    exfalso. apply (Hn idx g); [|exact Hk]. apply in_or_app. right. now left.
  - tauto.
Qed.

End KeyedIndex.

Lemma index_raw_body (field : pystr) (index : gold_index) (idx : pystr) (v : json) :
  index_raw field index idx v
  = (g <- as_dict v ;;
     o <- (let id := dict_get g field JNull in
           if truthy id
           then if hashable id then Ok (Some id) else Raise TypeError
           else Ok None) ;;
     Ok (match o with Some id => (id, g) :: index | None => index end))%result.
Proof.
  unfold index_raw. destruct (as_dict v) as [g|]; [|reflexivity]. cbn [bind].
  destruct (truthy _); [|reflexivity]. destruct (hashable _); reflexivity.
Qed.

Lemma index_raw_key (field : pystr) (g : dict) (key : pystr) :
  (let id := dict_get g field JNull in
   if truthy id
   then if hashable id then Ok (Some id) else Raise TypeError
   else Ok None) = Ok (Some (JStr key))
  <-> raw_key field g = Some key.
Proof.
  unfold raw_key. cbv zeta.
  destruct (dict_get g field JNull) as [|b|z|q|s|l|d]; cbn [truthy hashable].
  - split; discriminate.
  - destruct b; split; discriminate.
  - destruct (negb _); split; discriminate.
  - destruct (negb _); split; discriminate.
  - destruct s; [split; discriminate|]. split; intros [= ->]; reflexivity.
  - destruct l; split; discriminate.
  - destruct d; split; discriminate.
Qed.

Lemma index_str_body (repr : json -> pystr) (field : pystr) (index : gold_index)
    (idx : pystr) (v : json) :
  index_str repr field index idx v
  = (g <- as_dict v ;;
     o <- (let id := dict_get g field JNull in
           if truthy id then Ok (Some (JStr (py_str repr id))) else Ok None) ;;
     Ok (match o with Some id => (id, g) :: index | None => index end))%result.
Proof.
  unfold index_str. destruct (as_dict v) as [g|]; [|reflexivity]. cbn [bind].
  destruct (truthy _); reflexivity.
Qed.

Lemma index_str_key (repr : json -> pystr) (field : pystr) (g : dict)
    (key : pystr) :
  (let id := dict_get g field JNull in
   if truthy id then Ok (Some (JStr (py_str repr id))) else Ok None)
  = Ok (Some (JStr key))
  <-> str_key repr field g = Some key.
Proof.
  unfold str_key. cbv zeta. destruct (truthy _); split; congruence.
Qed.

(** X6. The index of the four scripts keyed by [csv_id]: a prediction key
    finds the last record of the gold file whose [csv_id] is that text,
    and finds nothing exactly when no record has it.  A record whose
    [csv_id] is absent, empty or not text is never found. *)
Theorem csv_index_lookup (field : pystr) (gold_data : dict) (index : gold_index)
    (key : pystr) :
  for_items (index_raw field) gold_data [] = Ok index ->
  match index_find index key with
  | Some g => last_with (raw_key field) gold_data key g
  | None =>
      forall idx g, In (idx, JDict g) gold_data -> raw_key field g <> Some key
  end.
Proof.
  exact (keyed_index_lookup _ (index_raw field) (raw_key field)
           (index_raw_body field) (index_raw_key field) gold_data index key).
Qed.

(** X7. The index of the two FeTaQA scripts: a prediction key finds the
    last record of the gold file whose [feta_id] is true in a test and
    has that key as its [str]; an integer identifier is found under its
    decimal text, the identifier 0 never. *)
Theorem feta_index_lookup (repr : json -> pystr) (field : pystr)
    (gold_data : dict) (index : gold_index) (key : pystr) :
  for_items (index_str repr field) gold_data [] = Ok index ->
  match index_find index key with
  | Some g => last_with (str_key repr field) gold_data key g
  | None =>
      forall idx g, In (idx, JDict g) gold_data -> str_key repr field g <> Some key
  end.
Proof.
  exact (keyed_index_lookup _ (index_str repr field) (str_key repr field)
           (index_str_body repr field) (index_str_key repr field)
           gold_data index key).
Qed.

Lemma csv_index_lookup_witness :
  exists g, last_with (raw_key (lit "csv_id")) Sample.gold_a (lit "t1") g.
Proof.
  eexists.
  exact (csv_index_lookup (lit "csv_id") Sample.gold_a _ (lit "t1") eq_refl).
Defined.

Lemma feta_index_lookup_witness :
  exists g,
    last_with (str_key Sample.repr (lit "feta_id")) Sample.gold_q (lit "7") g.
Proof.
  eexists.
  exact (feta_index_lookup Sample.repr (lit "feta_id") Sample.gold_q _ (lit "7")
           eq_refl).
Defined.

(** ** The predictions without a gold record *)


Lemma lexical_loop_not_found
    (matched : pystr -> json -> result (option (Lexical.Try unit)))
    (index : gold_index) :
  (forall k v, index_find index k = None -> matched k v = Ok None) ->
  (forall k v g, index_find index k = Some g -> matched k v <> Ok None) ->
  forall items st st',
    for_items (fun st k v => bind (matched k v)
                               (fun pair => Ok (Lexical.settle st pair)))
      items st = Ok st' ->
    Lexical.not_found st'
    = Lexical.not_found st + List.length (filter (is_miss index) items).
Proof.
  intros Hmiss Hhit. induction items as [|[k v] items IH]; intros st st' Hrun.
  - simpl in Hrun. injection Hrun as <-. simpl. lia.
  - cbn [for_items] in Hrun. cbn [filter]. unfold is_miss at 1. cbn [fst].
    destruct (index_find index k) as [g|] eqn:E.
    + destruct (matched k v) as [[block|]|e] eqn:Em; [| |discriminate Hrun].
      * cbn [bind] in Hrun. rewrite (IH _ _ Hrun). cbn [Lexical.settle].
        unfold Lexical.try_score.
        destruct (block (Lexical.results st)) as [m [u|e]]; reflexivity.
      * now elim (Hhit k v g E).
    + rewrite (Hmiss k v E) in Hrun. cbn [bind] in Hrun.
      rewrite (IH _ _ Hrun). cbn [Lexical.settle Lexical.miss Lexical.not_found List.length].
      lia.
Qed.

Lemma judge_loop_not_found
    (matched : pystr -> json -> result (option (result Z)))
    (index : gold_index) :
  (forall k v, index_find index k = None -> matched k v = Ok None) ->
  (forall k v g, index_find index k = Some g -> matched k v <> Ok None) ->
  forall items st st',
    for_items (fun st k v => bind (matched k v)
                               (fun pair => Ok (Judge.settle st pair)))
      items st = Ok st' ->
    Judge.not_found st'
    = Judge.not_found st + List.length (filter (is_miss index) items).
Proof.
  intros Hmiss Hhit. induction items as [|[k v] items IH]; intros st st' Hrun.
  - simpl in Hrun. injection Hrun as <-. simpl. lia.
  - cbn [for_items] in Hrun. cbn [filter]. unfold is_miss at 1. cbn [fst].
    destruct (index_find index k) as [g|] eqn:E.
    + destruct (matched k v) as [[scored|]|e] eqn:Em; [| |discriminate Hrun].
      * cbn [bind] in Hrun. rewrite (IH _ _ Hrun). cbn [Judge.settle].
        destruct scored; reflexivity.
      * now elim (Hhit k v g E).
    + rewrite (Hmiss k v E) in Hrun. cbn [bind] in Hrun.
      rewrite (IH _ _ Hrun). cbn [Judge.settle Judge.miss Judge.not_found List.length].
      lia.
Qed.

Lemma filter_is_miss (key_of : dict -> option pystr) (gold_data : dict)
    (index : gold_index) (items : dict) :
  (forall key, index_find index key = None <-> carried key_of gold_data key = false) ->
  filter (is_miss index) items = orphans key_of items gold_data.
Proof.
  intros H. unfold orphans. apply filter_ext. intros [k v]. unfold is_miss.
  cbn [fst]. specialize (H k).
  destruct (index_find index k), (carried key_of gold_data k); cbn [negb];
    try reflexivity.
  - destruct H as [_ H]. discriminate (H eq_refl).
  - destruct H as [H _]. discriminate (H eq_refl).
Qed.

Lemma raw_index_miss (field : pystr) (gold_data : dict) (index : gold_index) :
  for_items (index_raw field) gold_data [] = Ok index ->
  forall key,
    index_find index key = None <-> carried (raw_key field) gold_data key = false.
Proof.
  intros H key.
  exact (keyed_index_miss _ (index_raw field) (raw_key field)
           (index_raw_body field) (index_raw_key field) gold_data index key H).
Qed.

Lemma str_index_miss (repr : json -> pystr) (field : pystr) (gold_data : dict)
    (index : gold_index) :
  for_items (index_str repr field) gold_data [] = Ok index ->
  forall key,
    index_find index key = None
    <-> carried (str_key repr field) gold_data key = false.
Proof.
  intros H key.
  exact (keyed_index_miss _ (index_str repr field) (str_key repr field)
           (index_str_body repr field) (index_str_key repr field)
           gold_data index key H).
Qed.

(** A hit of the index never ends as a miss: the body either returns the
    [try] block of the pair or raises. *)
Ltac hit_or_raise E :=
  repeat match type of E with
         | bind ?r _ = _ => destruct r; cbn [bind] in E
         end;
  discriminate E.

Section NotFound.

Variable repr : json -> pystr.
Variable lower : pystr -> pystr.
Variable nli_model : pystr -> result pystr.
Variable rouge_score : json -> pystr -> result Q.
Variable rouge_scores : json -> pystr -> result EvaluateFetaqa.rouge_scores.
Variable sentence_bleu : list (list pystr) -> list pystr -> result Q.
Variable chat_completion : pystr -> pystr -> result pystr.

Ltac run_to_loop Hrun :=
  repeat match type of Hrun with
         | bind ?r _ = Ok _ =>
             let x := fresh "x" in
             let E := fresh "E" in
             destruct r as [x|] eqn:E; [cbn [bind] in Hrun|discriminate Hrun]
         end.

Ltac miss_case m :=
  let H := fresh "H" in
  intros ? ? H; unfold m; rewrite H; reflexivity.
Ltac hit_case m :=
  let H := fresh "H" in
  let K := fresh "K" in
  intros ? ? ? H K; unfold m in K; rewrite H in K; hit_or_raise K.

(** X8. In each of the six evaluators, [not_found] of a returned report is
    the number of predictions whose key no gold record has, whatever the
    scorers do. *)
Theorem not_found_exact (predictions gold_data : dict) (model : pystr) :
  (forall rep,
     EvaluateLotnlg.evaluate_lotnlg repr lower nli_model rouge_score
       sentence_bleu predictions gold_data = Ok rep ->
     Lexical.r_not_found rep
     = List.length (orphans (raw_key (lit "csv_id")) predictions gold_data)) /\
  (forall rep,
     EvaluateLogicnlg.evaluate_lotnlg repr lower nli_model rouge_score
       sentence_bleu predictions gold_data = Ok rep ->
     Lexical.r_not_found rep
     = List.length (orphans (raw_key (lit "csv_id")) predictions gold_data)) /\
  (forall rep,
     EvaluateFetaqa.evaluate_fetaqa repr rouge_scores sentence_bleu
       predictions gold_data = Ok rep ->
     Lexical.r_not_found rep
     = List.length (orphans (str_key repr (lit "feta_id")) predictions gold_data)) /\
  (forall rep,
     CotEval.evaluate_all repr chat_completion predictions gold_data model
       = Ok rep ->
     Judge.r_not_found rep
     = List.length (orphans (raw_key (lit "csv_id")) predictions gold_data)) /\
  (forall rep,
     CotEvalFetaqa.evaluate_all_fetaqa repr chat_completion predictions
       gold_data model = Ok rep ->
     Judge.r_not_found rep
     = List.length (orphans (str_key repr (lit "feta_id")) predictions gold_data)) /\
  (forall rep,
     CotEvalLotnlg.evaluate_all_lotnlg repr chat_completion predictions
       gold_data model = Ok rep ->
     Judge.r_not_found rep
     = List.length (orphans (raw_key (lit "csv_id")) predictions gold_data)).
Proof.
  repeat split; intros rep Hrun.
  - unfold EvaluateLotnlg.evaluate_lotnlg in Hrun. run_to_loop Hrun.
    injection Hrun as <-.
    rewrite <- (filter_is_miss _ _ x _ (raw_index_miss _ _ _ E)).
    apply (lexical_loop_not_found _ x) in E1; [exact E1|miss_case EvaluateLotnlg.matched|hit_case EvaluateLotnlg.matched].
  - unfold EvaluateLogicnlg.evaluate_lotnlg in Hrun. run_to_loop Hrun.
    injection Hrun as <-.
    rewrite <- (filter_is_miss _ _ x _ (raw_index_miss _ _ _ E)).
    apply (lexical_loop_not_found _ x) in E1; [exact E1|miss_case EvaluateLogicnlg.matched|hit_case EvaluateLogicnlg.matched].
  - unfold EvaluateFetaqa.evaluate_fetaqa in Hrun. run_to_loop Hrun.
    injection Hrun as <-.
    rewrite <- (filter_is_miss _ _ x _ (str_index_miss _ _ _ _ E)).
    apply (lexical_loop_not_found _ x) in E0; [exact E0|miss_case EvaluateFetaqa.matched|hit_case EvaluateFetaqa.matched].
  - unfold CotEval.evaluate_all in Hrun. run_to_loop Hrun.
    injection Hrun as <-.
    rewrite <- (filter_is_miss _ _ x _ (raw_index_miss _ _ _ E)).
    apply (judge_loop_not_found _ x) in E0; [exact E0|miss_case CotEval.matched|hit_case CotEval.matched].
  - unfold CotEvalFetaqa.evaluate_all_fetaqa in Hrun. run_to_loop Hrun.
    injection Hrun as <-.
    rewrite <- (filter_is_miss _ _ x _ (str_index_miss _ _ _ _ E)).
    apply (judge_loop_not_found _ x) in E0; [exact E0|miss_case CotEvalFetaqa.matched|hit_case CotEvalFetaqa.matched].
  - unfold CotEvalLotnlg.evaluate_all_lotnlg in Hrun. run_to_loop Hrun.
    injection Hrun as <-.
    rewrite <- (filter_is_miss _ _ x _ (raw_index_miss _ _ _ E)).
    apply (judge_loop_not_found _ x) in E0; [exact E0|miss_case CotEvalLotnlg.matched|hit_case CotEvalLotnlg.matched].
Qed.

End NotFound.

Lemma not_found_exact_witness :
  exists rep,
    EvaluateLotnlg.evaluate_lotnlg Sample.repr Sample.lower Sample.nli_entails
      Sample.rouge_half Sample.bleu_quarter Sample.predictions_ab Sample.gold_a
    = Ok rep /\
    Lexical.r_not_found rep = 1.
Proof.
  eexists. split; [vm_compute; reflexivity|].
  exact (proj1 (not_found_exact Sample.repr Sample.lower Sample.nli_entails
                  Sample.rouge_half (fun _ _ => Raise ExternalError)
                  Sample.bleu_quarter (Sample.chat_says FAITHFUL)
                  Sample.predictions_ab Sample.gold_a Sample.model)
           _ eq_refl).
Defined.

(** ** The accuracy of the judges *)

Lemma judge_loop_scores (matched : pystr -> json -> result (option (result Z))) :
  (forall k v scored s,
     matched k v = Ok (Some scored) -> scored = Ok s -> (0 <= s <= 1)%Z) ->
  forall items st st',
    for_items (fun st k v => bind (matched k v)
                               (fun pair => Ok (Judge.settle st pair)))
      items st = Ok st' ->
    (0 <= Judge.total_score st <= Z.of_nat (Judge.total_count st))%Z ->
    (0 <= Judge.total_score st' <= Z.of_nat (Judge.total_count st'))%Z.
Proof.
  intros Hs. induction items as [|[k v] items IH]; intros st st' Hrun Hst.
  - simpl in Hrun. injection Hrun as <-. exact Hst.
  - cbn [for_items] in Hrun.
    destruct (matched k v) as [pair|e] eqn:E; [|discriminate Hrun].
    cbn [bind] in Hrun. apply (IH _ _ Hrun).
    destruct pair as [[s|e]|]; cbn [Judge.settle Judge.try_count Judge.count Judge.miss
      Judge.total_score Judge.total_count]; [|exact Hst|exact Hst].
    pose proof (Hs k v (Ok s) s E eq_refl). lia.
Qed.

Lemma accuracy_range (st : Judge.state) :
  (0 <= Judge.total_score st <= Z.of_nat (Judge.total_count st))%Z ->
  (0 <= Judge.accuracy st)%Q /\ (Judge.accuracy st <= 100)%Q /\
  ((Judge.accuracy st == 0)%Q <-> Judge.total_score st = 0%Z) /\
  (0 < Judge.total_count st ->
   Judge.total_score st = Z.of_nat (Judge.total_count st) ->
   (Judge.accuracy st == 100)%Q).
Proof.
  destruct st as [s n nf]. unfold Judge.accuracy.
  cbn [Judge.total_score Judge.total_count].
  intros H. destruct n as [|n].
  - cbn [Nat.ltb Nat.leb]. assert (s = 0%Z) by (simpl in H; lia). subst s.
    repeat split; try discriminate; try reflexivity. intros C. inversion C.
  - change (0 <? S n) with true. cbv iota.
    rewrite Nat2Z.inj_succ in *.
    destruct (Z.succ (Z.of_nat n)) as [|p|p] eqn:Ep; try lia.
    unfold Qle, Qeq, Qdiv, Qmult, Qinv, inject_Z. cbn [Qnum Qden].
    repeat split; try nia.
Qed.

Lemma verdict_bit (pos neg answer : pystr) :
  (0 <= verdict pos neg answer <= 1)%Z.
Proof. destruct (verdict_values pos neg answer) as [-> | ->]; lia. Qed.

Section JudgeRange.

Variable repr : json -> pystr.
Variable chat_completion : pystr -> pystr -> result pystr.

Lemma cot_scored_bit (index : gold_index) (model k : pystr) (v : json)
    (scored : result Z) (s : Z) :
  CotEval.matched repr chat_completion index model k v = Ok (Some scored) ->
  scored = Ok s -> (0 <= s <= 1)%Z.
Proof.
  unfold CotEval.matched. destruct (index_find index k) as [g|]; [|discriminate].
  destruct (dict_index g (lit "table_text")) as [t|]; [|discriminate].
  cbn [bind]. intros [= <-]. unfold CotEval.evaluate_single.
  destruct (chat_completion _ _) as [a|]; [|discriminate]. cbn [bind].
  intros [= <-]. apply verdict_bit.
Qed.

Lemma fetaqa_scored_bit (index : gold_index) (model k : pystr) (v : json)
    (scored : result Z) (s : Z) :
  CotEvalFetaqa.matched repr chat_completion index model k v = Ok (Some scored) ->
  scored = Ok s -> (0 <= s <= 1)%Z.
Proof.
  unfold CotEvalFetaqa.matched.
  destruct (index_find index k) as [g|]; [|discriminate].
  destruct (prediction_text repr v) as [p|]; [|discriminate].
  cbn [bind]. intros [= <-].
  destruct (py_slice_to 1500 _) as [t|]; [|discriminate]. cbn [bind].
  destruct (py_slice_to 500 _) as [r|]; [|discriminate]. cbn [bind].
  intros [= <-]. unfold CotEvalFetaqa.evaluate_single_fetaqa.
  destruct (chat_completion _ _) as [a|]; [apply verdict_bit|lia].
Qed.

Lemma lotnlg_scored_bit (index : gold_index) (model k : pystr) (v : json)
    (scored : result Z) (s : Z) :
  CotEvalLotnlg.matched repr chat_completion index model k v = Ok (Some scored) ->
  scored = Ok s -> (0 <= s <= 1)%Z.
Proof.
  unfold CotEvalLotnlg.matched.
  destruct (index_find index k) as [g|]; [|discriminate].
  destruct (prediction_text repr v) as [p|]; [|discriminate].
  cbn [bind]. intros [= <-].
  destruct (py_slice_to 1500 _) as [t|]; [|discriminate]. cbn [bind].
  intros [= <-]. unfold CotEvalLotnlg.evaluate_single_lotnlg.
  destruct (chat_completion _ _) as [a|]; [apply verdict_bit|lia].
Qed.

Ltac run_to_loop Hrun :=
  repeat match type of Hrun with
         | bind ?r _ = Ok _ =>
             let x := fresh "x" in
             let E := fresh "E" in
             destruct r as [x|] eqn:E; [cbn [bind] in Hrun|discriminate Hrun]
         end.

Lemma summary_range (st : Judge.state) :
  (0 <= Judge.total_score st <= Z.of_nat (Judge.total_count st))%Z ->
  consistent_report (Judge.summary st).
Proof.
  intros H. split; [exact H|]. exact (accuracy_range st H).
Qed.

(** X9. Every report of the three judges is consistent: the number of
    positive verdicts lies between 0 and the number of evaluated pairs,
    the accuracy between 0 and 100; the accuracy is 0 exactly when no
    verdict was positive (so also when no pair was evaluated), and it is
    100 when pairs were evaluated and every verdict was positive. *)
Theorem judge_report_range (predictions gold_data : dict) (model : pystr)
    (rep : Judge.report) :
  CotEval.evaluate_all repr chat_completion predictions gold_data model = Ok rep \/
  CotEvalFetaqa.evaluate_all_fetaqa repr chat_completion predictions gold_data
    model = Ok rep \/
  CotEvalLotnlg.evaluate_all_lotnlg repr chat_completion predictions gold_data
    model = Ok rep ->
  (0 <= Judge.r_positive rep <= Z.of_nat (Judge.r_evaluated rep))%Z /\
  (0 <= Judge.r_accuracy rep)%Q /\ (Judge.r_accuracy rep <= 100)%Q /\
  ((Judge.r_accuracy rep == 0)%Q <-> Judge.r_positive rep = 0%Z) /\
  (0 < Judge.r_evaluated rep ->
   Judge.r_positive rep = Z.of_nat (Judge.r_evaluated rep) ->
   (Judge.r_accuracy rep == 100)%Q).
Proof.
  assert (H0 : (0 <= Judge.total_score Judge.init
                <= Z.of_nat (Judge.total_count Judge.init))%Z) by (simpl; lia).
  intros [Hrun|[Hrun|Hrun]].
  - unfold CotEval.evaluate_all in Hrun. run_to_loop Hrun. injection Hrun as <-.
    apply summary_range.
    exact (judge_loop_scores _ (cot_scored_bit x model) _ _ _ E0 H0).
  - unfold CotEvalFetaqa.evaluate_all_fetaqa in Hrun. run_to_loop Hrun.
    injection Hrun as <-. apply summary_range.
    exact (judge_loop_scores _ (fetaqa_scored_bit x model) _ _ _ E0 H0).
  - unfold CotEvalLotnlg.evaluate_all_lotnlg in Hrun. run_to_loop Hrun.
    injection Hrun as <-. apply summary_range.
    exact (judge_loop_scores _ (lotnlg_scored_bit x model) _ _ _ E0 H0).
Qed.

End JudgeRange.

Lemma judge_report_range_witness :
  exists rep,
    CotEval.evaluate_all Sample.repr (Sample.chat_says FAITHFUL)
      Sample.predictions_ab Sample.gold_a Sample.model = Ok rep /\
    Judge.r_evaluated rep = 1 /\ Judge.r_positive rep = 1%Z /\
    (Judge.r_accuracy rep == 100)%Q.
Proof.
  eexists. split; [vm_compute; reflexivity|].
  split; [reflexivity|]. split; [reflexivity|].
  refine (proj2 (proj2 (proj2 (proj2
            (judge_report_range Sample.repr (Sample.chat_says FAITHFUL)
               Sample.predictions_ab Sample.gold_a Sample.model _
               (or_introl eq_refl))))) _ eq_refl).
  apply Nat.lt_0_1.
Defined.

(** ** The percentages of the lexical evaluators *)

Lemma bound_next (n : nat) (x : Q) :
  (0 <= x)%Q /\ (x <= inject_Z (Z.of_nat n))%Q ->
  (0 <= x)%Q /\ (x <= inject_Z (Z.of_nat (S n)))%Q.
Proof.
  intros [H0 H1]. split; [exact H0|]. eapply Qle_trans; [exact H1|].
  rewrite <- Zle_Qle. lia.
Qed.

Lemma bound_bump (n : nat) (x v : Q) :
  (0 <= x)%Q /\ (x <= inject_Z (Z.of_nat n))%Q -> unit_score v ->
  (0 <= x + v)%Q /\ (x + v <= inject_Z (Z.of_nat (S n)))%Q.
Proof.
  intros [H0 H1] [V0 V1]. split.
  - change 0%Q with (0 + 0)%Q. now apply Qplus_le_compat.
  - rewrite Nat2Z.inj_succ. unfold Z.succ. rewrite inject_Z_plus.
    now apply Qplus_le_compat.
Qed.

Lemma unit_one : unit_score 1%Q.
Proof. split; discriminate. Qed.

Lemma bounded_le (n n' : nat) (m : Lexical.metrics) :
  n <= n' -> bounded n m -> bounded n' m.
Proof.
  intros Hn. unfold bounded. apply Forall_impl. intros [k x] [H0 H1].
  split; [exact H0|]. eapply Qle_trans; [exact H1|]. rewrite <- Zle_Qle. lia.
Qed.

Lemma finalize_range (m : Lexical.metrics) (n : nat) (k : pystr) (v : Q) :
  bounded n m -> In (k, v) (Lexical.finalize m n) ->
  (0 <= v)%Q /\ (v <= 100)%Q.
Proof.
  unfold Lexical.finalize, bounded. intros Hb HI. rewrite Forall_forall in Hb.
  destruct n as [|n].
  - cbn [Nat.ltb Nat.leb] in HI. destruct (Hb _ HI) as [H0 H1]. cbn [snd] in *.
    split; [exact H0|]. eapply Qle_trans; [exact H1|]. discriminate.
  - change (0 <? S n) with true in HI. cbv iota in HI.
    apply in_map_iff in HI as ([k' x] & [= <- <-] & HI).
    destruct (Hb _ HI) as [H0 H1]. cbn [snd fst] in *.
    rewrite Nat2Z.inj_succ in *.
    destruct (Z.succ (Z.of_nat n)) as [|p|p] eqn:Ep; try lia.
    destruct x as [a b].
    unfold Qle, Qdiv, Qmult, Qinv, inject_Z in *. cbn [Qnum Qden] in *.
    split; nia.
Qed.

(** The sums stay below the number of predictions that had a gold
    record, whether the blocks raised or not. *)
Lemma lexical_loop_sums
    (matched : pystr -> json -> result (option (Lexical.Try unit)))
    (m0 : Lexical.metrics) :
  (forall k v block n m,
     matched k v = Ok (Some block) ->
     Lexical.same_keys m0 m -> bounded n m ->
     Lexical.same_keys m0 (fst (block m)) /\ bounded (S n) (fst (block m))) ->
  forall items st st' p,
    for_items (fun st k v => bind (matched k v)
                               (fun pair => Ok (Lexical.settle st pair)))
      items st = Ok st' ->
    Lexical.same_keys m0 (Lexical.results st) ->
    Lexical.not_found st <= p ->
    bounded (p - Lexical.not_found st) (Lexical.results st) ->
    Lexical.not_found st' <= p + List.length items /\
    bounded (p + List.length items - Lexical.not_found st') (Lexical.results st').
Proof.
  intros Hblock. induction items as [|[k v] items IH]; intros st st' p Hrun Hk Hp Hb.
  - simpl in Hrun. injection Hrun as <-. cbn [List.length].
    rewrite Nat.add_0_r. now split.
  - cbn [for_items] in Hrun.
    destruct (matched k v) as [pair|e] eqn:E; [|discriminate Hrun].
    cbn [bind] in Hrun. cbn [List.length].
    replace (p + S (List.length items)) with (S p + List.length items) by lia.
    apply (IH _ _ (S p) Hrun).
    + destruct pair as [block|]; [|exact Hk]. cbn [Lexical.settle].
      destruct (Hblock k v block _ _ E Hk Hb) as [Hk' _].
      unfold Lexical.try_score.
      destruct (block (Lexical.results st)) as [m [u|e]]; exact Hk'.
    + destruct pair as [block|]; cbn [Lexical.settle].
      * unfold Lexical.try_score.
        destruct (block (Lexical.results st)) as [m [u|e]];
          cbn [Lexical.not_found]; lia.
      * cbn [Lexical.miss Lexical.not_found]. lia.
    + destruct pair as [block|]; cbn [Lexical.settle].
      * destruct (Hblock k v block _ _ E Hk Hb) as [_ Hb'].
        unfold Lexical.try_score.
        destruct (block (Lexical.results st)) as [m [u|e]];
          cbn [Lexical.not_found Lexical.results fst] in *;
          (eapply bounded_le; [|exact Hb']); lia.
      * cbn [Lexical.miss Lexical.not_found Lexical.results].
        eapply bounded_le; [|exact Hb]. lia.
Qed.

#[local] Arguments slice_to : simpl never.

(** Runs a [try] block on a dictionary whose keys are known, with a case
    for every outcome of a call and of a test. *)
Ltac run_block :=
  repeat (simpl;
    match goal with
    | |- context [match ?r with Ok _ => _ | Raise _ => _ end] =>
        lazymatch r with
        | context [match _ with _ => _ end] => fail
        | _ => idtac
        end;
        let E := fresh "E" in destruct r eqn:E
    | |- context [if ?b then _ else _] =>
        lazymatch b with
        | context [match _ with _ => _ end] => fail
        | _ => idtac
        end;
        destruct b
    end).

Ltac bounded_entries :=
  unfold bounded;
  repeat (apply Forall_cons;
          [ cbn [snd];
            first [ apply bound_next; assumption
                  | apply bound_bump; [assumption|eauto using unit_one] ] | ]);
  apply Forall_nil.

(** The entries of a bounded dictionary, one hypothesis each. *)
Ltac entries Hb :=
  unfold bounded in Hb;
  repeat match type of Hb with
         | Forall _ (_ :: _) =>
             let H := fresh "Hx" in
             let Hr := fresh "Hr" in
             apply Forall_cons_iff in Hb as [H Hr]; cbn [snd] in H;
             rename Hr into Hb
         end;
  clear Hb.

Ltac block_bound :=
  unfold Lexical.tbind, Lexical.lift, Lexical.tret, Lexical.metric_add;
  match goal with
  | |- _ /\ bounded (S ?n) _ =>
      let n' := fresh "n'" in
      set (n' := S n); run_block; subst n';
      (split; [reflexivity|bounded_entries])
  end.

Section Sums.

Variable repr : json -> pystr.
Variable lower : pystr -> pystr.
Variable nli_model : pystr -> result pystr.
Variable rouge_score : json -> pystr -> result Q.
Variable rouge_scores : json -> pystr -> result EvaluateFetaqa.rouge_scores.
Variable sentence_bleu : list (list pystr) -> list pystr -> result Q.
Hypothesis rouge_unit : forall g p q, rouge_score g p = Ok q -> unit_score q.
Hypothesis rouges_unit :
  forall g p r, rouge_scores g p = Ok r ->
    unit_score (EvaluateFetaqa.rouge1 r) /\
    unit_score (EvaluateFetaqa.rouge2 r) /\
    unit_score (EvaluateFetaqa.rougeL r).
Hypothesis bleu_unit : forall r c q, sentence_bleu r c = Ok q -> unit_score q.

Lemma lotnlg_block_bound (has : bool) (index : gold_index) (k : pystr)
    (v : json) (block : Lexical.Try unit) (n : nat) (m : Lexical.metrics) :
  EvaluateLotnlg.matched repr lower nli_model rouge_score sentence_bleu has
    index k v = Ok (Some block) ->
  Lexical.same_keys (EvaluateLotnlg.results0 has) m -> bounded n m ->
  Lexical.same_keys (EvaluateLotnlg.results0 has) (fst (block m)) /\
  bounded (S n) (fst (block m)).
Proof.
  intros Hm Hk Hb. unfold EvaluateLotnlg.matched in Hm.
  destruct (index_find index k) as [g|]; [|discriminate].
  destruct (prediction_text repr v) as [p|]; [|discriminate]. cbn [bind] in Hm.
  destruct (dict_index g (lit "table_text")) as [t|]; [|discriminate]. cbn [bind] in Hm.
  destruct (dict_index g (lit "sentences")) as [ss|]; [|discriminate]. cbn [bind] in Hm.
  destruct (Lexical.first_or_str repr ss) as [x|]; [|discriminate]. cbn [bind] in Hm.
  injection Hm as <-.
  unfold EvaluateLotnlg.score_example, EvaluateLotnlg.score_type.
  unfold Lexical.same_keys in Hk.
  destruct has; cbn [EvaluateLotnlg.results0 app map fst] in Hk.
  - destruct m as [|[k1 a] [|[k2 b] [|[k3 c] [|[k4 d] [|? ?]]]]]; try discriminate Hk.
    injection Hk as <- <- <- <-. entries Hb. block_bound.
  - destruct m as [|[k1 a] [|[k2 b] [|[k3 c] [|? ?]]]]; try discriminate Hk.
    injection Hk as <- <- <-. entries Hb. block_bound.
Qed.

Lemma logicnlg_block_bound (has : bool) (index : gold_index) (k : pystr)
    (v : json) (block : Lexical.Try unit) (n : nat) (m : Lexical.metrics) :
  EvaluateLogicnlg.matched repr lower nli_model rouge_score sentence_bleu has
    index k v = Ok (Some block) ->
  Lexical.same_keys (EvaluateLogicnlg.results0 has) m -> bounded n m ->
  Lexical.same_keys (EvaluateLogicnlg.results0 has) (fst (block m)) /\
  bounded (S n) (fst (block m)).
Proof.
  intros Hm Hk Hb. unfold EvaluateLogicnlg.matched in Hm.
  destruct (index_find index k) as [g|]; [|discriminate].
  destruct (prediction_text repr v) as [p|]; [|discriminate]. cbn [bind] in Hm.
  destruct (dict_index g (lit "table_text")) as [t|]; [|discriminate]. cbn [bind] in Hm.
  destruct (dict_index g (lit "sentences")) as [ss|]; [|discriminate]. cbn [bind] in Hm.
  destruct (Lexical.first_or_str repr ss) as [x|]; [|discriminate]. cbn [bind] in Hm.
  injection Hm as <-.
  unfold EvaluateLogicnlg.score_example, EvaluateLogicnlg.score_type.
  unfold Lexical.same_keys in Hk.
  destruct has; cbn [EvaluateLogicnlg.results0 app map fst] in Hk.
  - destruct m as [|[k1 a] [|[k2 b] [|[k3 c] [|[k4 d] [|? ?]]]]]; try discriminate Hk.
    injection Hk as <- <- <- <-. entries Hb. block_bound.
  - destruct m as [|[k1 a] [|[k2 b] [|[k3 c] [|? ?]]]]; try discriminate Hk.
    injection Hk as <- <- <-. entries Hb. block_bound.
Qed.

Lemma fetaqa_block_bound (index : gold_index) (k : pystr)
    (v : json) (block : Lexical.Try unit) (n : nat) (m : Lexical.metrics) :
  EvaluateFetaqa.matched repr rouge_scores sentence_bleu index k v
  = Ok (Some block) ->
  Lexical.same_keys EvaluateFetaqa.results0 m -> bounded n m ->
  Lexical.same_keys EvaluateFetaqa.results0 (fst (block m)) /\
  bounded (S n) (fst (block m)).
Proof.
  intros Hm Hk Hb. unfold EvaluateFetaqa.matched in Hm.
  destruct (index_find index k) as [g|]; [|discriminate].
  destruct (prediction_text repr v) as [p|]; [|discriminate]. cbn [bind] in Hm.
  destruct (dict_index g (lit "answer")) as [t|]; [|discriminate]. cbn [bind] in Hm.
  injection Hm as <-.
  unfold EvaluateFetaqa.score_example.
  unfold Lexical.same_keys in Hk. cbn [EvaluateFetaqa.results0 map fst] in Hk.
  destruct m as [|[k1 a] [|[k2 b] [|[k3 c] [|[k4 d] [|? ?]]]]]; try discriminate Hk.
  injection Hk as <- <- <- <-. entries Hb.
  unfold Lexical.tbind, Lexical.lift, Lexical.tret, Lexical.metric_add.
  set (n' := S n). run_block; subst n';
    try (destruct (rouges_unit _ _ _ E) as (U1 & U2 & U3));
    (split; [reflexivity|bounded_entries]).
Qed.

End Sums.

Lemma finalize_nonneg (m : Lexical.metrics) (b n : nat) (k : pystr) (v : Q) :
  bounded b m -> In (k, v) (Lexical.finalize m n) -> (0 <= v)%Q.
Proof.
  unfold Lexical.finalize, bounded. intros Hb HI. rewrite Forall_forall in Hb.
  destruct n as [|n].
  - cbn [Nat.ltb Nat.leb] in HI. exact (proj1 (Hb _ HI)).
  - change (0 <? S n) with true in HI. cbv iota in HI.
    apply in_map_iff in HI as ([k' x] & [= <- <-] & HI).
    destruct (Hb _ HI) as [H0 _]. cbn [snd fst] in *.
    destruct x as [a c].
    unfold Qle, Qdiv, Qmult, Qinv, inject_Z in *. cbn [Qnum Qden] in *. nia.
Qed.

Lemma bounded_zeros (m : Lexical.metrics) :
  Forall (fun kv => snd kv = 0%Q) m -> bounded 0 m.
Proof.
  unfold bounded. apply Forall_impl. intros [k x]. cbn [snd]. intros ->.
  split; discriminate.
Qed.

(** What the loop leaves: sums between 0 and the number of predictions
    that had a gold record. *)
Lemma summary_range_of (st : Lexical.loop_state) (has : bool) (n : nat)
    (k : pystr) (v : Q) :
  Lexical.not_found st <= n ->
  bounded (n - Lexical.not_found st) (Lexical.results st) ->
  In (k, v) (Lexical.r_metrics (Lexical.summary st has)) ->
  (0 <= v)%Q /\
  (Lexical.r_total (Lexical.summary st has)
   + Lexical.r_not_found (Lexical.summary st has) = n -> (v <= 100)%Q).
Proof.
  cbn [Lexical.summary Lexical.r_metrics Lexical.r_total Lexical.r_not_found].
  intros Hn Hb HI. split.
  - exact (finalize_nonneg _ _ _ _ _ Hb HI).
  - intros E.
    replace (n - Lexical.not_found st) with (Lexical.total st) in Hb by lia.
    exact (proj2 (finalize_range _ _ _ _ Hb HI)).
Qed.

Section Percentages.

Variable repr : json -> pystr.
Variable lower : pystr -> pystr.
Variable nli_model : pystr -> result pystr.
Variable rouge_score : json -> pystr -> result Q.
Variable rouge_scores : json -> pystr -> result EvaluateFetaqa.rouge_scores.
Variable sentence_bleu : list (list pystr) -> list pystr -> result Q.

Ltac run_to_loop Hrun :=
  repeat match type of Hrun with
         | bind ?r _ = Ok _ =>
             let x := fresh "x" in
             let E := fresh "E" in
             destruct r as [x|] eqn:E; [cbn [bind] in Hrun|discriminate Hrun]
         end.

(** X10. With ROUGE and BLEU values between 0 and 1, no percentage of a
    report of the three lexical evaluators is negative, and every one is
    at most 100 when no matched pair was skipped, that is, when [total]
    and [not_found] add up to the number of predictions. *)
Theorem percentages_in_range (predictions gold_data : dict)
    (rep : Lexical.report) :
  (forall g p q, rouge_score g p = Ok q -> unit_score q) ->
  (forall g p r, rouge_scores g p = Ok r ->
     unit_score (EvaluateFetaqa.rouge1 r) /\
     unit_score (EvaluateFetaqa.rouge2 r) /\
     unit_score (EvaluateFetaqa.rougeL r)) ->
  (forall r c q, sentence_bleu r c = Ok q -> unit_score q) ->
  EvaluateLotnlg.evaluate_lotnlg repr lower nli_model rouge_score
    sentence_bleu predictions gold_data = Ok rep \/
  EvaluateLogicnlg.evaluate_lotnlg repr lower nli_model rouge_score
    sentence_bleu predictions gold_data = Ok rep \/
  EvaluateFetaqa.evaluate_fetaqa repr rouge_scores sentence_bleu
    predictions gold_data = Ok rep ->
  forall k v,
    In (k, v) (Lexical.r_metrics rep) ->
    (0 <= v)%Q /\
    (Lexical.r_total rep + Lexical.r_not_found rep = List.length predictions ->
     (v <= 100)%Q).
Proof.
  intros Hr Hrs Hbl [Hrun|[Hrun|Hrun]] k v.
  - unfold EvaluateLotnlg.evaluate_lotnlg in Hrun. run_to_loop Hrun.
    injection Hrun as <-.
    destruct (lexical_loop_sums _ _
                (fun k v block n m =>
                   lotnlg_block_bound repr lower nli_model rouge_score
                     sentence_bleu Hr Hbl _ x k v block n m)
                predictions _ x1 0 E1 eq_refl (Nat.le_refl 0)) as [Hn Hb].
    { apply bounded_zeros. destruct (Lexical.has_key _ x0); repeat constructor. }
    now apply summary_range_of.
  - unfold EvaluateLogicnlg.evaluate_lotnlg in Hrun. run_to_loop Hrun.
    injection Hrun as <-.
    destruct (lexical_loop_sums _ _
                (fun k v block n m =>
                   logicnlg_block_bound repr lower nli_model rouge_score
                     sentence_bleu Hr Hbl _ x k v block n m)
                predictions _ x1 0 E1 eq_refl (Nat.le_refl 0)) as [Hn Hb].
    { apply bounded_zeros. destruct (Lexical.has_key _ x0); repeat constructor. }
    now apply summary_range_of.
  - unfold EvaluateFetaqa.evaluate_fetaqa in Hrun. run_to_loop Hrun.
    injection Hrun as <-.
    destruct (lexical_loop_sums _ _
                (fun k v block n m =>
                   fetaqa_block_bound repr rouge_scores sentence_bleu Hrs Hbl
                     x k v block n m)
                predictions _ x0 0 E0 eq_refl (Nat.le_refl 0)) as [Hn Hb].
    { apply bounded_zeros. repeat constructor. }
    now apply summary_range_of.
Qed.

End Percentages.

Lemma percentages_in_range_witness :
  exists rep,
    EvaluateLotnlg.evaluate_lotnlg Sample.repr Sample.lower Sample.nli_entails
      Sample.rouge_half Sample.bleu_quarter Sample.predictions_ab Sample.gold_a
    = Ok rep /\
    forall k v, In (k, v) (Lexical.r_metrics rep) -> (0 <= v)%Q /\ (v <= 100)%Q.
Proof.
  eexists. split; [vm_compute; reflexivity|]. intros k v HI.
  destruct (percentages_in_range Sample.repr Sample.lower Sample.nli_entails
              Sample.rouge_half (fun _ _ => Raise ExternalError)
              Sample.bleu_quarter Sample.predictions_ab Sample.gold_a _
              ltac:(intros g p q [= <-]; split; discriminate)
              ltac:(discriminate)
              ltac:(intros r c q [= <-]; split; discriminate)
              (or_introl eq_refl) k v HI) as [H0 H1].
  split; [exact H0|]. apply H1. reflexivity.
Defined.

(** ** The judges that never skip a pair *)

Lemma last_with_in (key_of : dict -> option pystr) (gold_data : dict)
    (key : pystr) (g : dict) :
  last_with key_of gold_data key g ->
  exists idx, In (idx, JDict g) gold_data.
Proof.
  intros (pre & idx & post & -> & _). exists idx.
  apply in_or_app. right. now left.
Qed.

Lemma raw_index_in (field : pystr) (gold_data : dict) (index : gold_index)
    (key : pystr) (g : dict) :
  for_items (index_raw field) gold_data [] = Ok index ->
  index_find index key = Some g ->
  last_with (raw_key field) gold_data key g.
Proof.
  intros Hi Hf.
  pose proof (keyed_index_lookup _ (index_raw field) (raw_key field)
                (index_raw_body field) (index_raw_key field) gold_data index
                key Hi) as H.
  now rewrite Hf in H.
Qed.

Lemma str_index_in (repr : json -> pystr) (field : pystr) (gold_data : dict)
    (index : gold_index) (key : pystr) (g : dict) :
  for_items (index_str repr field) gold_data [] = Ok index ->
  index_find index key = Some g ->
  last_with (str_key repr field) gold_data key g.
Proof.
  intros Hi Hf.
  pose proof (keyed_index_lookup _ (index_str repr field) (str_key repr field)
                (index_str_body repr field) (index_str_key repr field)
                gold_data index key Hi) as H.
  now rewrite Hf in H.
Qed.

Lemma sliceable_slice (n : nat) (v : json) :
  sliceable v = true -> exists w, py_slice_to n v = Ok w.
Proof. destruct v; try discriminate; intros _; eexists; reflexivity. Qed.

Section NeverSkips.

Variable repr : json -> pystr.
Variable chat_completion : pystr -> pystr -> result pystr.

Ltac run_to_loop Hrun :=
  repeat match type of Hrun with
         | bind ?r _ = Ok _ =>
             let x := fresh "x" in
             let E := fresh "E" in
             destruct r as [x|] eqn:E; [cbn [bind] in Hrun|discriminate Hrun]
         end.

(** X11. The judges of cot_eval_fetaqa.py and cot_eval_lotnlg.py skip no
    matched pair, whatever the chat completion does, when the table text
    of every gold record (and, for FeTaQA, the answer) is text, a list
    or absent: the evaluated pairs and the predictions without a gold
    record add up to the number of predictions. *)
Theorem judges_never_skip (predictions gold_data : dict) (model : pystr) :
  (forall rep,
     CotEvalFetaqa.evaluate_all_fetaqa repr chat_completion predictions
       gold_data model = Ok rep ->
     (forall idx g, In (idx, JDict g) gold_data ->
        sliceable (dict_get g (lit "table_text") (JStr [])) = true /\
        sliceable (dict_get g (lit "answer") (JStr [])) = true) ->
     Judge.r_evaluated rep + Judge.r_not_found rep = List.length predictions) /\
  (forall rep,
     CotEvalLotnlg.evaluate_all_lotnlg repr chat_completion predictions
       gold_data model = Ok rep ->
     (forall idx g, In (idx, JDict g) gold_data ->
        sliceable (dict_get g (lit "table_text") (JStr [])) = true) ->
     Judge.r_evaluated rep + Judge.r_not_found rep = List.length predictions).
Proof.
  split; intros rep Hrun Hg.
  - unfold CotEvalFetaqa.evaluate_all_fetaqa in Hrun. run_to_loop Hrun.
    injection Hrun as <-.
    pose proof (judge_loop_counts _ predictions _ x0 E0) as H. simpl in H.
    apply H. clear H. intros k v scored _ Hm.
    unfold CotEvalFetaqa.matched in Hm.
    destruct (index_find x k) as [g|] eqn:Ef; [|discriminate Hm].
    destruct (last_with_in _ _ _ _ (str_index_in _ _ _ _ _ _ E Ef)) as [idx HI].
    destruct (Hg idx g HI) as [Ht Ha].
    destruct (prediction_text repr v) as [p|]; [|discriminate Hm].
    cbn [bind] in Hm. injection Hm as <-.
    destruct (sliceable_slice 1500 _ Ht) as [t ->].
    destruct (sliceable_slice 500 _ Ha) as [a ->]. cbn [bind].
    eexists. reflexivity.
  - unfold CotEvalLotnlg.evaluate_all_lotnlg in Hrun. run_to_loop Hrun.
    injection Hrun as <-.
    pose proof (judge_loop_counts _ predictions _ x0 E0) as H. simpl in H.
    apply H. clear H. intros k v scored _ Hm.
    unfold CotEvalLotnlg.matched in Hm.
    destruct (index_find x k) as [g|] eqn:Ef; [|discriminate Hm].
    destruct (last_with_in _ _ _ _ (raw_index_in _ _ _ _ _ E Ef)) as [idx HI].
    pose proof (Hg idx g HI) as Ht.
    destruct (prediction_text repr v) as [p|]; [|discriminate Hm].
    cbn [bind] in Hm. injection Hm as <-.
    destruct (sliceable_slice 1500 _ Ht) as [t ->]. cbn [bind].
    eexists. reflexivity.
Qed.

End NeverSkips.

Lemma judges_never_skip_witness :
  exists rep,
    CotEvalLotnlg.evaluate_all_lotnlg Sample.repr Sample.chat_fails
      Sample.predictions_ab Sample.gold_a Sample.model = Ok rep /\
    Judge.r_evaluated rep + Judge.r_not_found rep = 2.
Proof.
  eexists. split; [vm_compute; reflexivity|].
  apply (proj2 (judges_never_skip Sample.repr Sample.chat_fails
                  Sample.predictions_ab Sample.gold_a Sample.model) _ eq_refl).
  intros idx g [[= _ <-]|[]]. reflexivity.
Defined.

(** ** Gold records that end the run *)

Lemma for_items_ok_inv {S : Type} (body : S -> pystr -> json -> result S)
    (items : dict) :
  forall s s',
    for_items body items s = Ok s' ->
    forall k v, In (k, v) items -> exists s0 s1, body s0 k v = Ok s1.
Proof.
  induction items as [|[k0 v0] items IH]; intros s s' Hrun k v HI; [elim HI|].
  cbn [for_items] in Hrun.
  destruct (body s k0 v0) as [s1|] eqn:E; [|discriminate Hrun].
  destruct HI as [[= <- <-]|HI].
  - exists s, s1. exact E.
  - exact (IH _ _ Hrun k v HI).
Qed.

Lemma last_with_unique (key_of : dict -> option pystr) (gold_data : dict)
    (key : pystr) (g g' : dict) :
  last_with key_of gold_data key g -> last_with key_of gold_data key g' ->
  g = g'.
Proof.
  intros (pre & idx & post & E & Hk & Hl) (pre' & idx' & post' & E' & Hk' & Hl').
  subst gold_data. revert pre' E'.
  induction pre as [|x pre IH]; intros [|x' pre'] E'; cbn [app] in E'.
  - now injection E'.
  - injection E' as _ E'. exfalso. apply (Hl idx' g'); [|exact Hk'].
    rewrite E'. apply in_or_app. right. now left.
  - injection E' as _ E'. exfalso. apply (Hl' idx g); [|exact Hk].
    rewrite <- E'. apply in_or_app. right. now left.
  - injection E' as _ E'. exact (IH _ E').
Qed.

Lemma raw_index_last (field : pystr) (gold_data : dict) (index : gold_index)
    (key : pystr) (g : dict) :
  for_items (index_raw field) gold_data [] = Ok index ->
  last_with (raw_key field) gold_data key g ->
  index_find index key = Some g.
Proof.
  intros Hi Hl.
  pose proof (keyed_index_lookup _ (index_raw field) (raw_key field)
                (index_raw_body field) (index_raw_key field) gold_data index
                key Hi) as H.
  destruct (index_find index key) as [g'|].
  - f_equal. exact (last_with_unique _ _ _ _ _ H Hl).
  - destruct Hl as (pre & idx & post & -> & Hk & _).
    exfalso. apply (H idx g); [|exact Hk]. apply in_or_app. right. now left.
Qed.

Lemma str_index_last (repr : json -> pystr) (field : pystr) (gold_data : dict)
    (index : gold_index) (key : pystr) (g : dict) :
  for_items (index_str repr field) gold_data [] = Ok index ->
  last_with (str_key repr field) gold_data key g ->
  index_find index key = Some g.
Proof.
  intros Hi Hl.
  pose proof (keyed_index_lookup _ (index_str repr field) (str_key repr field)
                (index_str_body repr field) (index_str_key repr field)
                gold_data index key Hi) as H.
  destruct (index_find index key) as [g'|].
  - f_equal. exact (last_with_unique _ _ _ _ _ H Hl).
  - destruct Hl as (pre & idx & post & -> & Hk & _).
    exfalso. apply (H idx g); [|exact Hk]. apply in_or_app. right. now left.
Qed.

Lemma dict_index_missing (g : dict) (k : pystr) :
  dict_find g k = None -> dict_index g k = Raise KeyError.
Proof. unfold dict_index. now intros ->. Qed.

Section Incomplete.

Variable repr : json -> pystr.
Variable lower : pystr -> pystr.
Variable nli_model : pystr -> result pystr.
Variable rouge_score : json -> pystr -> result Q.
Variable rouge_scores : json -> pystr -> result EvaluateFetaqa.rouge_scores.
Variable sentence_bleu : list (list pystr) -> list pystr -> result Q.
Variable chat_completion : pystr -> pystr -> result pystr.

Ltac run_to_loop Hrun :=
  repeat match type of Hrun with
         | bind ?r _ = Ok _ =>
             let x := fresh "x" in
             let E := fresh "E" in
             destruct r as [x|] eqn:E; [cbn [bind] in Hrun|discriminate Hrun]
         end.

(** X12. A gold record that lacks a field the loop reads before its [try]
    ends the run without a report as soon as one prediction is matched
    to it, whatever the other predictions and the scorers are: a missing
    [table_text] in cot_eval.py, a missing [table_text] or [sentences],
    or an empty list of sentences, in evaluate_lotnlg.py and
    evaluate_logicnlg.py, a missing [answer] in evaluate_fetaqa.py. *)
Theorem incomplete_record_no_report (predictions gold_data : dict)
    (model k : pystr) (v : json) (g : dict) :
  In (k, v) predictions ->
  (last_with (raw_key (lit "csv_id")) gold_data k g ->
   dict_find g (lit "table_text") = None ->
   forall rep,
     CotEval.evaluate_all repr chat_completion predictions gold_data model
     <> Ok rep) /\
  (last_with (raw_key (lit "csv_id")) gold_data k g ->
   dict_find g (lit "table_text") = None \/
   dict_find g (lit "sentences") = None \/
   dict_find g (lit "sentences") = Some (JList []) ->
   forall rep,
     EvaluateLotnlg.evaluate_lotnlg repr lower nli_model rouge_score
       sentence_bleu predictions gold_data <> Ok rep /\
     EvaluateLogicnlg.evaluate_lotnlg repr lower nli_model rouge_score
       sentence_bleu predictions gold_data <> Ok rep) /\
  (last_with (str_key repr (lit "feta_id")) gold_data k g ->
   dict_find g (lit "answer") = None ->
   forall rep,
     EvaluateFetaqa.evaluate_fetaqa repr rouge_scores sentence_bleu
       predictions gold_data <> Ok rep).
Proof.
  intros HI. split; [|split].
  - intros Hl Ht rep Hrun. unfold CotEval.evaluate_all in Hrun.
    run_to_loop Hrun.
    destruct (for_items_ok_inv _ _ _ _ E0 k v HI) as (s0 & s1 & Hs).
    unfold CotEval.step, CotEval.matched in Hs.
    rewrite (raw_index_last _ _ _ _ _ E Hl), (dict_index_missing _ _ Ht) in Hs.
    discriminate Hs.
  - intros Hl Hf rep.
    assert (Hfields : forall (A : Type) (cont : json -> json -> result A) a,
              (table_str <- dict_index g (lit "table_text") ;;
               gold_sentences <- dict_index g (lit "sentences") ;;
               gold_text <- Lexical.first_or_str repr gold_sentences ;;
               cont table_str gold_text)%result <> Ok a).
    { intros A cont a. unfold dict_index.
      destruct Hf as [Hf|[Hf|Hf]]; rewrite Hf.
      - discriminate.
      - destruct (dict_find g (lit "table_text")); discriminate.
      - destruct (dict_find g (lit "table_text")); discriminate. }
    split; intros Hrun.
    + unfold EvaluateLotnlg.evaluate_lotnlg in Hrun. run_to_loop Hrun.
      destruct (for_items_ok_inv _ _ _ _ E1 k v HI) as (s0 & s1 & Hs).
      unfold EvaluateLotnlg.step, EvaluateLotnlg.matched in Hs.
      rewrite (raw_index_last _ _ _ _ _ E Hl) in Hs.
      destruct (prediction_text repr v) as [p|]; [|discriminate Hs].
      cbn [bind] in Hs.
      destruct (bind (dict_index g (lit "table_text")) _) as [pair|] eqn:Ep;
        [|discriminate Hs].
      exact (Hfields _ _ _ Ep).
    + unfold EvaluateLogicnlg.evaluate_lotnlg in Hrun. run_to_loop Hrun.
      destruct (for_items_ok_inv _ _ _ _ E1 k v HI) as (s0 & s1 & Hs).
      unfold EvaluateLogicnlg.step, EvaluateLogicnlg.matched in Hs.
      rewrite (raw_index_last _ _ _ _ _ E Hl) in Hs.
      destruct (prediction_text repr v) as [p|]; [|discriminate Hs].
      cbn [bind] in Hs.
      destruct (bind (dict_index g (lit "table_text")) _) as [pair|] eqn:Ep;
        [|discriminate Hs].
      exact (Hfields _ _ _ Ep).
  - intros Hl Ha rep Hrun. unfold EvaluateFetaqa.evaluate_fetaqa in Hrun.
    run_to_loop Hrun.
    destruct (for_items_ok_inv _ _ _ _ E0 k v HI) as (s0 & s1 & Hs).
    unfold EvaluateFetaqa.step, EvaluateFetaqa.matched in Hs.
    rewrite (str_index_last _ _ _ _ _ _ E Hl), (dict_index_missing _ _ Ha) in Hs.
    destruct (prediction_text repr v); discriminate Hs.
Qed.

End Incomplete.

Lemma incomplete_record_no_report_witness :
  In (lit "t1", Sample.text "The total sales were 500.") Sample.predictions_a /\
  ~ (exists rep,
       CotEval.evaluate_all Sample.repr Sample.chat_fails Sample.predictions_a
         Sample.gold_no_table Sample.model = Ok rep).
Proof.
  split; [left; reflexivity|]. intros [rep Hrun].
  refine (proj1 (incomplete_record_no_report Sample.repr Sample.lower
                   Sample.nli_entails Sample.rouge_half
                   (fun _ _ => Raise ExternalError) Sample.bleu_quarter
                   Sample.chat_fails Sample.predictions_a Sample.gold_no_table
                   Sample.model (lit "t1") _
                   [(lit "csv_id", Sample.text "t1");
                    (lit "sentences",
                     JList [Sample.text "Total sales were 500 in 2020."])]
                   (or_introl eq_refl))
            _ eq_refl rep Hrun).
  exists [], (lit "0"), []. split; [reflexivity|]. split; [reflexivity|].
  intros ? ? [].
Defined.

Lemma for_items_total {S : Type} (body : S -> pystr -> json -> result S)
    (items : dict) :
  (forall s k v, In (k, v) items -> exists s', body s k v = Ok s') ->
  forall s, exists s', for_items body items s = Ok s'.
Proof.
  induction items as [|[k v] items IH]; intros Hb s; cbn [for_items].
  - now exists s.
  - destruct (Hb s k v (or_introl eq_refl)) as [s1 ->].
    apply IH. intros s0 k0 v0 HI. exact (Hb s0 k0 v0 (or_intror HI)).
Qed.

Lemma index_raw_total (field : pystr) (gold_data : dict) :
  (forall idx v, In (idx, v) gold_data -> indexable field v = true) ->
  exists index, for_items (index_raw field) gold_data [] = Ok index.
Proof.
  intros H. apply for_items_total. intros s idx v HI.
  specialize (H idx v HI). unfold index_raw.
  destruct v as [| | | | | |g]; try discriminate H. cbn [as_dict bind].
  cbn [indexable] in H. destruct (truthy _); [|now eexists].
  cbn [negb orb] in H. rewrite H. now eexists.
Qed.

Lemma index_str_total (repr : json -> pystr) (field : pystr) (gold_data : dict) :
  (forall idx v, In (idx, v) gold_data -> is_object v = true) ->
  exists index, for_items (index_str repr field) gold_data [] = Ok index.
Proof.
  intros H. apply for_items_total. intros s idx v HI.
  specialize (H idx v HI). unfold index_str.
  destruct v as [| | | | | |g]; try discriminate H. cbn [as_dict bind].
  destruct (truthy _); now eexists.
Qed.

Lemma textual_text (repr : json -> pystr) (v : json) :
  textual v = true -> exists t, prediction_text repr v = Ok t.
Proof.
  destruct v as [| | | | |l|]; try (intros _; eexists; reflexivity).
  cbn [textual prediction_text]. unfold join_json. intros H.
  assert (K : exists ss, as_strs l = Ok ss).
  { induction l as [|x l IH]; [now exists []|]. cbn [forallb] in H.
    apply andb_true_iff in H as [Hx Hl]. destruct x; try discriminate Hx.
    cbn [as_strs]. destruct (IH Hl) as [ss ->]. now eexists. }
  destruct K as [ss ->]. now eexists.
Qed.

Lemma first_value_total (gold_data : dict) :
  gold_data <> [] -> exists v, Lexical.first_value gold_data = Ok v.
Proof. destruct gold_data as [|[i v] rest]; [congruence|]. now exists v. Qed.

Lemma scorable_fields (repr : json -> pystr) (g : dict) :
  scorable g = true ->
  exists t ss x,
    dict_index g (lit "table_text") = Ok t /\
    dict_index g (lit "sentences") = Ok ss /\
    Lexical.first_or_str repr ss = Ok x.
Proof.
  unfold scorable, dict_index.
  destruct (dict_find g (lit "table_text")) as [t|]; [|discriminate].
  destruct (dict_find g (lit "sentences")) as [ss|]; [|discriminate].
  intros H. exists t, ss.
  destruct ss as [| | | | |[|x l]|]; try discriminate H;
    eexists; repeat split; reflexivity.
Qed.

Lemma dict_mem_index (g : dict) (k : pystr) :
  dict_mem g k = true -> exists v, dict_index g k = Ok v.
Proof.
  unfold dict_mem, dict_index. destruct (dict_find g k); [|discriminate].
  now eexists.
Qed.

Section Returns.

Variable repr : json -> pystr.
Variable lower : pystr -> pystr.
Variable nli_model : pystr -> result pystr.
Variable rouge_score : json -> pystr -> result Q.
Variable rouge_scores : json -> pystr -> result EvaluateFetaqa.rouge_scores.
Variable sentence_bleu : list (list pystr) -> list pystr -> result Q.
Variable chat_completion : pystr -> pystr -> result pystr.

Variable predictions gold_data : dict.
Variable model : pystr.

(** X13. The inputs on which a run returns a report, whatever the scorers
    and the judge do.  The gold items are objects whose identifier can
    be a key; the predictions are text or lists of text (cot_eval.py
    takes any prediction); the gold records have the fields the loop
    reads before its [try]: [table_text] in cot_eval.py, [table_text]
    and a first sentence in the two LogicNLG/LoTNLG scripts, which also
    need one gold item at least, [answer] in evaluate_fetaqa.py, none in
    cot_eval_fetaqa.py and cot_eval_lotnlg.py. *)
Theorem runs_return :
  (csv_gold gold_data ->
   (forall idx g, In (idx, JDict g) gold_data ->
      dict_mem g (lit "table_text") = true) ->
   exists rep,
     CotEval.evaluate_all repr chat_completion predictions gold_data model
     = Ok rep) /\
  (csv_gold gold_data -> text_predictions predictions ->
   exists rep,
     CotEvalLotnlg.evaluate_all_lotnlg repr chat_completion predictions
       gold_data model = Ok rep) /\
  (feta_gold gold_data -> text_predictions predictions ->
   exists rep,
     CotEvalFetaqa.evaluate_all_fetaqa repr chat_completion predictions
       gold_data model = Ok rep) /\
  (csv_gold gold_data -> text_predictions predictions -> gold_data <> [] ->
   (forall idx g, In (idx, JDict g) gold_data -> scorable g = true) ->
   (exists rep,
      EvaluateLotnlg.evaluate_lotnlg repr lower nli_model rouge_score
        sentence_bleu predictions gold_data = Ok rep) /\
   (exists rep,
      EvaluateLogicnlg.evaluate_lotnlg repr lower nli_model rouge_score
        sentence_bleu predictions gold_data = Ok rep)) /\
  (feta_gold gold_data -> text_predictions predictions ->
   (forall idx g, In (idx, JDict g) gold_data ->
      dict_mem g (lit "answer") = true) ->
   exists rep,
     EvaluateFetaqa.evaluate_fetaqa repr rouge_scores sentence_bleu
       predictions gold_data = Ok rep).
Proof.
  repeat apply conj.
  - intros Hg Ht. unfold CotEval.evaluate_all.
    destruct (index_raw_total _ _ Hg) as [index Ei]. rewrite Ei. cbn [bind].
    destruct (for_items_total (CotEval.step repr chat_completion index model)
                predictions) with (s := Judge.init) as [st ->];
      [|cbn [bind]; now eexists].
    intros s k v HI. unfold CotEval.step, CotEval.matched.
    destruct (index_find index k) as [g|] eqn:Ef; [|now eexists].
    destruct (last_with_in _ _ _ _ (raw_index_in _ _ _ _ _ Ei Ef)) as [idx Hin].
    destruct (dict_mem_index _ _ (Ht idx g Hin)) as [t ->]. now eexists.
  - intros Hg Hp. unfold CotEvalLotnlg.evaluate_all_lotnlg.
    destruct (index_raw_total _ _ Hg) as [index Ei]. rewrite Ei. cbn [bind].
    destruct (for_items_total
                (CotEvalLotnlg.step repr chat_completion index model)
                predictions) with (s := Judge.init) as [st ->];
      [|cbn [bind]; now eexists].
    intros s k v HI. unfold CotEvalLotnlg.step, CotEvalLotnlg.matched.
    destruct (index_find index k) as [g|]; [|now eexists].
    destruct (textual_text repr v (Hp k v HI)) as [t ->]. now eexists.
  - intros Hg Hp. unfold CotEvalFetaqa.evaluate_all_fetaqa.
    destruct (index_str_total repr (lit "feta_id") _ Hg) as [index Ei]. rewrite Ei. cbn [bind].
    destruct (for_items_total
                (CotEvalFetaqa.step repr chat_completion index model)
                predictions) with (s := Judge.init) as [st ->];
      [|cbn [bind]; now eexists].
    intros s k v HI. unfold CotEvalFetaqa.step, CotEvalFetaqa.matched.
    destruct (index_find index k) as [g|]; [|now eexists].
    destruct (textual_text repr v (Hp k v HI)) as [t ->]. now eexists.
  - intros Hg Hp Hne Hs.
    destruct (index_raw_total _ _ Hg) as [index Ei].
    destruct (first_value_total _ Hne) as [sample Es].
    split.
    + unfold EvaluateLotnlg.evaluate_lotnlg. rewrite Ei, Es. cbn [bind].
      match goal with
      | |- context [for_items ?b predictions ?s0] =>
          destruct (for_items_total b predictions) with (s := s0) as [st ->];
            [|cbn [bind]; now eexists]
      end.
      intros s k v HI. unfold EvaluateLotnlg.step, EvaluateLotnlg.matched.
      destruct (index_find index k) as [g|] eqn:Ef; [|now eexists].
      destruct (last_with_in _ _ _ _ (raw_index_in _ _ _ _ _ Ei Ef)) as [idx Hin].
      destruct (textual_text repr v (Hp k v HI)) as [t ->].
      destruct (scorable_fields repr g (Hs idx g Hin))
        as (tb & ss & x & -> & -> & Ex).
      cbn [bind]. rewrite Ex. now eexists.
    + unfold EvaluateLogicnlg.evaluate_lotnlg. rewrite Ei, Es. cbn [bind].
      match goal with
      | |- context [for_items ?b predictions ?s0] =>
          destruct (for_items_total b predictions) with (s := s0) as [st ->];
            [|cbn [bind]; now eexists]
      end.
      intros s k v HI. unfold EvaluateLogicnlg.step, EvaluateLogicnlg.matched.
      destruct (index_find index k) as [g|] eqn:Ef; [|now eexists].
      destruct (last_with_in _ _ _ _ (raw_index_in _ _ _ _ _ Ei Ef)) as [idx Hin].
      destruct (textual_text repr v (Hp k v HI)) as [t ->].
      destruct (scorable_fields repr g (Hs idx g Hin))
        as (tb & ss & x & -> & -> & Ex).
      cbn [bind]. rewrite Ex. now eexists.
  - intros Hg Hp Ha. unfold EvaluateFetaqa.evaluate_fetaqa.
    destruct (index_str_total repr (lit "feta_id") _ Hg) as [index Ei]. rewrite Ei. cbn [bind].
    match goal with
    | |- context [for_items ?b predictions ?s0] =>
        destruct (for_items_total b predictions) with (s := s0) as [st ->];
          [|cbn [bind]; now eexists]
    end.
    intros s k v HI. unfold EvaluateFetaqa.step, EvaluateFetaqa.matched.
    destruct (index_find index k) as [g|] eqn:Ef; [|now eexists].
    destruct (last_with_in _ _ _ _ (str_index_in _ _ _ _ _ _ Ei Ef)) as [idx Hin].
    destruct (textual_text repr v (Hp k v HI)) as [t ->].
    destruct (dict_mem_index _ _ (Ha idx g Hin)) as [a ->]. now eexists.
Qed.

End Returns.

Lemma runs_return_witness :
  exists rep,
    EvaluateLotnlg.evaluate_lotnlg Sample.repr Sample.lower Sample.nli_entails
      Sample.rouge_half Sample.bleu_quarter Sample.predictions_ab Sample.gold_a
    = Ok rep.
Proof.
  refine (proj1 (proj1 (proj2 (proj2 (proj2
            (runs_return Sample.repr Sample.lower Sample.nli_entails
               Sample.rouge_half (fun _ _ => Raise ExternalError)
               Sample.bleu_quarter Sample.chat_fails Sample.predictions_ab
               Sample.gold_a Sample.model)))) _ _ _ _)).
  - intros idx v [[= _ <-]|[]]. reflexivity.
  - intros k v [[= _ <-]|[[= _ <-]|[]]]; reflexivity.
  - discriminate.
  - intros idx g [[= _ <-]|[]]. reflexivity.
Defined.

(** ** The shape of a cleaned text *)

(** X14. The normalizer never makes a text longer. *)
Theorem clean_never_longer (y : pystr) :
  List.length (clean_prediction_text y) <= List.length y.
Proof.
  destruct (unmatched y) eqn:E.
  - rewrite (clean_unmatched y E). apply collapse_length.
  - apply Nat.lt_le_incl. now apply clean_shrinks.
Qed.

(** X15. A cleaned text is a sequence of words, each without whitespace and
    not empty, with one space between two words: it has no whitespace at
    either end, no two whitespace characters in a row and no whitespace
    other than the space, and [split] gives its words back. *)
Theorem clean_output_words (x : pystr) :
  exists ws,
    Forall word ws /\
    clean_prediction_text x = join space ws /\
    split (clean_prediction_text x) = ws.
Proof.
  destruct (clean_is_collapsed x) as [z E]. exists (split z).
  split; [apply split_words|]. split; [exact E|].
  rewrite E. apply split_join. apply split_words.
Qed.

(** ** The two scripts for LogicNLG and LoTNLG *)

Lemma for_items_ext {S : Type} (b1 b2 : S -> pystr -> json -> result S)
    (items : dict) :
  (forall s k v, In (k, v) items -> b1 s k v = b2 s k v) ->
  forall s, for_items b1 items s = for_items b2 items s.
Proof.
  induction items as [|[k v] items IH]; intros H s; [reflexivity|].
  cbn [for_items]. rewrite (H s k v (or_introl eq_refl)).
  destruct (b2 s k v); [|reflexivity].
  apply IH. intros s0 k0 v0 HI. exact (H s0 k0 v0 (or_intror HI)).
Qed.

Section Agree.

Variable repr : json -> pystr.
Variable lower : pystr -> pystr.
Variable nli_model : pystr -> result pystr.
Variable rouge_score : json -> pystr -> result Q.
Variable sentence_bleu : list (list pystr) -> list pystr -> result Q.

(** X16. On a gold file whose first record has no [logical_labels], and
    predictions whose text the normalizer leaves as it is,
    evaluate_lotnlg.py and evaluate_logicnlg.py give the same outcome. *)
Theorem lexical_scripts_agree (predictions gold_data : dict) :
  (forall sample, Lexical.first_value gold_data = Ok sample ->
     Lexical.has_key (lit "logical_labels") sample = false) ->
  (forall k v t, In (k, v) predictions -> prediction_text repr v = Ok t ->
     clean_prediction_text t = t) ->
  EvaluateLotnlg.evaluate_lotnlg repr lower nli_model rouge_score sentence_bleu
    predictions gold_data
  = EvaluateLogicnlg.evaluate_lotnlg repr lower nli_model rouge_score
      sentence_bleu predictions gold_data.
Proof.
  intros Hl Hc.
  unfold EvaluateLotnlg.evaluate_lotnlg, EvaluateLogicnlg.evaluate_lotnlg.
  destruct (for_items (index_raw (lit "csv_id")) gold_data []) as [index|];
    [|reflexivity]. cbn [bind].
  destruct (Lexical.first_value gold_data) as [sample|] eqn:Es; [|reflexivity].
  cbn [bind]. rewrite (Hl sample eq_refl).
  rewrite (for_items_ext
             (EvaluateLotnlg.step repr lower nli_model rouge_score
                sentence_bleu false index)
             (EvaluateLogicnlg.step repr lower nli_model rouge_score
                sentence_bleu false index)); [reflexivity|].
  intros s k v HI.
  unfold EvaluateLotnlg.step, EvaluateLogicnlg.step.
  unfold EvaluateLotnlg.matched, EvaluateLogicnlg.matched.
  destruct (index_find index k) as [g|]; [|reflexivity].
  destruct (prediction_text repr v) as [t|] eqn:Et; [|reflexivity].
  cbn [bind]. rewrite (Hc k v t HI Et). reflexivity.
Qed.

End Agree.

Lemma lexical_scripts_agree_witness :
  EvaluateLotnlg.evaluate_lotnlg Sample.repr Sample.lower Sample.nli_entails
    Sample.rouge_half Sample.bleu_quarter Sample.predictions_ab Sample.gold_a
  = EvaluateLogicnlg.evaluate_lotnlg Sample.repr Sample.lower Sample.nli_entails
      Sample.rouge_half Sample.bleu_quarter Sample.predictions_ab Sample.gold_a.
Proof.
  apply lexical_scripts_agree.
  - intros sample [= <-]. reflexivity.
  - intros k v t [[= <- <-]|[[= <- <-]|[]]] [= <-]; reflexivity.
Defined.

(** ** The names of the metrics *)

Lemma finalize_keys (m : Lexical.metrics) (n : nat) :
  map fst (Lexical.finalize m n) = map fst m.
Proof.
  unfold Lexical.finalize. destruct (0 <? n); [|reflexivity].
  rewrite map_map. reflexivity.
Qed.

Lemma lexical_loop_keys
    (matched : pystr -> json -> result (option (Lexical.Try unit)))
    (m0 : Lexical.metrics) :
  (forall k v block, matched k v = Ok (Some block) -> uniform block) ->
  forall items st st',
    for_items (fun st k v => bind (matched k v)
                               (fun pair => Ok (Lexical.settle st pair)))
      items st = Ok st' ->
    same_keys m0 (results st) -> same_keys m0 (results st').
Proof.
  intros Hu. induction items as [|[k v] items IH]; intros st st' Hrun Hk.
  - simpl in Hrun. now injection Hrun as <-.
  - cbn [for_items] in Hrun.
    destruct (matched k v) as [pair|e] eqn:E; [|discriminate Hrun].
    cbn [bind] in Hrun. apply (IH _ _ Hrun).
    destruct pair as [block|]; [|exact Hk]. cbn [settle].
    exact (proj1 (try_score_counts _ st block (Hu k v block E) Hk)).
Qed.

Lemma lexical_loop_total
    (matched : pystr -> json -> result (option (Lexical.Try unit)))
    (m0 : Lexical.metrics) :
  (forall k v block, matched k v = Ok (Some block) -> uniform block) ->
  forall items st st',
    for_items (fun st k v => bind (matched k v)
                               (fun pair => Ok (Lexical.settle st pair)))
      items st = Ok st' ->
    same_keys m0 (results st) ->
    total st'
    = total st
      + List.length
          (filter (fun kv => block_returns m0 (matched (fst kv) (snd kv))) items).
Proof.
  intros Hu. induction items as [|[k v] items IH]; intros st st' Hrun Hk.
  - simpl in Hrun. injection Hrun as <-. simpl. lia.
  - cbn [for_items] in Hrun. cbn [filter fst snd].
    destruct (matched k v) as [pair|e] eqn:E; [|discriminate Hrun].
    cbn [bind] in Hrun. destruct pair as [block|]; cbn [block_returns settle] in *.
    + pose proof (Hu k v block E) as Ub.
      destruct (try_score_counts _ st block Ub Hk) as [Hk' Hc].
      rewrite (IH _ _ Hrun Hk').
      destruct (snd (block m0)) as [[]|e] eqn:Eb.
      * destruct (Hc eq_refl) as [-> _]. cbn [List.length]. lia.
      * destruct (Ub m0 (results st) Hk) as [_ Es]. rewrite Eb in Es.
        unfold try_score. destruct (block (results st)) as [m r].
        cbn [snd] in Es. subst r. cbn [total]. lia.
    + rewrite (IH _ _ Hrun Hk). cbn [miss total]. lia.
Qed.

Lemma judge_loop_total (matched : pystr -> json -> result (option (result Z))) :
  forall items st st',
    for_items (fun st k v => bind (matched k v)
                               (fun pair => Ok (Judge.settle st pair)))
      items st = Ok st' ->
    Judge.total_count st'
    = Judge.total_count st
      + List.length
          (filter (fun kv => score_returns (matched (fst kv) (snd kv))) items).
Proof.
  induction items as [|[k v] items IH]; intros st st' Hrun.
  - simpl in Hrun. injection Hrun as <-. simpl. lia.
  - cbn [for_items] in Hrun. cbn [filter fst snd].
    destruct (matched k v) as [pair|e] eqn:E; [|discriminate Hrun].
    cbn [bind] in Hrun. rewrite (IH _ _ Hrun).
    destruct pair as [[s|e]|]; cbn [score_returns Judge.settle Judge.try_count
      Judge.count Judge.miss Judge.total_count List.length]; lia.
Qed.

Section Uniform.

Variable repr : json -> pystr.
Variable lower : pystr -> pystr.
Variable nli_model : pystr -> result pystr.
Variable rouge_score : json -> pystr -> result Q.
Variable rouge_scores : json -> pystr -> result EvaluateFetaqa.rouge_scores.
Variable sentence_bleu : list (list pystr) -> list pystr -> result Q.

Lemma logicnlg_matched_uniform (has : bool) (index : gold_index) (k : pystr)
    (v : json) (block : Try unit) :
  EvaluateLogicnlg.matched repr lower nli_model rouge_score sentence_bleu has
    index k v = Ok (Some block) ->
  uniform block.
Proof.
  unfold EvaluateLogicnlg.matched.
  destruct (index_find index k) as [g|]; [|discriminate].
  destruct (prediction_text repr v); [|discriminate]. cbn [bind].
  destruct (dict_index g (lit "table_text")); [|discriminate]. cbn [bind].
  destruct (dict_index g (lit "sentences")); [|discriminate]. cbn [bind].
  destruct (first_or_str repr a1); [|discriminate]. cbn [bind].
  intros [= <-].
  unfold EvaluateLogicnlg.score_example, EvaluateLogicnlg.score_type.
  uniform_block.
Qed.

Lemma fetaqa_matched_uniform (index : gold_index) (k : pystr)
    (v : json) (block : Try unit) :
  EvaluateFetaqa.matched repr rouge_scores sentence_bleu index k v
  = Ok (Some block) ->
  uniform block.
Proof.
  unfold EvaluateFetaqa.matched.
  destruct (index_find index k) as [g|]; [|discriminate].
  destruct (prediction_text repr v); [|discriminate]. cbn [bind].
  destruct (dict_index g (lit "answer")); [|discriminate]. cbn [bind].
  intros [= <-]. unfold EvaluateFetaqa.score_example. uniform_block.
Qed.

End Uniform.

Section Reports.

Variable repr : json -> pystr.
Variable lower : pystr -> pystr.
Variable nli_model : pystr -> result pystr.
Variable rouge_score : json -> pystr -> result Q.
Variable rouge_scores : json -> pystr -> result EvaluateFetaqa.rouge_scores.
Variable sentence_bleu : list (list pystr) -> list pystr -> result Q.
Variable chat_completion : pystr -> pystr -> result pystr.

Ltac run_to_loop Hrun :=
  repeat match type of Hrun with
         | bind ?r _ = Ok _ =>
             let x := fresh "x" in
             let E := fresh "E" in
             destruct r as [x|] eqn:E; [cbn [bind] in Hrun|discriminate Hrun]
         end.

(** X17. The metrics of a report have fixed names, whatever was scored:
    [nli_acc], [rouge_l] and [bleu] in the two LogicNLG/LoTNLG scripts,
    followed by [type_em] exactly when the first record of the gold file
    has [logical_labels], which is also what [has_type_em] says; and
    [rouge1], [rouge2], [rougeL] and [bleu] in evaluate_fetaqa.py. *)
Theorem report_metric_names (predictions gold_data : dict) (rep : report) :
  (EvaluateLotnlg.evaluate_lotnlg repr lower nli_model rouge_score
     sentence_bleu predictions gold_data = Ok rep \/
   EvaluateLogicnlg.evaluate_lotnlg repr lower nli_model rouge_score
     sentence_bleu predictions gold_data = Ok rep ->
   map fst (r_metrics rep)
   = [lit "nli_acc"; lit "rouge_l"; lit "bleu"]
     ++ (if r_has_type_em rep then [lit "type_em"] else []) /\
   exists idx sample rest,
     gold_data = (idx, sample) :: rest /\
     r_has_type_em rep = has_key (lit "logical_labels") sample) /\
  (EvaluateFetaqa.evaluate_fetaqa repr rouge_scores sentence_bleu predictions
     gold_data = Ok rep ->
   map fst (r_metrics rep)
   = [lit "rouge1"; lit "rouge2"; lit "rougeL"; lit "bleu"]).
Proof.
  assert (Hfirst : forall sample, first_value gold_data = Ok sample ->
            exists idx s rest, gold_data = (idx, s) :: rest /\ s = sample).
  { destruct gold_data as [|[i s] rest]; [discriminate|].
    intros sample [= <-]. now exists i, s, rest. }
  split.
  - intros [Hrun|Hrun].
    + unfold EvaluateLotnlg.evaluate_lotnlg in Hrun. run_to_loop Hrun.
      injection Hrun as <-.
      cbn [summary r_metrics r_has_type_em]. rewrite finalize_keys.
      pose proof (lexical_loop_keys _ _
                    (lotnlg_matched_uniform repr lower nli_model rouge_score
                       sentence_bleu _ x)
                    predictions _ x1 E1 eq_refl) as K.
      unfold same_keys in K. rewrite <- K. split.
      * destruct (has_key _ x0); reflexivity.
      * destruct (Hfirst _ eq_refl) as (i & s & rest & Eg & ->).
        now exists i, x0, rest.
    + unfold EvaluateLogicnlg.evaluate_lotnlg in Hrun. run_to_loop Hrun.
      injection Hrun as <-.
      cbn [summary r_metrics r_has_type_em]. rewrite finalize_keys.
      pose proof (lexical_loop_keys _ _
                    (logicnlg_matched_uniform repr lower nli_model rouge_score
                       sentence_bleu _ x)
                    predictions _ x1 E1 eq_refl) as K.
      unfold same_keys in K. rewrite <- K. split.
      * destruct (has_key _ x0); reflexivity.
      * destruct (Hfirst _ eq_refl) as (i & s & rest & Eg & ->).
        now exists i, x0, rest.
  - intros Hrun. unfold EvaluateFetaqa.evaluate_fetaqa in Hrun. run_to_loop Hrun.
    injection Hrun as <-. cbn [summary r_metrics]. rewrite finalize_keys.
    pose proof (lexical_loop_keys _ _
                  (fetaqa_matched_uniform repr rouge_scores sentence_bleu x)
                  predictions _ x0 E0 eq_refl) as K.
    unfold same_keys in K. rewrite <- K. reflexivity.
Qed.

End Reports.

Lemma report_metric_names_witness :
  exists rep,
    EvaluateLotnlg.evaluate_lotnlg Sample.repr Sample.lower Sample.nli_entails
      Sample.rouge_half Sample.bleu_quarter Sample.predictions_d Sample.gold_d
    = Ok rep /\
    map fst (r_metrics rep)
    = [lit "nli_acc"; lit "rouge_l"; lit "bleu"; lit "type_em"].
Proof.
  eexists. split; [vm_compute; reflexivity|].
  exact (proj1 (proj1 (report_metric_names Sample.repr Sample.lower
                         Sample.nli_entails Sample.rouge_half
                         (fun _ _ => Raise ExternalError) Sample.bleu_quarter
                         Sample.predictions_d Sample.gold_d _)
                  (or_introl eq_refl))).
Defined.

(** ** Integer identifiers in the FeTaQA index *)

Lemma lit_inj (s s' : string) : lit s = lit s' -> s = s'.
Proof.
  unfold lit. intros H.
  rewrite <- (string_of_list_ascii_of_string s),
          <- (string_of_list_ascii_of_string s').
  f_equal. revert H. generalize (list_ascii_of_string s').
  induction (list_ascii_of_string s) as [|a l IH]; intros [|a' l'] H;
    try discriminate H; [reflexivity|].
  cbn [map] in H. injection H as Ha Hl. f_equal; [|exact (IH _ Hl)].
  rewrite <- (ascii_N_embedding a), <- (ascii_N_embedding a'). now f_equal.
Qed.

Lemma to_int_not_nil (z : Z) :
  Z.to_int z <> Decimal.Pos Decimal.Nil /\ Z.to_int z <> Decimal.Neg Decimal.Nil.
Proof.
  destruct z as [|p|p]; cbn [Z.to_int]; split; try discriminate;
    intros [= H]; exact (DecimalPos.Unsigned.to_uint_nonnil p H).
Qed.

Lemma str_of_int_inj (z z' : Z) : str_of_int z = str_of_int z' -> z = z'.
Proof.
  unfold str_of_int. intros H. apply lit_inj in H.
  apply DecimalZ.to_int_inj.
  destruct (to_int_not_nil z) as [A B], (to_int_not_nil z') as [A' B'].
  pose proof (NilZero.isi _ A B) as E. rewrite H in E.
  rewrite (NilZero.isi _ A' B') in E. now injection E.
Qed.

(** X19. In the two FeTaQA scripts, on a gold file whose identifiers are
    integers, the decimal text of an integer finds a record with that
    very identifier, which is not 0: two records with different
    identifiers never stand in each other's way, and the identifier 0
    is never matched. *)
Theorem feta_integer_ids (repr : json -> pystr) (gold_data : dict)
    (index : gold_index) (z : Z) (g : dict) :
  for_items (index_str repr (lit "feta_id")) gold_data [] = Ok index ->
  (forall idx g', In (idx, JDict g') gold_data ->
     exists z', dict_get g' (lit "feta_id") JNull = JInt z') ->
  index_find index (str_of_int z) = Some g ->
  dict_get g (lit "feta_id") JNull = JInt z /\ z <> 0%Z.
Proof.
  intros Hi Hint Hf.
  pose proof (str_index_in _ _ _ _ _ _ Hi Hf) as Hl.
  destruct (last_with_in _ _ _ _ Hl) as [idx HI].
  destruct (Hint idx g HI) as [z' Ez].
  destruct Hl as (_ & _ & _ & _ & Hk & _). unfold str_key in Hk.
  rewrite Ez in Hk. cbn [truthy py_str] in Hk.
  destruct (Z.eqb z' 0) eqn:E0; [discriminate Hk|]. cbn [negb] in Hk.
  injection Hk as Hk. apply str_of_int_inj in Hk. subst z'.
  split; [exact Ez|]. now apply Z.eqb_neq.
Qed.

Lemma feta_integer_ids_witness :
  exists g index,
    for_items (index_str Sample.repr (lit "feta_id")) Sample.gold_q [] = Ok index /\
    index_find index (lit "7") = Some g /\
    dict_get g (lit "feta_id") JNull = JInt 7 /\ 7%Z <> 0%Z.
Proof.
  eexists. eexists. split; [reflexivity|]. split; [reflexivity|].
  apply (feta_integer_ids Sample.repr Sample.gold_q _ 7%Z _ eq_refl).
  - intros idx g' [[= _ <-]|[]]. now exists 7%Z.
  - reflexivity.
Defined.

(** ** Predictions that are lists *)

Lemma not_textual_raises (repr : json -> pystr) (v : json) :
  textual v = false -> prediction_text repr v = Raise TypeError.
Proof.
  destruct v as [| | | | |l|]; try discriminate.
  cbn [textual prediction_text]. unfold join_json. intros H.
  assert (K : as_strs l = Raise TypeError).
  { induction l as [|x l IH]; [discriminate H|]. cbn [forallb] in H.
    destruct x; try reflexivity. cbn [andb] in H. cbn [as_strs].
    now rewrite (IH H). }
  now rewrite K.
Qed.

Lemma carried_hit (key_of : dict -> option pystr) (gold_data : dict)
    (index : gold_index) (key : pystr) :
  (index_find index key = None <-> carried key_of gold_data key = false) ->
  carried key_of gold_data key = true ->
  exists g, index_find index key = Some g.
Proof.
  intros H Hc. destruct (index_find index key) as [g|]; [now exists g|].
  destruct H as [H _]. rewrite (H eq_refl) in Hc. discriminate Hc.
Qed.

Section NonText.

Variable repr : json -> pystr.
Variable lower : pystr -> pystr.
Variable nli_model : pystr -> result pystr.
Variable rouge_score : json -> pystr -> result Q.
Variable rouge_scores : json -> pystr -> result EvaluateFetaqa.rouge_scores.
Variable sentence_bleu : list (list pystr) -> list pystr -> result Q.
Variable chat_completion : pystr -> pystr -> result pystr.

Ltac run_to_loop Hrun :=
  repeat match type of Hrun with
         | bind ?r _ = Ok _ =>
             let x := fresh "x" in
             let E := fresh "E" in
             destruct r as [x|] eqn:E; [cbn [bind] in Hrun|discriminate Hrun]
         end.

(** X20. A prediction that is a list with an element that is not text
    cannot be joined, and the join stands before the [try]: in the five
    scripts that join lists, such a prediction ends the run without a
    report as soon as its key has a gold record, whatever the other
    predictions are.  (cot_eval.py never joins.) *)
Theorem non_text_prediction_no_report (predictions gold_data : dict)
    (model k : pystr) (v : json) :
  In (k, v) predictions -> textual v = false ->
   (carried (raw_key (lit "csv_id")) gold_data k = true ->
    forall lrep jrep,
      EvaluateLotnlg.evaluate_lotnlg repr lower nli_model rouge_score
        sentence_bleu predictions gold_data <> Ok lrep /\
      EvaluateLogicnlg.evaluate_lotnlg repr lower nli_model rouge_score
        sentence_bleu predictions gold_data <> Ok lrep /\
      CotEvalLotnlg.evaluate_all_lotnlg repr chat_completion predictions
        gold_data model <> Ok jrep) /\
   (carried (str_key repr (lit "feta_id")) gold_data k = true ->
    forall lrep jrep,
      EvaluateFetaqa.evaluate_fetaqa repr rouge_scores sentence_bleu
        predictions gold_data <> Ok lrep /\
      CotEvalFetaqa.evaluate_all_fetaqa repr chat_completion predictions
        gold_data model <> Ok jrep).
Proof.
  intros HI Hv. pose proof (not_textual_raises repr v Hv) as Hp.
  split; intros Hc lrep jrep; repeat apply conj; intros Hrun.
  - unfold EvaluateLotnlg.evaluate_lotnlg in Hrun. run_to_loop Hrun.
    destruct (carried_hit _ _ _ _ (raw_index_miss _ _ _ E k) Hc) as [g Eg].
    destruct (for_items_ok_inv _ _ _ _ E1 k v HI) as (s0 & s1 & Hs).
    unfold EvaluateLotnlg.step, EvaluateLotnlg.matched in Hs.
    rewrite Eg, Hp in Hs. discriminate Hs.
  - unfold EvaluateLogicnlg.evaluate_lotnlg in Hrun. run_to_loop Hrun.
    destruct (carried_hit _ _ _ _ (raw_index_miss _ _ _ E k) Hc) as [g Eg].
    destruct (for_items_ok_inv _ _ _ _ E1 k v HI) as (s0 & s1 & Hs).
    unfold EvaluateLogicnlg.step, EvaluateLogicnlg.matched in Hs.
    rewrite Eg, Hp in Hs. discriminate Hs.
  - unfold CotEvalLotnlg.evaluate_all_lotnlg in Hrun. run_to_loop Hrun.
    destruct (carried_hit _ _ _ _ (raw_index_miss _ _ _ E k) Hc) as [g Eg].
    destruct (for_items_ok_inv _ _ _ _ E0 k v HI) as (s0 & s1 & Hs).
    unfold CotEvalLotnlg.step, CotEvalLotnlg.matched in Hs.
    rewrite Eg, Hp in Hs. discriminate Hs.
  - unfold EvaluateFetaqa.evaluate_fetaqa in Hrun. run_to_loop Hrun.
    destruct (carried_hit _ _ _ _ (str_index_miss _ _ _ _ E k) Hc) as [g Eg].
    destruct (for_items_ok_inv _ _ _ _ E0 k v HI) as (s0 & s1 & Hs).
    unfold EvaluateFetaqa.step, EvaluateFetaqa.matched in Hs.
    rewrite Eg, Hp in Hs. discriminate Hs.
  - unfold CotEvalFetaqa.evaluate_all_fetaqa in Hrun. run_to_loop Hrun.
    destruct (carried_hit _ _ _ _ (str_index_miss _ _ _ _ E k) Hc) as [g Eg].
    destruct (for_items_ok_inv _ _ _ _ E0 k v HI) as (s0 & s1 & Hs).
    unfold CotEvalFetaqa.step, CotEvalFetaqa.matched in Hs.
    rewrite Eg, Hp in Hs. discriminate Hs.
Qed.

End NonText.

Lemma non_text_prediction_no_report_witness :
  ~ (exists rep,
       CotEvalLotnlg.evaluate_all_lotnlg Sample.repr Sample.chat_fails
         [(lit "t1", JList [JInt 1])] Sample.gold_a Sample.model = Ok rep).
Proof.
  intros [rep Hrun].
  exact (proj2 (proj2
           (proj1 (non_text_prediction_no_report Sample.repr Sample.lower
                     Sample.nli_entails Sample.rouge_half
                     (fun _ _ => Raise ExternalError) Sample.bleu_quarter
                     Sample.chat_fails [(lit "t1", JList [JInt 1])]
                     Sample.gold_a Sample.model (lit "t1") (JList [JInt 1])
                     (or_introl eq_refl) eq_refl)
              eq_refl (MkReport [] 0 0 false) rep)) Hrun).
Defined.

(** ** The keyword loop *)

(** X21. The type the keyword loop gives: the first type of the taxonomy,
    in its order, one of whose keywords is a substring of the text, and
    [surface-level] exactly when no keyword of any type is. *)
Theorem infer_type_spec (type_keywords : list (pystr * list pystr))
    (text : pystr) :
  (infer_type type_keywords text = lit "surface-level" /\
   forall name kws kw,
     In (name, kws) type_keywords -> In kw kws -> ~ Substring kw text) \/
  (exists pre name kws post kw,
     type_keywords = pre ++ (name, kws) :: post /\
     infer_type type_keywords text = name /\
     In kw kws /\ Substring kw text /\
     forall name' kws' kw',
       In (name', kws') pre -> In kw' kws' -> ~ Substring kw' text).
Proof.
  unfold infer_type.
  induction type_keywords as [|[name kws] tk IH]; cbn [find snd fst].
  - left. split; [reflexivity|]. intros ? ? ? [].
  - destruct (existsb (fun kw => contains kw text) kws) eqn:E.
    + right. apply existsb_exists in E as (kw & Hin & Hc).
      exists [], name, kws, tk, kw. repeat split; try assumption.
      * now apply contains_spec.
      * intros ? ? ? [].
    + assert (Hno : forall kw, In kw kws -> ~ Substring kw text).
      { intros kw Hin Hs. apply contains_spec in Hs.
        assert (K : existsb (fun kw => contains kw text) kws = true)
          by (apply existsb_exists; now exists kw).
        rewrite K in E. discriminate E. }
      destruct IH as [[E0 Hn]|(pre & n & ks & post & kw & -> & E0 & Hin & Hs & Hp)].
      * left. split; [exact E0|].
        intros n ks kw [[= <- <-]|HI] Hin; [now apply Hno|exact (Hn _ _ _ HI Hin)].
      * right. exists ((name, kws) :: pre), n, ks, post, kw.
        repeat split; try assumption.
        intros n' ks' kw' [[= <- <-]|HI] Hin'; [now apply Hno|].
        exact (Hp _ _ _ HI Hin').
Qed.

(** ** Truncated inputs *)

Lemma up_to_short {A : Type} (n : nat) (f : pystr -> result A) (input : pystr) :
  List.length input <= n -> up_to n f input = f input.
Proof.
  intros H. unfold up_to. apply Nat.leb_le in H. now rewrite H.
Qed.

Lemma tbind_lift_ok {A B : Type} (a : A) (k : A -> Try B) :
  tbind (lift (Ok a)) k = k a.
Proof. reflexivity. Qed.

Lemma tbind_lift_raise {A B : Type} (e : exn) (k : A -> Try B) :
  tbind (lift (Raise e)) k = lift (Raise e).
Proof. reflexivity. Qed.

Lemma nli_input_length (s p : pystr) :
  List.length (slice_to 1000 s ++ lit " [SEP] " ++ slice_to 500 p) <= 1507.
Proof.
  rewrite !length_app. unfold slice_to.
  pose proof (firstn_le_length 1000 s). pose proof (firstn_le_length 500 p).
  change (List.length (lit " [SEP] ")) with 7. lia.
Qed.

Lemma lotnlg_prompt_length (t s : pystr) :
  List.length (CotEvalLotnlg.COT_EVAL_PROMPT_LOTNLG t s)
  = 529 + List.length t + List.length s.
Proof.
  assert (E : List.length (CotEvalLotnlg.COT_EVAL_PROMPT_LOTNLG t s)
              = List.length (CotEvalLotnlg.COT_EVAL_PROMPT_LOTNLG [] [])
                + List.length t + List.length s).
  { unfold CotEvalLotnlg.COT_EVAL_PROMPT_LOTNLG. rewrite !length_app.
    cbn [List.length]. lia. }
  rewrite E. reflexivity.
Qed.

Lemma text_table_get (gold_data : dict) (idx : pystr) (g : dict) (t : json) :
  text_tables gold_data -> In (idx, JDict g) gold_data ->
  dict_find g (lit "table_text") = Some t -> is_list t = false.
Proof.
  intros H HI E. specialize (H idx g HI). unfold dict_get in H.
  now rewrite E in H.
Qed.

Section Truncation.

Variable repr : json -> pystr.
Variable lower : pystr -> pystr.
Variable nli_model : pystr -> result pystr.
Variable rouge_score : json -> pystr -> result Q.
Variable sentence_bleu : list (list pystr) -> list pystr -> result Q.
Variable chat_completion : pystr -> pystr -> result pystr.

Lemma lotnlg_block_short (has : bool) (g : dict) (t x : json) (p c : pystr) :
  is_list t = false ->
  EvaluateLotnlg.score_example repr lower (up_to 1507 nli_model) rouge_score
    sentence_bleu has g t x p c
  = EvaluateLotnlg.score_example repr lower nli_model rouge_score
      sentence_bleu has g t x p c.
Proof.
  intros Ht. unfold EvaluateLotnlg.score_example.
  destruct t as [| | | |s| |]; try discriminate Ht; cbn [py_slice_to];
    rewrite ?tbind_lift_raise; try reflexivity.
  rewrite !tbind_lift_ok. cbv beta zeta. cbn [py_str].
  now rewrite (up_to_short _ _ _ (nli_input_length s p)).
Qed.

Lemma logicnlg_block_short (has : bool) (g : dict) (t x : json) (p : pystr) :
  is_list t = false ->
  EvaluateLogicnlg.score_example repr lower (up_to 1507 nli_model) rouge_score
    sentence_bleu has g t x p
  = EvaluateLogicnlg.score_example repr lower nli_model rouge_score
      sentence_bleu has g t x p.
Proof.
  intros Ht. unfold EvaluateLogicnlg.score_example.
  destruct t as [| | | |s| |]; try discriminate Ht; cbn [py_slice_to];
    rewrite ?tbind_lift_raise; try reflexivity.
  rewrite !tbind_lift_ok. cbv beta zeta. cbn [py_str].
  now rewrite (up_to_short _ _ _ (nli_input_length s p)).
Qed.

Lemma judge_scored_short (t : json) (p model : pystr) :
  is_list t = false ->
  (table_text_trunc <- py_slice_to 1500 t ;;
   Ok (CotEvalLotnlg.evaluate_single_lotnlg repr
         (fun model => up_to 2829 (chat_completion model))
         table_text_trunc (slice_to 800 p) model))%result
  = (table_text_trunc <- py_slice_to 1500 t ;;
     Ok (CotEvalLotnlg.evaluate_single_lotnlg repr chat_completion
           table_text_trunc (slice_to 800 p) model))%result.
Proof.
  intros Ht. destruct t as [| | | |s| |]; try discriminate Ht; try reflexivity.
  cbn [py_slice_to bind]. unfold CotEvalLotnlg.evaluate_single_lotnlg.
  cbn [py_str]. rewrite up_to_short; [reflexivity|].
  rewrite lotnlg_prompt_length. unfold slice_to.
  pose proof (firstn_le_length 1500 s). pose proof (firstn_le_length 800 p).
  lia.
Qed.

(** X22. The truncation bounds the inputs of the models when no gold
    record has a list as its table text: the entailment model of the two
    LogicNLG/LoTNLG scripts is only called on inputs of 1507 characters
    at most, and the judge of cot_eval_lotnlg.py on prompts of 2829
    characters at most.  A run is the same with a model that is not
    defined on longer inputs. *)
Theorem truncation_bounds (predictions gold_data : dict) (model : pystr) :
  text_tables gold_data ->
  EvaluateLotnlg.evaluate_lotnlg repr lower (up_to 1507 nli_model) rouge_score
    sentence_bleu predictions gold_data
  = EvaluateLotnlg.evaluate_lotnlg repr lower nli_model rouge_score
      sentence_bleu predictions gold_data /\
  EvaluateLogicnlg.evaluate_lotnlg repr lower (up_to 1507 nli_model)
    rouge_score sentence_bleu predictions gold_data
  = EvaluateLogicnlg.evaluate_lotnlg repr lower nli_model rouge_score
      sentence_bleu predictions gold_data /\
  CotEvalLotnlg.evaluate_all_lotnlg repr
    (fun model => up_to 2829 (chat_completion model)) predictions gold_data
    model
  = CotEvalLotnlg.evaluate_all_lotnlg repr chat_completion predictions
      gold_data model.
Proof.
  intros Hg. repeat apply conj.
  - unfold EvaluateLotnlg.evaluate_lotnlg.
    destruct (for_items (index_raw (lit "csv_id")) gold_data []) as [index|]
      eqn:Ei; [|reflexivity]. cbn [bind].
    destruct (first_value gold_data) as [sample|]; [|reflexivity]. cbn [bind].
    match goal with
    | |- bind (for_items ?b1 _ _) _ = bind (for_items ?b2 _ _) _ =>
        rewrite (for_items_ext b1 b2); [reflexivity|]
    end.
    intros s k v HI. unfold EvaluateLotnlg.step, EvaluateLotnlg.matched.
    destruct (index_find index k) as [g|] eqn:Ef; [|reflexivity].
    destruct (last_with_in _ _ _ _ (raw_index_in _ _ _ _ _ Ei Ef)) as [idx Hin].
    destruct (prediction_text repr v) as [p|]; [|reflexivity]. cbn [bind].
    unfold dict_index at 1 3.
    destruct (dict_find g (lit "table_text")) as [t|] eqn:Et; [|reflexivity].
    cbn [bind].
    destruct (dict_index g (lit "sentences")) as [ss|]; [|reflexivity].
    cbn [bind].
    destruct (first_or_str repr ss) as [x|]; [|reflexivity]. cbn [bind].
    now rewrite (lotnlg_block_short _ g t x p _ (text_table_get _ _ _ _ Hg Hin Et)).
  - unfold EvaluateLogicnlg.evaluate_lotnlg.
    destruct (for_items (index_raw (lit "csv_id")) gold_data []) as [index|]
      eqn:Ei; [|reflexivity]. cbn [bind].
    destruct (first_value gold_data) as [sample|]; [|reflexivity]. cbn [bind].
    match goal with
    | |- bind (for_items ?b1 _ _) _ = bind (for_items ?b2 _ _) _ =>
        rewrite (for_items_ext b1 b2); [reflexivity|]
    end.
    intros s k v HI. unfold EvaluateLogicnlg.step, EvaluateLogicnlg.matched.
    destruct (index_find index k) as [g|] eqn:Ef; [|reflexivity].
    destruct (last_with_in _ _ _ _ (raw_index_in _ _ _ _ _ Ei Ef)) as [idx Hin].
    destruct (prediction_text repr v) as [p|]; [|reflexivity]. cbn [bind].
    unfold dict_index at 1 3.
    destruct (dict_find g (lit "table_text")) as [t|] eqn:Et; [|reflexivity].
    cbn [bind].
    destruct (dict_index g (lit "sentences")) as [ss|]; [|reflexivity].
    cbn [bind].
    destruct (first_or_str repr ss) as [x|]; [|reflexivity]. cbn [bind].
    now rewrite (logicnlg_block_short _ g t x p (text_table_get _ _ _ _ Hg Hin Et)).
  - unfold CotEvalLotnlg.evaluate_all_lotnlg.
    destruct (for_items (index_raw (lit "csv_id")) gold_data []) as [index|]
      eqn:Ei; [|reflexivity]. cbn [bind].
    match goal with
    | |- bind (for_items ?b1 _ _) _ = bind (for_items ?b2 _ _) _ =>
        rewrite (for_items_ext b1 b2); [reflexivity|]
    end.
    intros s k v HI. unfold CotEvalLotnlg.step, CotEvalLotnlg.matched.
    destruct (index_find index k) as [g|] eqn:Ef; [|reflexivity].
    destruct (last_with_in _ _ _ _ (raw_index_in _ _ _ _ _ Ei Ef)) as [idx Hin].
    destruct (prediction_text repr v) as [p|]; [|reflexivity]. cbn [bind].
    now rewrite (judge_scored_short _ p model (Hg idx g Hin)).
Qed.

End Truncation.

Lemma truncation_bounds_witness :
  CotEvalLotnlg.evaluate_all_lotnlg Sample.repr
    (fun model => up_to 2829 (Sample.chat_says FAITHFUL model))
    Sample.predictions_ab Sample.gold_a Sample.model
  = CotEvalLotnlg.evaluate_all_lotnlg Sample.repr (Sample.chat_says FAITHFUL)
      Sample.predictions_ab Sample.gold_a Sample.model.
Proof.
  refine (proj2 (proj2 (truncation_bounds Sample.repr Sample.lower
                          Sample.nli_entails Sample.rouge_half
                          Sample.bleu_quarter (Sample.chat_says FAITHFUL)
                          Sample.predictions_ab Sample.gold_a Sample.model _))).
  intros idx g [[= _ <-]|[]]. reflexivity.
Defined.

(** ** The claims of a text *)

Lemma span_stop (cls : char -> bool) (a b : pystr) (c : char) :
  cls c = false -> span cls (a ++ c :: b) = span cls a.
Proof.
  intros Hc. induction a as [|x a IH]; cbn [app span].
  - now rewrite Hc.
  - destruct (cls x); [now rewrite IH|reflexivity].
Qed.

Lemma span_all (cls : char -> bool) (a b : pystr) (c : char) :
  forallb cls a = true -> cls c = false ->
  span cls (a ++ c :: b) = List.length a.
Proof.
  intros Ha Hc. rewrite (span_app _ _ _ Ha). cbn [span]. rewrite Hc. lia.
Qed.

Lemma forallb_skipn {A : Type} (f : A -> bool) (k : nat) (l : list A) :
  forallb f l = true -> forallb f (skipn k l) = true.
Proof.
  revert l. induction k as [|k IH]; intros [|x l] H; try exact H.
  cbn [forallb] in H. apply andb_true_iff in H as [_ H]. cbn [skipn].
  now apply IH.
Qed.

Lemma skipn_app_le (k : nat) (a b : pystr) :
  k <= List.length a -> skipn k (a ++ b) = skipn k a ++ b.
Proof.
  intros H. rewrite skipn_app. replace (k - List.length a) with 0 by lia.
  reflexivity.
Qed.

Lemma digit_not_colon (c : char) : is_digit c = true -> is_not colon c = true.
Proof.
  intros H. unfold is_not. destruct (N.eqb c colon) eqn:E; [|reflexivity].
  apply N.eqb_eq in E. subst c. vm_compute in H. discriminate H.
Qed.

Lemma rmatch_chr (c : char) (r : regex) (s : pystr) (pos gs ge : nat) :
  rmatch (Chr c :: r) (c :: s) pos gs ge = rmatch r s (S pos) gs ge.
Proof. cbn [rmatch]. now rewrite N.eqb_refl. Qed.

Lemma rmatch_open (r : regex) (s : pystr) (pos gs ge : nat) :
  rmatch (GroupOpen :: r) s pos gs ge = rmatch r s pos pos ge.
Proof. reflexivity. Qed.

Lemma rmatch_close (r : regex) (s : pystr) (pos gs ge : nat) :
  rmatch (GroupClose :: r) s pos gs ge = rmatch r s pos gs pos.
Proof. reflexivity. Qed.

(** A repetition whose longest run is followed by a match of the rest
    takes that run. *)
Lemma rmatch_plus_greedy (cls : char -> bool) (r : regex) (s : pystr)
    (pos gs ge n : nat) (m : rmatch_result) :
  span cls s = S n ->
  rmatch r (skipn (S n) s) (pos + S n) gs ge = Some m ->
  rmatch (Plus cls :: r) s pos gs ge = Some m.
Proof.
  intros Hn Hm. cbn [rmatch]. rewrite Hn. now apply backtrack_first.
Qed.

Lemma rmatch_star_greedy (cls : char -> bool) (r : regex) (s : pystr)
    (pos gs ge : nat) (m : rmatch_result) :
  rmatch r (skipn (span cls s) s) (pos + span cls s) gs ge = Some m ->
  rmatch (Star cls :: r) s pos gs ge = Some m.
Proof.
  intros Hm. cbn [rmatch]. now apply backtrack_first.
Qed.

Lemma claim_match (c : claim) (rest : pystr) :
  claim_ok c = true ->
  exists m,
    match_here re_claim (claim_text c ++ rest) = Some m /\
    m_end m = List.length (claim_text c) /\
    group1 m (claim_text c ++ rest) = sentence c.
Proof.
  destruct c as [head gap body]. unfold claim_ok, claim_text, sentence.
  cbn [c_head c_gap c_body]. intros H.
  repeat (apply andb_true_iff in H as [H ?]).
  rename H into Hd, H0 into Hb, H1 into Hs, H2 into Hne, H3 into Hg, H4 into Hh.
  apply negb_true_iff in Hs.
  assert (Hbd : forallb (is_not dot) body = true).
  { rewrite forallb_forall in *. intros x Hx. specialize (Hb x Hx).
    now repeat (apply andb_true_iff in Hb as [Hb ?]). }
  destruct head as [|h head]; [discriminate Hd|]. cbn [starts_with_digit] in Hd.
  destruct body as [|b body]; [discriminate Hne|]. cbn [starts_with_space] in Hs.
  set (Y := gap ++ (b :: body) ++ dot :: rest).
  assert (E : (lit "Claim " ++ (h :: head) ++ colon :: gap ++ (b :: body) ++ [dot])
              ++ rest
              = lit "Claim " ++ (h :: head) ++ colon :: Y).
  { unfold Y. repeat first [progress cbn [app] | rewrite <- app_assoc].
    reflexivity. }
  rewrite E.
  pose proof (span_length is_digit head) as Ln.
  assert (En : span is_digit ((h :: head) ++ colon :: Y)
               = S (span is_digit head)).
  { rewrite (span_stop is_digit (h :: head) Y colon eq_refl). cbn [span].
    now rewrite Hd. }
  set (n := span is_digit head) in *.
  set (head2 := skipn (S n) (h :: head)).
  assert (Hh2 : forallb (is_not colon) head2 = true) by now apply forallb_skipn.
  assert (L2 : S n + List.length head2 = List.length (h :: head)).
  { unfold head2. rewrite length_skipn. cbn [List.length]. lia. }
  eexists. split; [|split].
  - unfold match_here, re_claim.
    change (chars "Claim ") with [Chr 67; Chr 108; Chr 97; Chr 105; Chr 109; Chr 32]%N.
    change (lit "Claim ") with [67; 108; 97; 105; 109; 32]%N.
    cbn [app]. rewrite !rmatch_chr.
    change (h :: head ++ colon :: Y) with ((h :: head) ++ colon :: Y).
    apply (rmatch_plus_greedy _ _ _ _ _ _ n); [exact En|].
    rewrite skipn_app_le by (cbn [List.length]; lia). fold head2.
    apply rmatch_star_greedy.
    rewrite (span_all (is_not colon) head2 Y colon Hh2 eq_refl).
    rewrite skipn_length_app, rmatch_chr. unfold Y.
    apply rmatch_star_greedy.
    change ((b :: body) ++ dot :: rest) with (b :: body ++ dot :: rest).
    rewrite (span_all is_space gap (body ++ dot :: rest) b Hg Hs).
    rewrite skipn_length_app, rmatch_open.
    change (b :: body ++ dot :: rest) with ((b :: body) ++ dot :: rest).
    apply (rmatch_plus_greedy _ _ _ _ _ _ (List.length body)).
    { exact (span_all (is_not dot) (b :: body) rest dot Hbd eq_refl). }
    change (S (List.length body)) with (List.length (b :: body)).
    rewrite skipn_length_app, rmatch_chr, rmatch_close. reflexivity.
  - cbn [m_end]. unfold Y. rewrite !length_app. cbn [List.length] in *.
    rewrite !length_app. cbn [List.length].
    change (List.length (lit "Claim ")) with 6. lia.
  - unfold group1. cbn [g_start g_end].
    set (pre := lit "Claim " ++ (h :: head) ++ colon :: gap).
    assert (Ep : lit "Claim " ++ (h :: head) ++ colon :: Y
                 = pre ++ ((b :: body) ++ [dot]) ++ rest).
    { unfold pre, Y. repeat first [progress cbn [app] | rewrite <- app_assoc].
      reflexivity. }
    assert (Lp : S (6 + S n + List.length head2) + List.length gap
                 = List.length pre).
    { unfold pre. rewrite !length_app. cbn [List.length] in *.
      change (List.length (lit "Claim ")) with 6. lia. }
    rewrite Ep, Lp, skipn_length_app.
    replace (S (List.length pre + List.length (b :: body)) - List.length pre)
      with (List.length ((b :: body) ++ [dot]))
      by (rewrite length_app; cbn [List.length]; lia).
    apply firstn_length_app.
Qed.

Lemma literal_prefix (w : pystr) (r : regex) :
  forall s pos gs ge m,
    rmatch (map Chr w ++ r) s pos gs ge = Some m -> startswith w s = true.
Proof.
  induction w as [|c w IH]; intros s pos gs ge m H; [reflexivity|].
  cbn [map app rmatch] in H. destruct s as [|x s]; [discriminate H|].
  cbn [startswith]. destruct (N.eqb x c) eqn:E; [|discriminate H].
  apply N.eqb_eq in E. subst x. rewrite N.eqb_refl. exact (IH _ _ _ _ _ H).
Qed.

Lemma claim_prefix (s : pystr) (m : rmatch_result) :
  match_here re_claim s = Some m -> startswith (lit "Claim ") s = true.
Proof. unfold match_here, re_claim, chars. apply literal_prefix. Qed.

(** [Claim ] does not start in a text and end in a claim after it. *)
Lemma no_straddle (x : char) (b rest : pystr) :
  claim_or_end rest ->
  startswith (lit "Claim ") (x :: b) = false ->
  startswith (lit "Claim ") ((x :: b) ++ rest) = false.
Proof.
  change (lit "Claim ") with [67; 108; 97; 105; 109; 32]%N.
  intros Hr H.
  destruct b as [|x2 [|x3 [|x4 [|x5 [|x6 b]]]]];
    cbn [startswith app] in *;
    repeat match goal with
           | |- context [N.eqb ?a ?v && _] =>
               destruct (N.eqb a v); cbn [andb] in *; try reflexivity
           end;
    try discriminate H;
    destruct Hr as [-> | [r ->]]; reflexivity.
Qed.

Lemma re_findall_from_skip (r : regex) (a rest : pystr) :
  re_findall_from r (a ++ rest) (List.length a) = re_findall_from r rest 0.
Proof.
  induction a as [|x a IH]; [|exact IH].
  cbn [app List.length]. destruct rest; reflexivity.
Qed.

Lemma re_findall_from_match (r : regex) (x : char) (body rest : pystr)
    (m : rmatch_result) :
  match_here r (x :: body ++ rest) = Some m ->
  m_end m = S (List.length body) ->
  re_findall_from r (x :: body ++ rest) 0
  = group1 m (x :: body ++ rest) :: re_findall_from r rest 0.
Proof.
  intros Hm He. cbn [re_findall_from]. rewrite Hm, He.
  now rewrite re_findall_from_skip.
Qed.

Lemma findall_skip_before (before rest : pystr) :
  contains (lit "Claim ") before = false -> claim_or_end rest ->
  re_findall_from re_claim (before ++ rest) 0 = re_findall_from re_claim rest 0.
Proof.
  intros Hc Hr. induction before as [|x b IH]; [reflexivity|].
  cbn [contains] in Hc. apply orb_false_iff in Hc as [Hs Hc].
  cbn [app re_findall_from].
  destruct (match_here re_claim (x :: b ++ rest)) as [m|] eqn:Em.
  - apply claim_prefix in Em.
    change (x :: b ++ rest) with ((x :: b) ++ rest) in Em.
    rewrite (no_straddle x b rest Hr Hs) in Em. discriminate Em.
  - exact (IH Hc).
Qed.

Lemma claim_text_head (c : claim) :
  exists body, claim_text c = 67%N :: body.
Proof. unfold claim_text. eexists. reflexivity. Qed.

Lemma findall_claims (segs : list (pystr * claim)) (tail : pystr) :
  claims_ok segs = true ->
  contains (lit "Claim ") tail = false ->
  re_findall re_claim (claims_text segs tail)
  = map (fun seg => sentence (snd seg)) segs.
Proof.
  unfold re_findall. intros Hok Ht.
  induction segs as [|[before c] segs IH]; cbn [claims_text claims_ok map snd] in *.
  - rewrite <- (app_nil_r tail), (findall_skip_before tail [] Ht); [reflexivity|].
    now left.
  - apply andb_true_iff in Hok as [Hok Hrest].
    apply andb_true_iff in Hok as [Hb Hc]. apply negb_true_iff in Hb.
    destruct (claim_text_head c) as [body Eb].
    rewrite (findall_skip_before before _ Hb)
      by (right; rewrite Eb; eexists; reflexivity).
    destruct (claim_match c (claims_text segs tail) Hc) as (m & Hm & He & Hg).
    rewrite Eb in *. cbn [app] in *.
    rewrite (re_findall_from_match _ _ _ _ m Hm) by (rewrite He; reflexivity).
    rewrite Hg. f_equal. exact (IH Hrest).
Qed.

Lemma sentence_chars (c : claim) (x : char) :
  claim_ok c = true -> In x (sentence c) -> x <> colon /\ x <> star.
Proof.
  unfold claim_ok, sentence. intros H HI.
  apply andb_true_iff in H as [_ Hb]. rewrite forallb_forall in Hb.
  apply in_app_or in HI as [HI|[<-|[]]]; [|split; discriminate].
  specialize (Hb x HI).
  repeat (apply andb_true_iff in Hb as [Hb ?]).
  unfold is_not in *. split; intros ->; discriminate.
Qed.

Lemma claims_ok_in (segs : list (pystr * claim)) (seg : pystr * claim) :
  claims_ok segs = true -> In seg segs -> claim_ok (snd seg) = true.
Proof.
  induction segs as [|[b c] segs IH]; intros H HI; [elim HI|].
  cbn [claims_ok] in H. apply andb_true_iff in H as [H Hr].
  apply andb_true_iff in H as [_ Hc].
  destruct HI as [<-|HI]; [exact Hc|exact (IH Hr HI)].
Qed.

(** X23. A text made of claims [Claim <n>...: <sentence>.], with any text
    without [Claim ] before, between and after them and no [#] anywhere,
    is cleaned to the sentences of its claims, in their order, with
    single spaces: the numbers and labels of the claims and all text
    outside the sentences are dropped. *)
Theorem clean_keeps_claims (segs : list (pystr * claim)) (tail : pystr) :
  segs <> [] ->
  claims_ok segs = true ->
  contains (lit "Claim ") tail = false ->
  ~ In hash (claims_text segs tail) ->
  clean_prediction_text (claims_text segs tail)
  = join space (split (join space (map (fun seg => sentence (snd seg)) segs))).
Proof.
  intros Hne Hok Ht Hh. unfold clean_prediction_text.
  rewrite (re_sub_unmatched re_header _ _
             (re_search_needs_char hash re_header _ (or_introl eq_refl) Hh)).
  rewrite (findall_claims segs tail Hok Ht).
  set (ss := map (fun seg => sentence (snd seg)) segs).
  assert (Hss : forall c, In c (join space ss) -> c <> colon /\ c <> star).
  { intros c Hc. apply join_in in Hc as [[<-|[]]|(w & Hw & Hc)].
    - split; discriminate.
    - unfold ss in Hw. apply in_map_iff in Hw as (seg & <- & Hseg).
      exact (sentence_chars _ c (claims_ok_in _ _ Hok Hseg) Hc). }
  destruct ss as [|s0 ss0] eqn:Ess.
  { destruct segs; [now elim Hne|discriminate Ess]. }
  rewrite <- Ess in *.
  rewrite (re_sub_unmatched re_reasoning _ (join space ss)).
  - rewrite (re_sub_unmatched re_bold _ (join space ss)); [reflexivity|].
    apply (re_search_needs_char star); [now left|].
    intros K. now destruct (Hss _ K) as [_ []].
  - apply (re_search_needs_char colon).
    + unfold re_reasoning. apply in_or_app. right. right. now left.
    + intros K. now destruct (Hss _ K) as [[] _].
Qed.

Lemma clean_keeps_claims_witness :
  clean_prediction_text
    (lit "Intro. Claim 1 (count): There are 5 rows. Reasoning: I counted. Claim 2: Sales  rose. Done")
  = lit "There are 5 rows. Sales rose.".
Proof.
  exact (clean_keeps_claims
           [(lit "Intro. ",
             MkClaim (lit "1 (count)") (lit " ") (lit "There are 5 rows"));
            (lit " Reasoning: I counted. ",
             MkClaim (lit "2") (lit " ") (lit "Sales  rose"))]
           (lit " Done")
           ltac:(discriminate) eq_refl eq_refl
           ltac:(vm_compute; intuition discriminate)).
Defined.

(** ** A reasoning section *)

Lemma reasoning_match (label body rest : pystr) :
  forallb (is_not colon) label = true ->
  nonempty body = true ->
  forallb (is_not dot) body = true ->
  exists m,
    match_here re_reasoning (reasoning_text label body ++ rest) = Some m /\
    m_end m = List.length (reasoning_text label body).
Proof.
  intros Hl Hne Hb. destruct body as [|b body]; [discriminate Hne|].
  unfold reasoning_text.
  assert (E : (lit "Reasoning" ++ label ++ colon :: (b :: body) ++ [dot]) ++ rest
              = lit "Reasoning" ++ label ++ colon :: (b :: body) ++ dot :: rest).
  { repeat first [progress cbn [app] | rewrite <- app_assoc]. reflexivity. }
  rewrite E. eexists. split.
  - unfold match_here, re_reasoning.
    change (chars "Reasoning")
      with [Chr 82; Chr 101; Chr 97; Chr 115; Chr 111; Chr 110; Chr 105;
            Chr 110; Chr 103]%N.
    change (lit "Reasoning") with [82; 101; 97; 115; 111; 110; 105; 110; 103]%N.
    cbn [app]. rewrite !rmatch_chr.
    apply rmatch_star_greedy.
    rewrite (span_all (is_not colon) label _ colon Hl eq_refl).
    rewrite skipn_length_app, rmatch_chr.
    change (b :: body ++ dot :: rest) with ((b :: body) ++ dot :: rest).
    apply (rmatch_plus_greedy _ _ _ _ _ _ (List.length body)).
    { exact (span_all (is_not dot) (b :: body) rest dot Hb eq_refl). }
    change (S (List.length body)) with (List.length (b :: body)).
    rewrite skipn_length_app, rmatch_chr. reflexivity.
  - cbn [m_end]. rewrite !length_app. cbn [List.length].
    rewrite !length_app. cbn [List.length].
    change (List.length (lit "Reasoning")) with 9. lia.
Qed.

Lemma no_claim_found (s : pystr) :
  contains (lit "Claim ") s = false -> re_findall re_claim s = [].
Proof.
  intros H. unfold re_findall. rewrite <- (app_nil_r s).
  rewrite (findall_skip_before s [] H); [reflexivity|now left].
Qed.

(** X24. A reasoning section, [Reasoning<label>: <text>.] up to its first
    full stop, is removed from a text that holds no claim and no header
    or bold marker: what stands before it (without [R]) and after it
    (without colon) is kept, with its whitespace collapsed. *)
Theorem clean_drops_reasoning (pre label body post : pystr) :
  forallb (is_not colon) label = true ->
  nonempty body = true ->
  forallb (is_not dot) body = true ->
  ~ In 82%N pre ->
  ~ In colon post ->
  (forall c, In c (pre ++ reasoning_text label body ++ post) ->
     c <> hash /\ c <> star) ->
  contains (lit "Claim ") (pre ++ reasoning_text label body ++ post) = false ->
  clean_prediction_text (pre ++ reasoning_text label body ++ post)
  = join space (split (pre ++ post)).
Proof.
  intros Hl Hne Hb Hpre Hpost Hplain Hclaim. unfold clean_prediction_text.
  set (x := pre ++ reasoning_text label body ++ post) in *.
  rewrite (re_sub_unmatched re_header _ x).
  2:{ apply (re_search_needs_char hash); [now left|].
      intros K. now destruct (Hplain _ K) as [[] _]. }
  rewrite (no_claim_found x Hclaim).
  assert (Er : re_sub re_reasoning (fun _ => []) x = pre ++ post).
  { unfold re_sub, x.
    rewrite (re_sub_from_pass 82%N (tl re_reasoning) _ pre _ Hpre).
    f_equal. change (Chr 82%N :: tl re_reasoning) with re_reasoning.
    destruct (reasoning_match label body post Hl Hne Hb) as (m & Hm & He).
    assert (Eh : exists t, reasoning_text label body = 82%N :: t)
      by (unfold reasoning_text; eexists; reflexivity).
    destruct Eh as [t Et]. rewrite Et in *. cbn [app] in *.
    rewrite (re_sub_from_match _ _ _ _ _ m Hm) by (rewrite He; reflexivity).
    cbn [app].
    apply (re_sub_unmatched re_reasoning (fun _ => []) post).
    apply (re_search_needs_char colon); [|exact Hpost].
    unfold re_reasoning. apply in_or_app. right. right. now left. }
  rewrite Er. rewrite (re_sub_unmatched re_bold _ (pre ++ post)); [reflexivity|].
  apply (re_search_needs_char star); [now left|].
  intros K. assert (Kx : In star x).
  { unfold x. apply in_app_or in K as [K|K]; apply in_or_app; [now left|].
    right. apply in_or_app. now right. }
  now destruct (Hplain _ Kx) as [_ []].
Qed.

Lemma clean_drops_reasoning_witness :
  clean_prediction_text
    (lit "Sales rose. Reasoning (step 1): the table says so. It is final.")
  = lit "Sales rose. It is final.".
Proof.
  exact (clean_drops_reasoning (lit "Sales rose. ") (lit " (step 1)")
           (lit " the table says so") (lit " It is final.")
           eq_refl eq_refl eq_refl
           ltac:(vm_compute; intuition discriminate)
           ltac:(vm_compute; intuition discriminate)
           ltac:(intros c Hc; vm_compute in Hc;
                 repeat (destruct Hc as [<-|Hc]; [split; discriminate|]);
                 elim Hc)
           eq_refl).
Defined.

Lemma counts_bound_witness :
  exists rep,
    EvaluateLotnlg.evaluate_lotnlg Sample.repr Sample.lower Sample.nli_entails
      Sample.rouge_half Sample.bleu_quarter Sample.predictions_ab Sample.gold_a
    = Ok rep /\
    r_total rep + r_not_found rep <= 2.
Proof.
  eexists. split; [vm_compute; reflexivity|].
  exact (proj1 (counts_bound Sample.repr Sample.lower Sample.nli_entails
                  Sample.rouge_half (fun _ _ => Raise ExternalError)
                  Sample.bleu_quarter Sample.chat_fails Sample.predictions_ab
                  Sample.gold_a Sample.model) _ eq_refl).
Defined.

(** ** Markers in well-formed position, in a text that may hold colons *)




(** A text well-formed without colons is well placed. *)
Lemma well_formed_placed (toks : list token) :
  well_formed toks = true -> well_placed toks = true.
Proof.
  assert (P : forall s, forallb plain_char s = true -> forallb marker_free s = true).
  { intros s. rewrite !forallb_forall. intros H x Hx.
    destruct (plain_char_spec _ (H x Hx)) as (H1 & H2 & _).
    unfold marker_free. rewrite andb_true_iff, !negb_true_iff, !N.eqb_neq. tauto. }
  induction toks as [|tok toks IH]; intros H; [reflexivity|].
  pose proof (IH (well_formed_tail _ _ H)) as IH'.
  destruct tok; cbn [well_formed well_placed] in *;
    rewrite ?andb_true_iff in *; repeat split; try tauto; apply P; tauto.
Qed.











(** ** The counts, read off the two files *)

Lemma gold_record_last (key_of : dict -> option pystr) (gold_data : dict)
    (key : pystr) (g : dict) :
  gold_record key_of gold_data key = Some g -> last_with key_of gold_data key g.
Proof.
  induction gold_data as [|[i item] rest IH]; [discriminate|].
  cbn [gold_record]. destruct (gold_record key_of rest key) as [g'|] eqn:E.
  - intros [= ->]. destruct (IH eq_refl) as (pre & idx & post & -> & Hk & Hl).
    now exists ((i, item) :: pre), idx, post.
  - destruct item as [| | | | | |g0]; try discriminate.
    destruct (key_of g0) as [k|] eqn:Ek; [|discriminate].
    destruct (str_eqb k key) eqn:Es; [|discriminate].
    apply str_eqb_eq in Es. subst k. intros [= ->].
    exists [], i, rest. split; [reflexivity|]. split; [exact Ek|].
    clear IH. induction rest as [|[j item] rest IH]; [intros ? ? []|].
    cbn [gold_record] in E.
    destruct (gold_record key_of rest key); [discriminate E|].
    intros idx' g' [[= _ ->]|HI]; [|exact (IH eq_refl idx' g' HI)].
    destruct (key_of g') as [k|]; [|discriminate].
    destruct (str_eqb k key) eqn:Es; [discriminate E|].
    apply str_eqb_neq in Es. congruence.
Qed.

Lemma gold_record_carried (key_of : dict -> option pystr) (gold_data : dict)
    (key : pystr) :
  carried key_of gold_data key
  = match gold_record key_of gold_data key with
    | Some _ => true
    | None => false
    end.
Proof.
  unfold carried.
  induction gold_data as [|[i item] rest IH]; [reflexivity|].
  cbn [existsb gold_record snd]. rewrite IH.
  destruct (gold_record key_of rest key); [apply orb_true_r|].
  rewrite orb_false_r. destruct item; try reflexivity.
  destruct (key_of d) as [k|]; [|reflexivity].
  destruct (str_eqb k key); reflexivity.
Qed.

(** The index gives the gold record of every key. *)
Lemma raw_index_gold_record (field : pystr) (gold_data : dict)
    (index : gold_index) (key : pystr) :
  for_items (index_raw field) gold_data [] = Ok index ->
  index_find index key = gold_record (raw_key field) gold_data key.
Proof.
  intros Hi. destruct (gold_record (raw_key field) gold_data key) as [g|] eqn:E.
  - exact (raw_index_last _ _ _ _ _ Hi (gold_record_last _ _ _ _ E)).
  - apply (raw_index_miss _ _ _ Hi). rewrite gold_record_carried. now rewrite E.
Qed.

Lemma str_index_gold_record (repr : json -> pystr) (field : pystr)
    (gold_data : dict) (index : gold_index) (key : pystr) :
  for_items (index_str repr field) gold_data [] = Ok index ->
  index_find index key = gold_record (str_key repr field) gold_data key.
Proof.
  intros Hi.
  destruct (gold_record (str_key repr field) gold_data key) as [g|] eqn:E.
  - exact (str_index_last _ _ _ _ _ _ Hi (gold_record_last _ _ _ _ E)).
  - apply (str_index_miss _ _ _ _ Hi). rewrite gold_record_carried. now rewrite E.
Qed.

Lemma paired_orphans (key_of : dict -> option pystr) (predictions gold_data : dict) :
  List.length (paired key_of predictions gold_data)
  + List.length (orphans key_of predictions gold_data)
  = List.length predictions.
Proof. unfold paired, orphans. apply filter_length. Qed.

Section Partition.

Variable repr : json -> pystr.
Variable lower : pystr -> pystr.
Variable nli_model : pystr -> result pystr.
Variable rouge_score : json -> pystr -> result Q.
Variable sentence_bleu : list (list pystr) -> list pystr -> result Q.
Variable chat_completion : pystr -> pystr -> result pystr.

Ltac run_to_loop Hrun :=
  repeat match type of Hrun with
         | bind ?r _ = Ok _ =>
             let x := fresh "x" in
             let E := fresh "E" in
             destruct r as [x|] eqn:E; [cbn [bind] in Hrun|discriminate Hrun]
         end.

Ltac miss_case m :=
  let H := fresh "H" in
  intros ? ? H; unfold m; rewrite H; reflexivity.
Ltac hit_case m :=
  let H := fresh "H" in
  let K := fresh "K" in
  intros ? ? ? H K; unfold m in K; rewrite H in K; hit_or_raise K.

(** The [try] block the loop runs on a prediction is the one of its
    gold record. *)
Lemma lotnlg_scored_block (gold_data : dict) (index : gold_index)
    (sample : json) (k : pystr) (v : json) :
  for_items (index_raw (lit "csv_id")) gold_data [] = Ok index ->
  first_value gold_data = Ok sample ->
  block_returns (EvaluateLotnlg.results0 (has_key (lit "logical_labels") sample))
    (EvaluateLotnlg.matched repr lower nli_model rouge_score sentence_bleu
       (has_key (lit "logical_labels") sample) index k v)
  = lotnlg_scored repr lower nli_model rouge_score sentence_bleu gold_data (k, v).
Proof.
  intros Hi Hs. unfold EvaluateLotnlg.matched, lotnlg_scored.
  rewrite (raw_index_gold_record _ _ _ k Hi), Hs. cbn [fst snd].
  destruct (gold_record _ gold_data k) as [g|]; [|reflexivity].
  destruct (prediction_text repr v) as [p|]; [|reflexivity]. cbn [bind].
  unfold dict_index.
  destruct (dict_find g (lit "table_text")) as [t|]; [|reflexivity]. cbn [bind].
  destruct (dict_find g (lit "sentences")) as [ss|]; [|reflexivity]. cbn [bind].
  destruct (first_or_str repr ss) as [x|]; reflexivity.
Qed.

Lemma cot_judged_score (gold_data : dict) (index : gold_index)
    (model k : pystr) (v : json) :
  for_items (index_raw (lit "csv_id")) gold_data [] = Ok index ->
  score_returns (CotEval.matched repr chat_completion index model k v)
  = cot_judged repr chat_completion model gold_data (k, v).
Proof.
  intros Hi. unfold CotEval.matched, cot_judged.
  rewrite (raw_index_gold_record _ _ _ k Hi). cbn [fst snd].
  destruct (gold_record _ gold_data k) as [g|]; [|reflexivity].
  unfold dict_index.
  destruct (dict_find g (lit "table_text")) as [t|]; [|reflexivity]. cbn [bind].
  destruct (CotEval.evaluate_single repr chat_completion t v model); reflexivity.
Qed.

(** C2. The counts of a report partition the predictions by their key.
    [not_found] is the number of predictions whose key no gold record
    has; [total] is the number of predictions that have a gold record
    and whose scoring ended without an exception.  So when no scorer
    invocation raises, [total] is the number of predictions whose key
    some gold record has, and [total + not_found] is the number of
    predictions.  Stated for [evaluate_lotnlg] of evaluate_lotnlg.py and
    for [evaluate_all] of cot_eval.py. *)
Theorem counts_partition (predictions gold_data : dict) (model : pystr) :
  (forall rep : Lexical.report,
     EvaluateLotnlg.evaluate_lotnlg repr lower nli_model rouge_score
       sentence_bleu predictions gold_data = Ok rep ->
     Lexical.r_not_found rep
     = List.length (orphans (raw_key (lit "csv_id")) predictions gold_data) /\
     Lexical.r_total rep
     = List.length
         (filter (lotnlg_scored repr lower nli_model rouge_score sentence_bleu
                    gold_data) predictions) /\
     (EvaluateLotnlg.scorers_return repr lower nli_model rouge_score
        sentence_bleu predictions gold_data ->
      Lexical.r_total rep
      = List.length (paired (raw_key (lit "csv_id")) predictions gold_data) /\
      Lexical.r_total rep + Lexical.r_not_found rep = List.length predictions)) /\
  (forall rep : Judge.report,
     CotEval.evaluate_all repr chat_completion predictions gold_data model
       = Ok rep ->
     Judge.r_not_found rep
     = List.length (orphans (raw_key (lit "csv_id")) predictions gold_data) /\
     Judge.r_evaluated rep
     = List.length
         (filter (cot_judged repr chat_completion model gold_data) predictions) /\
     (CotEval.scorers_return repr chat_completion predictions gold_data model ->
      Judge.r_evaluated rep
      = List.length (paired (raw_key (lit "csv_id")) predictions gold_data) /\
      Judge.r_evaluated rep + Judge.r_not_found rep = List.length predictions)).
Proof.
  split; intros rep Hrun.
  - unfold EvaluateLotnlg.evaluate_lotnlg in Hrun. run_to_loop Hrun.
    injection Hrun as <-.
    cbn [summary Lexical.r_not_found Lexical.r_total].
    set (has := has_key (lit "logical_labels") x0) in *.
    assert (Hn : not_found x1
                 = List.length (orphans (raw_key (lit "csv_id")) predictions
                                  gold_data)).
    { rewrite <- (filter_is_miss _ _ x _ (raw_index_miss _ _ _ E)).
      apply (lexical_loop_not_found _ x) in E1;
        [exact E1|miss_case EvaluateLotnlg.matched
         |hit_case EvaluateLotnlg.matched]. }
    assert (Ht : total x1
                 = List.length
                     (filter (lotnlg_scored repr lower nli_model rouge_score
                                sentence_bleu gold_data) predictions)).
    { rewrite (lexical_loop_total _ _
                 (lotnlg_matched_uniform repr lower nli_model rouge_score
                    sentence_bleu has x)
                 predictions _ x1 E1 eq_refl).
      cbn [total Nat.add]. f_equal. apply filter_ext. intros [k v].
      exact (lotnlg_scored_block gold_data x x0 k v E E0). }
    split; [exact Hn|]. split; [exact Ht|]. intros Hok.
    assert (Hp : total x1
                 = List.length (paired (raw_key (lit "csv_id")) predictions
                                  gold_data)).
    { rewrite Ht. unfold paired. f_equal. apply filter_ext_in. intros [k v] HI.
      rewrite <- (lotnlg_scored_block gold_data x x0 k v E E0). cbn [fst].
      fold has.
      rewrite gold_record_carried, <- (raw_index_gold_record _ _ _ k E).
      destruct (for_items_ok_inv _ _ _ _ E1 k v HI) as (s0 & s1 & Hs).
      unfold EvaluateLotnlg.step in Hs. fold has in Hs.
      destruct (EvaluateLotnlg.matched repr lower nli_model rouge_score
                  sentence_bleu has x k v) as [[block|]|e] eqn:Em;
        [| |discriminate Hs].
      - cbn [block_returns].
        pose proof (Hok x x0 k v block E E0 HI Em) as Hb. fold has in Hb.
        rewrite Hb.
        destruct (index_find x k) as [g|] eqn:Ef; [reflexivity|].
        unfold EvaluateLotnlg.matched in Em. rewrite Ef in Em. discriminate Em.
      - cbn [block_returns]. destruct (index_find x k) as [g|] eqn:Ef;
          [|reflexivity].
        exfalso. revert Em. generalize k v g Ef. hit_case EvaluateLotnlg.matched. }
    split; [exact Hp|]. rewrite Hp, Hn. apply paired_orphans.
  - unfold CotEval.evaluate_all in Hrun. run_to_loop Hrun. injection Hrun as <-.
    cbn [Judge.summary Judge.r_not_found Judge.r_evaluated].
    assert (Hn : Judge.not_found x0
                 = List.length (orphans (raw_key (lit "csv_id")) predictions
                                  gold_data)).
    { rewrite <- (filter_is_miss _ _ x _ (raw_index_miss _ _ _ E)).
      apply (judge_loop_not_found _ x) in E0;
        [exact E0|miss_case CotEval.matched|hit_case CotEval.matched]. }
    assert (Ht : Judge.total_count x0
                 = List.length
                     (filter (cot_judged repr chat_completion model gold_data)
                        predictions)).
    { rewrite (judge_loop_total _ predictions _ x0 E0).
      cbn [Judge.total_count Judge.init Nat.add]. f_equal.
      apply filter_ext. intros [k v].
      exact (cot_judged_score gold_data x model k v E). }
    split; [exact Hn|]. split; [exact Ht|]. intros Hok.
    assert (Hp : Judge.total_count x0
                 = List.length (paired (raw_key (lit "csv_id")) predictions
                                  gold_data)).
    { rewrite Ht. unfold paired. f_equal. apply filter_ext_in. intros [k v] HI.
      rewrite <- (cot_judged_score gold_data x model k v E). cbn [fst].
      rewrite gold_record_carried, <- (raw_index_gold_record _ _ _ k E).
      destruct (for_items_ok_inv _ _ _ _ E0 k v HI) as (s0 & s1 & Hs).
      unfold CotEval.step in Hs.
      destruct (CotEval.matched repr chat_completion x model k v)
        as [[scored|]|e] eqn:Em; [| |discriminate Hs].
      - destruct (Hok x k v scored E HI Em) as [score ->].
        cbn [score_returns].
        destruct (index_find x k) as [g|] eqn:Ef; [reflexivity|].
        unfold CotEval.matched in Em. rewrite Ef in Em. discriminate Em.
      - cbn [score_returns]. destruct (index_find x k) as [g|] eqn:Ef;
          [|reflexivity].
        exfalso. revert Em. generalize k v g Ef. hit_case CotEval.matched. }
    split; [exact Hp|]. rewrite Hp, Hn. apply paired_orphans.
Qed.

End Partition.

Lemma counts_partition_witness :
  (exists rep : Lexical.report,
     EvaluateLotnlg.evaluate_lotnlg Sample.repr Sample.lower Sample.nli_entails
       Sample.rouge_half Sample.bleu_quarter Sample.predictions_ab Sample.gold_a
     = Ok rep /\
     Lexical.r_not_found rep = 1 /\
     Lexical.r_total rep = 1 /\
     List.length (paired (raw_key (lit "csv_id")) Sample.predictions_ab
                    Sample.gold_a) = 1 /\
     Lexical.r_total rep + Lexical.r_not_found rep = 2) /\
  (exists rep : Judge.report,
     CotEval.evaluate_all Sample.repr (Sample.chat_says FAITHFUL)
       Sample.predictions_ab Sample.gold_a Sample.model = Ok rep /\
     Judge.r_not_found rep = 1 /\
     Judge.r_evaluated rep = 1 /\
     List.length (paired (raw_key (lit "csv_id")) Sample.predictions_ab
                    Sample.gold_a) = 1 /\
     Judge.r_evaluated rep + Judge.r_not_found rep = 2).
Proof.
  destruct (counts_partition Sample.repr Sample.lower Sample.nli_entails
              Sample.rouge_half Sample.bleu_quarter (Sample.chat_says FAITHFUL)
              Sample.predictions_ab Sample.gold_a Sample.model) as [HL HJ].
  split.
  - destruct (EvaluateLotnlg.evaluate_lotnlg Sample.repr Sample.lower
                Sample.nli_entails Sample.rouge_half Sample.bleu_quarter
                Sample.predictions_ab Sample.gold_a) as [rep|e] eqn:E;
      [|vm_compute in E; discriminate E].
    exists rep. split; [reflexivity|].
    destruct (HL rep eq_refl) as (Hn & Ht & Hp).
    destruct Hp as [Hq Hs].
    + intros index sample k v block Hi Hs HI Hm.
      vm_compute in Hi. injection Hi as <-.
      vm_compute in Hs. injection Hs as <-.
      destruct HI as [HI|[HI|[]]]; injection HI as <- <-.
      * vm_compute in Hm. injection Hm as <-. vm_compute. reflexivity.
      * vm_compute in Hm. discriminate Hm.
    + rewrite Hn, Ht. vm_compute. repeat split.
  - destruct (CotEval.evaluate_all Sample.repr (Sample.chat_says FAITHFUL)
                Sample.predictions_ab Sample.gold_a Sample.model) as [rep|e] eqn:E;
      [|vm_compute in E; discriminate E].
    exists rep. split; [reflexivity|].
    destruct (HJ rep eq_refl) as (Hn & Ht & Hp).
    destruct Hp as [Hq Hs].
    + intros index k v scored Hi HI Hm.
      vm_compute in Hi. injection Hi as <-.
      destruct HI as [HI|[HI|[]]]; injection HI as <- <-.
      * vm_compute in Hm. injection Hm as <-. eexists. reflexivity.
      * vm_compute in Hm. discriminate Hm.
    + rewrite Hn, Ht. vm_compute. repeat split.
Defined.

Section Totals.

Variable repr : json -> pystr.
Variable lower : pystr -> pystr.
Variable nli_model : pystr -> result pystr.
Variable rouge_score : json -> pystr -> result Q.
Variable rouge_scores : json -> pystr -> result EvaluateFetaqa.rouge_scores.
Variable sentence_bleu : list (list pystr) -> list pystr -> result Q.
Variable chat_completion : pystr -> pystr -> result pystr.

Ltac run_to_loop Hrun :=
  repeat match type of Hrun with
         | bind ?r _ = Ok _ =>
             let x := fresh "x" in
             let E := fresh "E" in
             destruct r as [x|] eqn:E; [cbn [bind] in Hrun|discriminate Hrun]
         end.

Lemma logicnlg_scored_block (gold_data : dict) (index : gold_index)
    (sample : json) (k : pystr) (v : json) :
  for_items (index_raw (lit "csv_id")) gold_data [] = Ok index ->
  first_value gold_data = Ok sample ->
  block_returns
    (EvaluateLogicnlg.results0 (has_key (lit "logical_labels") sample))
    (EvaluateLogicnlg.matched repr lower nli_model rouge_score sentence_bleu
       (has_key (lit "logical_labels") sample) index k v)
  = logicnlg_scored repr lower nli_model rouge_score sentence_bleu gold_data
      (k, v).
Proof.
  intros Hi Hs. unfold EvaluateLogicnlg.matched, logicnlg_scored.
  rewrite (raw_index_gold_record _ _ _ k Hi), Hs. cbn [fst snd].
  destruct (gold_record _ gold_data k) as [g|]; [|reflexivity].
  destruct (prediction_text repr v) as [p|]; [|reflexivity]. cbn [bind].
  unfold dict_index.
  destruct (dict_find g (lit "table_text")) as [t|]; [|reflexivity]. cbn [bind].
  destruct (dict_find g (lit "sentences")) as [ss|]; [|reflexivity]. cbn [bind].
  destruct (first_or_str repr ss) as [x|]; reflexivity.
Qed.

Lemma fetaqa_scored_block (gold_data : dict) (index : gold_index)
    (k : pystr) (v : json) :
  for_items (index_str repr (lit "feta_id")) gold_data [] = Ok index ->
  block_returns EvaluateFetaqa.results0
    (EvaluateFetaqa.matched repr rouge_scores sentence_bleu index k v)
  = fetaqa_scored repr rouge_scores sentence_bleu gold_data (k, v).
Proof.
  intros Hi. unfold EvaluateFetaqa.matched, fetaqa_scored.
  rewrite (str_index_gold_record _ _ _ _ k Hi). cbn [fst snd].
  destruct (gold_record _ gold_data k) as [g|]; [|reflexivity].
  destruct (prediction_text repr v) as [p|]; [|reflexivity]. cbn [bind].
  unfold dict_index.
  destruct (dict_find g (lit "answer")) as [a|]; reflexivity.
Qed.

(** Where the loop body of a judge passes a prediction, its [try] block
    gives a score exactly when the fields of the record can be cut. *)
Lemma fetaqa_judged_score (gold_data : dict) (index : gold_index)
    (model k : pystr) (v : json)
    (pair : option (result Z)) :
  for_items (index_str repr (lit "feta_id")) gold_data [] = Ok index ->
  CotEvalFetaqa.matched repr chat_completion index model k v = Ok pair ->
  score_returns (Ok pair) = fetaqa_judged repr gold_data (k, v).
Proof.
  intros Hi. unfold CotEvalFetaqa.matched, fetaqa_judged.
  rewrite (str_index_gold_record _ _ _ _ k Hi). cbn [fst snd].
  destruct (gold_record _ gold_data k) as [g|]; [|intros [= <-]; reflexivity].
  destruct (prediction_text repr v) as [p|]; [|discriminate]. cbn [bind].
  intros [= <-].
  destruct (dict_get g (lit "table_text") (JStr [])); try reflexivity;
    cbn [py_slice_to bind sliceable andb];
    destruct (dict_get g (lit "answer") (JStr [])); reflexivity.
Qed.

Lemma lotnlg_judged_score (gold_data : dict) (index : gold_index)
    (model k : pystr) (v : json)
    (pair : option (result Z)) :
  for_items (index_raw (lit "csv_id")) gold_data [] = Ok index ->
  CotEvalLotnlg.matched repr chat_completion index model k v = Ok pair ->
  score_returns (Ok pair) = lotnlg_judged gold_data (k, v).
Proof.
  intros Hi. unfold CotEvalLotnlg.matched, lotnlg_judged.
  rewrite (raw_index_gold_record _ _ _ k Hi). cbn [fst snd].
  destruct (gold_record _ gold_data k) as [g|]; [|intros [= <-]; reflexivity].
  destruct (prediction_text repr v) as [p|]; [|discriminate]. cbn [bind].
  intros [= <-].
  destruct (dict_get g (lit "table_text") (JStr [])); reflexivity.
Qed.

(** X18. The pairs a report counts, read off the two files.  For
    evaluate_logicnlg.py and evaluate_fetaqa.py, [total] is the number of
    predictions whose key some gold record has and whose scoring, on the
    fields of the last such record, ends without an exception.  For the
    judges of cot_eval_fetaqa.py and cot_eval_lotnlg.py, the count of
    evaluated pairs is the number of predictions whose key some gold
    record has, the table (and, for FeTaQA, the answer) of the last such
    record being text or a list: a failed call does not take a pair out
    of the count. *)
Theorem total_exact (predictions gold_data : dict) (model : pystr) :
  (forall rep,
     EvaluateLogicnlg.evaluate_lotnlg repr lower nli_model rouge_score
       sentence_bleu predictions gold_data = Ok rep ->
     r_total rep
     = List.length
         (filter (logicnlg_scored repr lower nli_model rouge_score
                    sentence_bleu gold_data) predictions)) /\
  (forall rep,
     EvaluateFetaqa.evaluate_fetaqa repr rouge_scores sentence_bleu
       predictions gold_data = Ok rep ->
     r_total rep
     = List.length
         (filter (fetaqa_scored repr rouge_scores sentence_bleu gold_data)
            predictions)) /\
  (forall rep,
     CotEvalFetaqa.evaluate_all_fetaqa repr chat_completion predictions
       gold_data model = Ok rep ->
     Judge.r_evaluated rep
     = List.length (filter (fetaqa_judged repr gold_data) predictions)) /\
  (forall rep,
     CotEvalLotnlg.evaluate_all_lotnlg repr chat_completion predictions
       gold_data model = Ok rep ->
     Judge.r_evaluated rep
     = List.length (filter (lotnlg_judged gold_data) predictions)).
Proof.
  repeat apply conj; intros rep Hrun.
  - unfold EvaluateLogicnlg.evaluate_lotnlg in Hrun. run_to_loop Hrun.
    injection Hrun as <-. cbn [summary r_total].
    rewrite (lexical_loop_total _ _
               (logicnlg_matched_uniform repr lower nli_model rouge_score
                  sentence_bleu _ x)
               predictions _ x1 E1 eq_refl).
    cbn [total Nat.add]. f_equal. apply filter_ext. intros [k v].
    exact (logicnlg_scored_block gold_data x x0 k v E E0).
  - unfold EvaluateFetaqa.evaluate_fetaqa in Hrun. run_to_loop Hrun.
    injection Hrun as <-. cbn [summary r_total].
    rewrite (lexical_loop_total _ _
               (fetaqa_matched_uniform repr rouge_scores sentence_bleu x)
               predictions _ x0 E0 eq_refl).
    cbn [total Nat.add]. f_equal. apply filter_ext. intros [k v].
    exact (fetaqa_scored_block gold_data x k v E).
  - unfold CotEvalFetaqa.evaluate_all_fetaqa in Hrun. run_to_loop Hrun.
    injection Hrun as <-. cbn [Judge.summary Judge.r_evaluated].
    rewrite (judge_loop_total _ predictions _ x0 E0).
    cbn [Judge.total_count Judge.init Nat.add]. f_equal.
    apply filter_ext_in. intros [k v] HI. cbn [fst snd].
    destruct (for_items_ok_inv _ _ _ _ E0 k v HI) as (s0 & s1 & Hs).
    unfold CotEvalFetaqa.step in Hs.
    destruct (CotEvalFetaqa.matched repr chat_completion x model k v)
      as [pair|e] eqn:Em; [|discriminate Hs].
    exact (fetaqa_judged_score gold_data x model k v pair E Em).
  - unfold CotEvalLotnlg.evaluate_all_lotnlg in Hrun. run_to_loop Hrun.
    injection Hrun as <-. cbn [Judge.summary Judge.r_evaluated].
    rewrite (judge_loop_total _ predictions _ x0 E0).
    cbn [Judge.total_count Judge.init Nat.add]. f_equal.
    apply filter_ext_in. intros [k v] HI. cbn [fst snd].
    destruct (for_items_ok_inv _ _ _ _ E0 k v HI) as (s0 & s1 & Hs).
    unfold CotEvalLotnlg.step in Hs.
    destruct (CotEvalLotnlg.matched repr chat_completion x model k v)
      as [pair|e] eqn:Em; [|discriminate Hs].
    exact (lotnlg_judged_score gold_data x model k v pair E Em).
Qed.

End Totals.

Lemma total_exact_witness :
  (exists rep,
     EvaluateLogicnlg.evaluate_lotnlg Sample.repr Sample.lower
       Sample.nli_entails Sample.rouge_half Sample.bleu_quarter
       Sample.predictions_ab Sample.gold_a = Ok rep /\
     r_total rep = 1) /\
  (exists rep,
     CotEvalFetaqa.evaluate_all_fetaqa Sample.repr Sample.chat_fails
       Sample.predictions_q Sample.gold_q Sample.model = Ok rep /\
     Judge.r_evaluated rep = 1).
Proof.
  pose proof (total_exact Sample.repr Sample.lower Sample.nli_entails
                Sample.rouge_half (fun _ _ => Raise ExternalError)
                Sample.bleu_quarter Sample.chat_fails) as H.
  split.
  - destruct (EvaluateLogicnlg.evaluate_lotnlg Sample.repr Sample.lower
                Sample.nli_entails Sample.rouge_half Sample.bleu_quarter
                Sample.predictions_ab Sample.gold_a) as [rep|e] eqn:E;
      [|vm_compute in E; discriminate E].
    exists rep. split; [reflexivity|].
    rewrite (proj1 (H Sample.predictions_ab Sample.gold_a Sample.model) rep E).
    vm_compute. reflexivity.
  - destruct (CotEvalFetaqa.evaluate_all_fetaqa Sample.repr Sample.chat_fails
                Sample.predictions_q Sample.gold_q Sample.model)
      as [rep|e] eqn:E; [|vm_compute in E; discriminate E].
    exists rep. split; [reflexivity|].
    rewrite (proj1 (proj2 (proj2 (H Sample.predictions_q Sample.gold_q
                                    Sample.model))) rep E).
    vm_compute. reflexivity.
Defined.

(** ** What a match of a pattern looks like *)









(** ** Texts whose stars stand in sealed bold spans *)












(** ** The reasoning pass on a placed text *)






(** ** The bold pass on a placed text *)






